(** * FDC+ serial drive simulator: the protocol engine of fdc-sim-gui.cpp

    A shallow embedding of the three transactions of [FDCDialog]
    ([statCmd], [readCmd], [writCmd]) and of [calcChecksum], over an
    abstract serial transport, followed by the properties of the
    protocol engine that the design document states. *)

From Stdlib Require Import ZArith Lia Ascii String.
From stdpp Require Import base list strings.

Local Open Scope Z_scope.

(** ** Constants of fdc-sim-gui.h *)

Definition MAX_DRIVE : Z := 4.
Definition CMDBUF_SIZE : Z := 10.
Definition COMMAND_LENGTH : Z := 8.
Definition TRACK_MAX_5 : Z := 35.
Definition TRACK_MAX_8 : Z := 77.
Definition TRACK_LEN_5 : Z := 137 * 16.
Definition TRACK_LEN_8 : Z := 137 * 32.
Definition TRACKBUF_LEN : Z := TRACK_LEN_8.
Definition TRACKBUF_LEN_CRC : Z := TRACKBUF_LEN + 2.
Definition STAT_OK : Z := 0x0000.
Definition STAT_NOT_READY : Z := 0x0001.
Definition STAT_CHECKSUM_ERR : Z := 0x0002.
Definition STAT_WRITE_ERR : Z := 0x0003.

(** ** Fixed-width integers

    Bytes and words are integers of [Z]; a conversion to a narrower C++
    type is written out where the source performs one. *)

(** Conversion to [quint8]. *)
Definition wrap8 (z : Z) : Z := z mod 256.

(** Conversion to [quint16]. *)
Definition wrap16 (z : Z) : Z := z mod 65536.

(** Conversion to [qint16] (two's complement). *)
Definition sint16 (z : Z) : Z := (z + 32768) mod 65536 - 32768.

(** Sum of a list of integers, the mathematical sum the checksum is
    compared with. *)
Definition sumZ (l : list Z) : Z := foldr Z.add 0 l.

(** ** [FDCDialog::calcChecksum]

    [checksum] is a [quint16]; [checksum += data[i]] adds in [int] and
    converts back to 16 bits.  The loop visits [data[0..length)]; every
    call site passes a length within the buffer. *)
Definition calcChecksum (data : list Z) (length : Z) : Z :=
  foldl (fun checksum b => wrap16 (checksum + b)) 0
        (take (Z.to_nat length) data).

(** ** The command buffer [tcommand_t]

    A union of [asBytes[CMDBUF_SIZE]] with the struct
    [{command[4]; param1/rcode; param2/rdata; checksum}].  The buffer is
    kept as its ten bytes; the 16-bit members are read and written through
    the bytes, low byte first, as on the little-endian hosts the program
    is built for. *)

Definition get16 (buf : list Z) (off : nat) : Z :=
  buf !!! off + 256 * buf !!! S off.

Definition set16 (buf : list Z) (off : nat) (v : Z) : list Z :=
  <[S off := wrap8 (Z.shiftr v 8)]> (<[off := wrap8 v]> buf).

Definition param1 (buf : list Z) : Z := get16 buf 4.
Definition rcode (buf : list Z) : Z := get16 buf 4.
Definition param2 (buf : list Z) : Z := get16 buf 6.
Definition rdata (buf : list Z) : Z := get16 buf 6.
Definition checksum (buf : list Z) : Z := get16 buf 8.

Definition set_param1 (v : Z) (buf : list Z) : list Z := set16 buf 4 (wrap16 v).
Definition set_param2 (v : Z) (buf : list Z) : list Z := set16 buf 6 (wrap16 v).
Definition set_checksum (v : Z) (buf : list Z) : list Z := set16 buf 8 (wrap16 v).

(** [cmdBuf.command[0..3] = c0..c3]. *)
Definition set_command (tag : list Z) (buf : list Z) : list Z :=
  list_inserts 0 (take 4 tag) buf.

(** ** Text

    Characters of a byte; decimal and hexadecimal rendering as
    [QString::arg] produces them. *)

Definition char_of_byte (b : Z) : ascii := Ascii.ascii_of_N (Z.to_N b).

Definition text_of_bytes (bs : list Z) : string :=
  foldr (fun b t => String (char_of_byte b) t) EmptyString bs.

Definition bytes_of_text (t : string) : list Z :=
  (fun c => Z.of_N (Ascii.N_of_ascii c)) <$> list_ascii_of_string t.

Definition digit_char (d : Z) : ascii :=
  if d <? 10 then char_of_byte (48 + d) else char_of_byte (87 + d).

(** The [n] least significant digits of [z] in base [base], most
    significant first. *)
Fixpoint digits (base : Z) (n : nat) (z : Z) (acc : string) : string :=
  match n with
  | O => acc
  | S n' => digits base n' (z / base) (String (digit_char (z mod base)) acc)
  end.

(** Number of digits needed for [0 <= z < 100000], at least one. *)
Definition dec_width (z : Z) : nat :=
  if z <? 10 then 1 else if z <? 100 then 2 else if z <? 1000 then 3
  else if z <? 10000 then 4 else 5.

(** [.arg(z)] for an integer of at most 17 bits. *)
Definition dec (z : Z) : string :=
  if z <? 0 then String "-"%char (digits 10 (dec_width (- z)) (- z) EmptyString)
  else digits 10 (dec_width z) z EmptyString.

(** [.arg(z, 4, 16, QChar('0'))] for a [quint16]. *)
Definition hex4 (z : Z) : string := digits 16 4 z EmptyString.

(** The C string at [cmdBuf.command]: [command] has no terminator, so the
    string runs on through the buffer to the first zero byte.  The member
    that follows [cmdBuf] is [headStatus], whose first byte is zero, so the
    string ends with the buffer at the latest. *)
Fixpoint cstring (bs : list Z) : list Z :=
  match bs with
  | [] => []
  | b :: bs' => if b =? 0 then [] else b :: cstring bs'
  end.

(** [QString(const char * )] is [QString::fromUtf8]: the text is a sequence
    of UTF-16 code units.  A byte-order mark EF BB BF at the very start is
    dropped.  A byte below 0x80 is its own character; a well-formed
    sequence of two or three bytes gives one unit, one of four bytes the
    two surrogates of its character; overlong forms, encoded surrogates
    and values above U+10FFFF are not well formed.  A byte that does not
    start a well-formed sequence gives U+FFFD, and decoding resumes at the
    byte after it. *)

Definition isContinuationByte (b : Z) : bool := Z.land b 0xC0 =? 0x80.

Definition skipBom (bs : list Z) : list Z :=
  match bs with
  | b0 :: b1 :: b2 :: rest =>
      if (b0 =? 0xEF) && (b1 =? 0xBB) && (b2 =? 0xBF) then rest else bs
  | _ => bs
  end.

Fixpoint fromUtf8 (bs : list Z) : list Z :=
  match bs with
  | [] => []
  | b :: rest =>
      let replaced := 0xFFFD :: fromUtf8 rest in
      if b <? 0x80 then b :: fromUtf8 rest
      else if b <=? 0xC1 then replaced
      else if b <? 0xE0 then
        match rest with
        | c1 :: r1 =>
            let uc := Z.lor (Z.shiftl (Z.land b 0x1F) 6) (Z.land c1 0x3F) in
            if isContinuationByte c1 && (0x80 <=? uc)
            then uc :: fromUtf8 r1 else replaced
        | _ => replaced
        end
      else if b <? 0xF0 then
        match rest with
        | c1 :: c2 :: r2 =>
            let uc := Z.lor (Z.shiftl (Z.land b 0x0F) 12)
                        (Z.lor (Z.shiftl (Z.land c1 0x3F) 6) (Z.land c2 0x3F)) in
            if isContinuationByte c1 && isContinuationByte c2 && (0x800 <=? uc)
               && negb ((0xD800 <=? uc) && (uc <=? 0xDFFF))
            then uc :: fromUtf8 r2 else replaced
        | _ => replaced
        end
      else if b <? 0xF5 then
        match rest with
        | c1 :: c2 :: c3 :: r3 =>
            let uc := Z.lor (Z.shiftl (Z.land b 0x07) 18)
                        (Z.lor (Z.shiftl (Z.land c1 0x3F) 12)
                           (Z.lor (Z.shiftl (Z.land c2 0x3F) 6) (Z.land c3 0x3F))) in
            if isContinuationByte c1 && isContinuationByte c2 && isContinuationByte c3
               && (0x10000 <=? uc) && (uc <=? 0x10FFFF)
            then (Z.shiftr uc 10 + 0xD7C0) :: (uc mod 0x400 + 0xDC00) :: fromUtf8 r3
            else replaced
        | _ => replaced
        end
      else replaced
  end.

(** Text is kept as a [string]; a UTF-16 unit below 0x80 is the character
    of that code, any other unit is written as the two or three bytes that
    UTF-8 gives its value, so that two texts are equal exactly when their
    units are. *)
Definition unit_bytes (u : Z) : list Z :=
  if u <? 0x80 then [u]
  else if u <? 0x800 then
    [Z.lor 0xC0 (Z.shiftr u 6); Z.lor 0x80 (Z.land u 0x3F)]
  else
    [Z.lor 0xE0 (Z.shiftr u 12); Z.lor 0x80 (Z.land (Z.shiftr u 6) 0x3F);
     Z.lor 0x80 (Z.land u 0x3F)].

Definition text_of_units (us : list Z) : string :=
  text_of_bytes (us ≫= unit_bytes).

(** [QString(cmdBuf.command).left(4)]: the first four UTF-16 units of the
    decoded string. *)
Definition commandText (buf : list Z) : string :=
  text_of_units (take 4 (fromUtf8 (skipBom (cstring buf)))).

(** ** Outcome of running a transaction

    A loop is run with a bound on its iterations; a store outside the
    destination array is undefined behaviour in the source and ends the
    run here. *)

Inductive Run (A : Type) : Type :=
| Done (a : A)
| OutOfFuel
| OutOfBounds.
Arguments Done {A} a.
Arguments OutOfFuel {A}.
Arguments OutOfBounds {A}.

#[global] Instance Run_ret : MRet Run := fun A a => Done a.
#[global] Instance Run_bind : MBind Run := fun A B k m =>
  match m with
  | Done a => k a
  | OutOfFuel => OutOfFuel
  | OutOfBounds => OutOfBounds
  end.

(** The members a run ends with, if it ends. *)
Definition result {A : Type} (r : Run A) : option A :=
  match r with
  | Done a => Some a
  | OutOfFuel | OutOfBounds => None
  end.

(** [buf[i] = v]. *)
Definition store (buf : list Z) (i : Z) (v : Z) : Run (list Z) :=
  if bool_decide (0 <= i < Z.of_nat (length buf))
  then Done (<[Z.to_nat i := v]> buf)
  else OutOfBounds.

(** ** The serial transport

    The four operations of [QSerialPort] the transactions use.  [read]
    yields [None] for the return value -1 and [Some bs] when it stored the
    bytes [bs] and returned their number. *)

Class Transport (P : Type) := {
  isOpen : P -> bool;
  write : P -> list Z -> P;
  waitForReadyRead : P -> Z -> bool * P;
  read : P -> Z -> option (list Z) * P;
}.

(** Return value of [read]. *)
Definition readCount (r : option (list Z)) : Z :=
  match r with
  | None => -1
  | Some bs => Z.of_nat (length bs)
  end.

Section Engine.
Context {P : Type} `{Transport P}.

(** ** The members of [FDCDialog] the transactions use

    [statAutoCheck] is the state of the check box, [messageLabel] the text
    of the label, and [criticals] the texts of the message boxes raised by
    [QMessageBox::critical], oldest first. *)

Record FDCDialog : Type := mkFDCDialog {
  driveNum : Z;              (* quint8 *)
  trackNum : Z;              (* quint16 *)
  cmdBuf : list Z;           (* tcommand_t *)
  headStatus : list Z;       (* quint8 [MAX_DRIVE] *)
  trackBuf : list Z;         (* quint8 [TRACKBUF_LEN_CRC] *)
  trkBufIdx : Z;             (* qint16 *)
  cmdBufIdx : Z;             (* qint16 *)
  trackMax : Z;              (* quint8 *)
  trackLen : Z;              (* quint16 *)
  serialPort : P;
  statAutoCheck : bool;
  messageLabel : string;
  criticals : list string;
}.

Definition set_cmdBuf (v : list Z) (s : FDCDialog) : FDCDialog :=
  mkFDCDialog (driveNum s) (trackNum s) v (headStatus s) (trackBuf s)
    (trkBufIdx s) (cmdBufIdx s) (trackMax s) (trackLen s) (serialPort s)
    (statAutoCheck s) (messageLabel s) (criticals s).

Definition set_trackBuf (v : list Z) (s : FDCDialog) : FDCDialog :=
  mkFDCDialog (driveNum s) (trackNum s) (cmdBuf s) (headStatus s) v
    (trkBufIdx s) (cmdBufIdx s) (trackMax s) (trackLen s) (serialPort s)
    (statAutoCheck s) (messageLabel s) (criticals s).

Definition set_trkBufIdx (v : Z) (s : FDCDialog) : FDCDialog :=
  mkFDCDialog (driveNum s) (trackNum s) (cmdBuf s) (headStatus s) (trackBuf s)
    v (cmdBufIdx s) (trackMax s) (trackLen s) (serialPort s)
    (statAutoCheck s) (messageLabel s) (criticals s).

Definition set_cmdBufIdx (v : Z) (s : FDCDialog) : FDCDialog :=
  mkFDCDialog (driveNum s) (trackNum s) (cmdBuf s) (headStatus s) (trackBuf s)
    (trkBufIdx s) v (trackMax s) (trackLen s) (serialPort s)
    (statAutoCheck s) (messageLabel s) (criticals s).

Definition set_serialPort (v : P) (s : FDCDialog) : FDCDialog :=
  mkFDCDialog (driveNum s) (trackNum s) (cmdBuf s) (headStatus s) (trackBuf s)
    (trkBufIdx s) (cmdBufIdx s) (trackMax s) (trackLen s) v
    (statAutoCheck s) (messageLabel s) (criticals s).

(** [messageLabel->setText(t)]. *)
Definition setText (t : string) (s : FDCDialog) : FDCDialog :=
  mkFDCDialog (driveNum s) (trackNum s) (cmdBuf s) (headStatus s) (trackBuf s)
    (trkBufIdx s) (cmdBufIdx s) (trackMax s) (trackLen s) (serialPort s)
    (statAutoCheck s) t (criticals s).

(** [QMessageBox::critical(this, "Serial Port Error", t)]. *)
Definition critical (t : string) (s : FDCDialog) : FDCDialog :=
  mkFDCDialog (driveNum s) (trackNum s) (cmdBuf s) (headStatus s) (trackBuf s)
    (trkBufIdx s) (cmdBufIdx s) (trackMax s) (trackLen s) (serialPort s)
    (statAutoCheck s) (messageLabel s) (criticals s ++ [t]).

(** The session parameters: selected drive, head-load flags, track number
    and geometry. *)
Definition driveTrackState (s : FDCDialog) : Z * list Z * Z * Z * Z :=
  (driveNum s, headStatus s, trackNum s, trackLen s, trackMax s).

(** ** Receiving into a buffer

    [serialPort->read((char * ) &buf[idx], maxSize)]: the bytes read are
    stored from [buf[idx]] on. *)
Definition readInto (buf : list Z) (idx : Z) (p : P) (maxSize : Z)
  : Run (Z * list Z * P) :=
  let '(r, p') := read p maxSize in
  match r with
  | None | Some [] => Done (readCount r, buf, p')
  | Some bs =>
      if bool_decide (0 <= idx /\ idx + Z.of_nat (length bs) <= Z.of_nat (length buf))
      then Done (readCount r, list_inserts (Z.to_nat idx) bs buf, p')
      else OutOfBounds
  end.

(** [serialPort->write((char * ) cmdBuf.asBytes, CMDBUF_SIZE)] after
    [cmdBuf.checksum = calcChecksum(cmdBuf.asBytes, COMMAND_LENGTH)]. *)
Definition sendCommand (buf : list Z) (s : FDCDialog) : FDCDialog :=
  let buf := set_checksum (calcChecksum buf COMMAND_LENGTH) buf in
  set_serialPort (write (serialPort s) (take (Z.to_nat CMDBUF_SIZE) buf))
                 (set_cmdBuf buf s).

(** ** The wait for a ten-byte response

    The loop that follows [cmdBufIdx = 0] in [statCmd] ("Wait for STAT
    response") and twice in [writCmd] ("Wait for WRIT response", "Wait for
    WSTA response"); the three copies are the same statement for
    statement.  [waitStep] is the body with the value of the loop
    condition. *)
Definition waitStep (s : FDCDialog) : Run (FDCDialog * bool) :=
  let '(bytesAvail, p1) := waitForReadyRead (serialPort s) 500 in
  '(n, buf, p2) ← readInto (cmdBuf s) (cmdBufIdx s) p1 (CMDBUF_SIZE - cmdBufIdx s);
  let s' := set_cmdBufIdx (sint16 (cmdBufIdx s + n))
              (set_cmdBuf buf (set_serialPort p2 s)) in
  mret (s', (cmdBufIdx s' <? CMDBUF_SIZE) && negb (cmdBufIdx s' =? -1)).

Fixpoint waitLoop (fuel : nat) (s : FDCDialog) : Run FDCDialog :=
  match fuel with
  | O => OutOfFuel
  | S fuel' =>
      match waitStep s with
      | Done (s', again) => if again then waitLoop fuel' s' else Done s'
      | OutOfFuel => OutOfFuel
      | OutOfBounds => OutOfBounds
      end
  end.

Definition waitResponse (fuel : nat) (s : FDCDialog) : Run FDCDialog :=
  waitLoop fuel (set_cmdBufIdx 0 s).

(** ** [FDCDialog::statCmd] *)

(** [cmdBuf.param1 |= (headStatus[d] != 0) << d]. *)
Definition orHeadLoad (hs : list Z) (buf : list Z) (d : Z) : list Z :=
  set_param1
    (Z.lor (param1 buf)
           (Z.shiftl (if hs !!! Z.to_nat d =? 0 then 0 else 1) d))
    buf.

Definition statRequest (s : FDCDialog) : FDCDialog :=
  let buf := set_command (bytes_of_text "STAT") (cmdBuf s) in
  let buf := set_param1 (driveNum s) buf in
  let buf := foldl (orHeadLoad (headStatus s)) buf (seqZ 0 MAX_DRIVE) in
  let buf := set_param2 0 buf in
  sendCommand buf s.

Definition statReport (s : FDCDialog) : FDCDialog :=
  if cmdBufIdx s =? -1 then setText "read() error" s
  else if negb (String.eqb (commandText (cmdBuf s)) "STAT") then
    setText ("Did not receive 'STAT' response '" +:+ commandText (cmdBuf s) +:+ "'") s
  else if negb (statAutoCheck s) then
    setText ("Received 'STAT' response 0x" +:+ hex4 (rdata (cmdBuf s))) s
  else s.

Definition statCmd (fuel : nat) (s : FDCDialog) : Run FDCDialog :=
  if negb (isOpen (serialPort s)) then mret (critical "Serial port not open" s)
  else
    s' ← waitResponse fuel (statRequest s);
    mret (statReport s').

(** ** [FDCDialog::readCmd] *)

(** The frame of [readCmd] and of [writCmd]:
    [param1 = trackNum | (driveNum << 12)], [param2 = trackLen]. *)
Definition trackRequest (tag : string) (s : FDCDialog) : FDCDialog :=
  let buf := set_command (bytes_of_text tag) (cmdBuf s) in
  let buf := set_param1 (Z.lor (trackNum s) (Z.shiftl (driveNum s) 12)) buf in
  let buf := set_param2 (trackLen s) buf in
  sendCommand buf s.

Definition readRequest (s : FDCDialog) : FDCDialog := trackRequest "READ" s.

(** Body of the receive loop with the value of its condition
    [trkBufIdx < trackLen + 2 && bytesAvail]. *)
Definition readStep (s : FDCDialog) : Run (FDCDialog * bool) :=
  let '(bytesAvail, p1) := waitForReadyRead (serialPort s) 100 in
  '(n, buf, p2) ← readInto (trackBuf s) (trkBufIdx s) p1
                     (TRACKBUF_LEN_CRC - trkBufIdx s);
  let s' := set_trkBufIdx (sint16 (trkBufIdx s + n))
              (set_trackBuf buf (set_serialPort p2 s)) in
  mret (s', (trkBufIdx s' <? trackLen s' + 2) && bytesAvail).

Fixpoint readLoop (fuel : nat) (s : FDCDialog) : Run FDCDialog :=
  match fuel with
  | O => OutOfFuel
  | S fuel' =>
      match readStep s with
      | Done (s', again) => if again then readLoop fuel' s' else Done s'
      | OutOfFuel => OutOfFuel
      | OutOfBounds => OutOfBounds
      end
  end.

(** The statements after the loop.  [checksum] and [p] are the two locals
    assigned in the first branch; neither is used afterwards. *)
Definition readReport (s : FDCDialog) : FDCDialog :=
  if trkBufIdx s =? trackLen s + 2 then
    let checksum := calcChecksum (trackBuf s) TRACKBUF_LEN in
    let p := trackLen s in
    setText ("Received " +:+ dec (trackLen s) +:+ " byte track") s
  else if trkBufIdx s =? -1 then setText "read() error" s
  else
    setText ("Received " +:+ dec (trkBufIdx s) +:+ " of "
               +:+ dec (trackLen s + 2) +:+ " bytes") s.

Definition invalidDrive (s : FDCDialog) : bool :=
  (driveNum s <? 0) || (driveNum s >=? MAX_DRIVE).

Definition readCmd (fuel : nat) (s : FDCDialog) : Run FDCDialog :=
  if negb (isOpen (serialPort s)) then mret (critical "Serial port not open" s)
  else if invalidDrive s then mret (critical "Invalid drive number" s)
  else
    s' ← readLoop fuel (set_trkBufIdx 0 (readRequest s));
    mret (readReport s').

(** ** [FDCDialog::writCmd] *)

Definition writRequest (s : FDCDialog) : FDCDialog := trackRequest "WRIT" s.

(** The [switch (cmdBuf.rcode)] of the refusal branch; it has no case for
    [STAT_OK], which that branch excludes. *)
Definition refusalText (code : Z) : string :=
  if code =? STAT_NOT_READY then "NOT READY"
  else if code =? STAT_CHECKSUM_ERR then "CHECKSUM ERROR"
  else if code =? STAT_WRITE_ERR then "WRITE ERROR"
  else "UNKNOWN".

(** The [switch (cmdBuf.rcode)] of the final status. *)
Definition statusText (code : Z) : string :=
  if code =? STAT_OK then "OK" else refusalText code.

(** The branch [cmdBuf.rcode == STAT_OK]: checksum trailer and the write of
    [trackLen + 2] bytes. *)
Definition sendTrack (s : FDCDialog) : Run FDCDialog :=
  let checksum := calcChecksum (trackBuf s) (trackLen s) in
  buf ← store (trackBuf s) (trackLen s) (Z.land checksum 0x00ff);
  buf ← store buf (trackLen s + 1) (Z.land (Z.shiftr checksum 8) 0x00ff);
  mret (set_serialPort
          (write (serialPort s) (take (Z.to_nat (trackLen s + 2)) buf))
          (set_trackBuf buf s)).

(** The statements after the wait for the WSTA response. *)
Definition wstaReport (s : FDCDialog) : FDCDialog :=
  if cmdBufIdx s =? -1 then setText "read() error" s
  else if negb (String.eqb (commandText (cmdBuf s)) "WSTA") then
    setText ("Did not receive 'WSTA' response '" +:+ commandText (cmdBuf s) +:+ "'") s
  else
    setText ("Received WSTA " +:+ statusText (rcode (cmdBuf s)) +:+ " response") s.

(** The statements after the wait for the WRIT response. *)
Definition writPhase2 (fuel : nat) (s : FDCDialog) : Run FDCDialog :=
  if cmdBufIdx s =? -1 then mret (setText "read() error" s)
  else if negb (String.eqb (commandText (cmdBuf s)) "WRIT") then
    mret (setText ("Did not receive 'WRIT' response '"
                     +:+ commandText (cmdBuf s) +:+ "'") s)
  else if rcode (cmdBuf s) =? STAT_OK then
    s1 ← sendTrack s;
    s2 ← waitResponse fuel s1;
    mret (wstaReport s2)
  else
    mret (setText ("Received " +:+ refusalText (rcode (cmdBuf s))
                     +:+ " WSTA response") s).

Definition writCmd (fuel : nat) (s : FDCDialog) : Run FDCDialog :=
  if negb (isOpen (serialPort s)) then mret (critical "Serial port not open" s)
  else if invalidDrive s then mret (critical "Invalid drive number" s)
  else
    s' ← waitResponse fuel (writRequest s);
    writPhase2 fuel s'.

(** ** States of the receive loop of [readCmd]

    [readLoopHead s0 s]: control is at the head of the loop body with the
    members as in [s], the loop having been entered with the members as in
    [s0]. *)
Inductive readLoopHead (s0 : FDCDialog) : FDCDialog -> Prop :=
| rlh_enter : readLoopHead s0 s0
| rlh_again s s' :
    readLoopHead s0 s -> readStep s = Done (s', true) -> readLoopHead s0 s'.

(** A transport whose [read] never fails and never returns more than it
    was asked for. *)
Definition readWithinRequest : Prop :=
  forall (p : P) (maxSize : Z),
    0 <= maxSize ->
    exists bs, (read p maxSize).1 = Some bs /\ Z.of_nat (length bs) <= maxSize.

(** ** Session parameters set from the dialog

    The constructor and the three slots that assign the members the
    transactions read.  The arguments are the values the widgets deliver:
    the integer [toInt()] returned, [None] for an empty drive field. *)

Definition set_driveNum (v : Z) (s : FDCDialog) : FDCDialog :=
  mkFDCDialog v (trackNum s) (cmdBuf s) (headStatus s) (trackBuf s)
    (trkBufIdx s) (cmdBufIdx s) (trackMax s) (trackLen s) (serialPort s)
    (statAutoCheck s) (messageLabel s) (criticals s).

Definition set_trackNum (v : Z) (s : FDCDialog) : FDCDialog :=
  mkFDCDialog (driveNum s) v (cmdBuf s) (headStatus s) (trackBuf s)
    (trkBufIdx s) (cmdBufIdx s) (trackMax s) (trackLen s) (serialPort s)
    (statAutoCheck s) (messageLabel s) (criticals s).

Definition set_geometry (len max : Z) (s : FDCDialog) : FDCDialog :=
  mkFDCDialog (driveNum s) (trackNum s) (cmdBuf s) (headStatus s) (trackBuf s)
    (trkBufIdx s) (cmdBufIdx s) max len (serialPort s)
    (statAutoCheck s) (messageLabel s) (criticals s).

Definition set_statAutoCheck (v : bool) (s : FDCDialog) : FDCDialog :=
  mkFDCDialog (driveNum s) (trackNum s) (cmdBuf s) (headStatus s) (trackBuf s)
    (trkBufIdx s) (cmdBufIdx s) (trackMax s) (trackLen s) (serialPort s)
    v (messageLabel s) (criticals s).

(** The members as [FDCDialog::FDCDialog] leaves them; the buffers and
    indices it does not assign are taken as zero. *)
Definition newDialog (port : P) : FDCDialog :=
  mkFDCDialog 0xff 0 (replicate (Z.to_nat CMDBUF_SIZE) 0)
    (replicate (Z.to_nat MAX_DRIVE) 0)
    (replicate (Z.to_nat TRACKBUF_LEN_CRC) 0)
    0 0 TRACK_MAX_8 TRACK_LEN_8 port false EmptyString [].

Definition driveNumEditSlot (text : option Z) (s : FDCDialog) : FDCDialog :=
  match text with
  | None => set_driveNum 0xff s
  | Some d => set_driveNum (wrap8 d) s
  end.

Definition trackNumEditSlot (t : Z) (s : FDCDialog) : FDCDialog :=
  set_trackNum (wrap16 t) s.

(** [itemData] is the track length stored with the chosen entry of
    [diskBox]. *)
Definition diskSlot (itemData : Z) (s : FDCDialog) : FDCDialog :=
  if wrap16 itemData =? TRACK_LEN_8
  then set_geometry (wrap16 itemData) TRACK_MAX_8 s
  else set_geometry (wrap16 itemData) TRACK_MAX_5 s.

(** A transport whose [read], when it does not fail, returns no more than
    it was asked for. *)
Definition readAtMostRequest : Prop :=
  forall (p : P) (maxSize : Z) (bs : list Z),
    0 <= maxSize ->
    (read p maxSize).1 = Some bs -> Z.of_nat (length bs) <= maxSize.

(** ** [FDCDialog::timerSlot]

    Run at every timeout of the STAT timer. *)
Definition timerSlot (fuel : nat) (s : FDCDialog) : Run FDCDialog :=
  if negb (isOpen (serialPort s)) then mret s
  else if statAutoCheck s then statCmd fuel s
  else mret s.

(** ** The members the program can reach

    From the constructor, by the slots and the transactions that return.
    [reach_port] stands for whatever [serialPortSlot], [baudRateSlot],
    [updateSerialPort] and the line itself do to the serial port,
    [reach_auto] for the check box; the three button slots only call
    [statCmd], [readCmd] and [writCmd], and [statTimerEditSlot] touches
    the timer alone.  A transaction that stores outside its buffer has no
    defined outcome in the source and is given no successor here. *)
Inductive reachable : FDCDialog -> Prop :=
| reach_new (port : P) : reachable (newDialog port)
| reach_port s (port : P) : reachable s -> reachable (set_serialPort port s)
| reach_auto s (checked : bool) : reachable s -> reachable (set_statAutoCheck checked s)
| reach_drive s (text : option Z) : reachable s -> reachable (driveNumEditSlot text s)
| reach_track s (t : Z) : reachable s -> reachable (trackNumEditSlot t s)
| reach_disk s (itemData : Z) : reachable s -> reachable (diskSlot itemData s)
| reach_timer s fuel s' : reachable s -> timerSlot fuel s = Done s' -> reachable s'
| reach_stat s fuel s' : reachable s -> statCmd fuel s = Done s' -> reachable s'
| reach_read s fuel s' : reachable s -> readCmd fuel s = Done s' -> reachable s'
| reach_writ s fuel s' : reachable s -> writCmd fuel s = Done s' -> reachable s'.

End Engine.

Arguments FDCDialog P : clear implicits.

(** ** The interval of the STAT timer

    The constructor sets it from the text "100" of [statTimerEdit];
    [FDCDialog::statTimerEditSlot] sets it from the edited text when that
    reads as at least 100.  [t] is the integer [toInt()] returned. *)

Definition initialInterval : Z := 100.

Definition statTimerEditSlot (t : Z) (interval : Z) : Z :=
  if t >=? 100 then t else interval.

(** ** A scripted serial line

    An instance of the transport for running the transactions: the peer's
    behaviour is a list of events, one consumed by each
    [waitForReadyRead]; once the list is exhausted the peer stays silent.
    Everything written is logged, one entry per [write]. *)

Inductive Event : Type :=
| Arrive (bs : list Z)     (* new bytes arrive before the timeout *)
| Silence.                 (* the timeout elapses *)

Record ScriptPort : Type := mkScriptPort {
  sp_open : bool;
  sp_rx : list Z;                (* received, not yet read *)
  sp_line : list Event;          (* still to come *)
  sp_tx : list (list Z);         (* written so far *)
}.

Definition sp_write (p : ScriptPort) (bs : list Z) : ScriptPort :=
  mkScriptPort (sp_open p) (sp_rx p) (sp_line p) (sp_tx p ++ [bs]).

Definition sp_wait (p : ScriptPort) (msecs : Z) : bool * ScriptPort :=
  match sp_line p with
  | [] => (false, p)
  | Arrive bs :: l =>
      (negb (bool_decide (bs = [])),
       mkScriptPort (sp_open p) (sp_rx p ++ bs) l (sp_tx p))
  | Silence :: l => (false, mkScriptPort (sp_open p) (sp_rx p) l (sp_tx p))
  end.

Definition sp_read (p : ScriptPort) (maxSize : Z) : option (list Z) * ScriptPort :=
  if maxSize <? 0 then (None, p)
  else
    let n := Z.to_nat maxSize in
    (Some (take n (sp_rx p)),
     mkScriptPort (sp_open p) (drop n (sp_rx p)) (sp_line p) (sp_tx p)).

#[global] Instance ScriptPort_transport : Transport ScriptPort :=
  {| isOpen := sp_open; write := sp_write;
     waitForReadyRead := sp_wait; read := sp_read |}.

(** An open line on which the peer will behave as [line]. *)
Definition openLine (line : list Event) : ScriptPort :=
  mkScriptPort true [] line [].

(** A response frame as the server builds it, and the same with a given
    checksum field. *)
Definition frameWith (tag : string) (f1 f2 sum : Z) : list Z :=
  take 10
    (set_checksum sum
       (set_param2 f2 (set_param1 f1
          (set_command (bytes_of_text tag) (replicate 10 0))))).

Definition frame (tag : string) (f1 f2 : Z) : list Z :=
  frameWith tag f1 f2
    (calcChecksum (frameWith tag f1 f2 0) COMMAND_LENGTH).


(** ** A transport that replays read results

    For exercising reads that fail: the port is open, every
    [waitForReadyRead] reports data, and each [read] returns the next of
    the listed results, whatever size was asked for; writes are dropped. *)

Record ReplayPort : Type := mkReplayPort { rp_reads : list (option (list Z)) }.

Definition rp_read (p : ReplayPort) (maxSize : Z) : option (list Z) * ReplayPort :=
  match rp_reads p with
  | [] => (Some [], p)
  | r :: rest => (r, mkReplayPort rest)
  end.

#[global] Instance ReplayPort_transport : Transport ReplayPort :=
  {| isOpen := fun _ => true; write := fun p _ => p;
     waitForReadyRead := fun p _ => (true, p); read := rp_read |}.

(** The peer delivers the given chunks one after the other, then what
    [rest] says. *)
Definition arrivals (chunks : list (list Z)) (rest : list Event) : list Event :=
  (Arrive <$> chunks) ++ rest.

(** Number of bytes the peer will still deliver. *)
Fixpoint pending (line : list Event) : Z :=
  match line with
  | [] => 0
  | Arrive bs :: l => Z.of_nat (length bs) + pending l
  | Silence :: l => pending l
  end.

(** A dialog on an open line after the operator has filled in the drive
    field (empty for [None]) and the track field and chosen the disk type
    by its track length. *)
Definition session (drive : option Z) (track disk : Z) (line : list Event)
  : FDCDialog ScriptPort :=
  diskSlot disk
    (trackNumEditSlot track
       (driveNumEditSlot drive (newDialog (openLine line)))).

(** The text a run leaves in the message label. *)
Definition shown (r : Run (FDCDialog ScriptPort)) : option string :=
  messageLabel <$> result r.

(** What a run wrote to the line, one entry per [write]. *)
Definition written (r : Run (FDCDialog ScriptPort)) : option (list (list Z)) :=
  (fun s => sp_tx (serialPort s)) <$> result r.

(** ** Arithmetic helpers *)

Lemma wrap16_range z : 0 <= wrap16 z < 65536.
Proof. unfold wrap16. apply Z.mod_pos_bound. lia. Qed.

Lemma wrap16_small z : 0 <= z < 65536 -> wrap16 z = z.
Proof. intros. unfold wrap16. apply Z.mod_small. lia. Qed.

Lemma wrap16_add_l a b : wrap16 (wrap16 a + b) = wrap16 (a + b).
Proof. unfold wrap16. apply Zplus_mod_idemp_l. Qed.

Lemma sumZ_app l k : sumZ (l ++ k) = sumZ l + sumZ k.
Proof. unfold sumZ. induction l as [|x l IH]; simpl; lia. Qed.

Lemma sumZ_perm l k : l ≡ₚ k -> sumZ l = sumZ k.
Proof.
  unfold sumZ. induction 1 as [|x l k _ IH|x y l|l k m _ IH1 _ IH2]; simpl; lia.
Qed.

(** The loop of [calcChecksum] started from an accumulator [c]. *)
Lemma checksum_loop_sum l c :
  foldl (fun checksum b => wrap16 (checksum + b)) c l = wrap16 (c + sumZ l)
  \/ l = [] /\ foldl (fun checksum b => wrap16 (checksum + b)) c l = c.
Proof.
  revert c. induction l as [|x l IH]; intros c; [right; done|left].
  simpl. destruct (IH (wrap16 (c + x))) as [->|[-> ->]].
  - rewrite wrap16_add_l. f_equal. unfold sumZ. simpl. lia.
  - unfold sumZ. simpl. f_equal. lia.
Qed.

Lemma calcChecksum_sum data length :
  calcChecksum data length = wrap16 (sumZ (take (Z.to_nat length) data)).
Proof.
  unfold calcChecksum.
  destruct (checksum_loop_sum (take (Z.to_nat length) data) 0) as [->|[-> _]];
    done.
Qed.

Lemma calcChecksum_range data length : 0 <= calcChecksum data length < 65536.
Proof. rewrite calcChecksum_sum. apply wrap16_range. Qed.


(** ** The checksum unit *)

(** C8. [calcChecksum data length] is the sum of [data[0..length)] modulo
    65536: it wraps and stays within 16 bits whatever the bytes are, it is a
    function of its two arguments alone, and it does not change when the
    summed bytes are permuted.  The checksum of an eight-byte command
    header and that of a track of [TRACK_LEN_8] bytes are instances. *)
Theorem calcChecksum_is_sum_mod_65536 (data : list Z) (length : Z) :
  calcChecksum data length = sumZ (take (Z.to_nat length) data) mod 65536
  /\ 0 <= calcChecksum data length < 65536
  /\ (forall data' : list Z,
        take (Z.to_nat length) data ≡ₚ take (Z.to_nat length) data' ->
        calcChecksum data' length = calcChecksum data length)
  /\ calcChecksum data COMMAND_LENGTH = sumZ (take 8 data) mod 65536
  /\ calcChecksum data TRACK_LEN_8 = sumZ (take 4384 data) mod 65536.
Proof.
  split; [apply calcChecksum_sum|].
  split; [apply calcChecksum_range|].
  split; [|split; apply calcChecksum_sum].
  intros data' Hperm. rewrite !calcChecksum_sum.
  f_equal. symmetry. by apply sumZ_perm.
Qed.

(** Three bytes that overflow a byte, reordered, and a full track of 0xFF. *)
Lemma calcChecksum_is_sum_mod_65536_witness :
  calcChecksum [255; 1; 2] 3 = 258
  /\ calcChecksum [2; 255; 1] 3 = calcChecksum [255; 1; 2] 3
  /\ calcChecksum (replicate 4384 255) 4384 = (4384 * 255) mod 65536.
Proof.
  destruct (calcChecksum_is_sum_mod_65536 [255; 1; 2] 3) as (Hsum & _ & Hperm & _).
  split; [exact Hsum|]. split.
  - apply Hperm. vm_compute.
    change ([255; 1; 2] ≡ₚ [2; 255; 1]).
    etrans; [apply Permutation_skip, Permutation_swap|]. apply Permutation_swap.
  - vm_compute. reflexivity.
Defined.

(** ** Words in the command buffer *)

Lemma wrap8_range z : 0 <= wrap8 z < 256.
Proof. unfold wrap8. apply Z.mod_pos_bound. lia. Qed.

Lemma word_bytes v :
  0 <= v < 65536 -> wrap8 v + 256 * wrap8 (Z.shiftr v 8) = v.
Proof.
  intros Hv. unfold wrap8. rewrite Z.shiftr_div_pow2 by lia.
  change (2 ^ 8) with 256.
  rewrite (Z.mod_small (v / 256)) by (split; [apply Z.div_pos|apply Z.div_lt_upper_bound]; lia).
  pose proof (Z.div_mod v 256). lia.
Qed.

Lemma get16_set16 buf off v :
  (S off < length buf)%nat -> 0 <= v < 65536 -> get16 (set16 buf off v) off = v.
Proof.
  intros Hoff Hv. unfold get16, set16.
  rewrite list_lookup_total_insert_ne by lia.
  rewrite !list_lookup_total_insert_eq by (rewrite ?length_insert; lia).
  by apply word_bytes.
Qed.

Lemma get16_set16_ne buf off off' v :
  off ≠ off' -> off ≠ S off' -> S off ≠ off' ->
  get16 (set16 buf off' v) off = get16 buf off.
Proof.
  intros. unfold get16, set16.
  by rewrite !list_lookup_total_insert_ne by lia.
Qed.

Lemma length_set16 buf off v : length (set16 buf off v) = length buf.
Proof. unfold set16. by rewrite !length_insert. Qed.

Lemma length_set_command tag buf : length (set_command tag buf) = length buf.
Proof. unfold set_command. apply length_inserts. Qed.

(** Track and drive occupy disjoint bits of the word. *)
Lemma lor_track_drive t d :
  0 <= t < 4096 -> 0 <= d ->
  Z.lor t (Z.shiftl d 12) = t + 4096 * d.
Proof.
  intros Ht Hd.
  assert (Hland : Z.land t (Z.shiftl d 12) = 0).
  { apply Z.bits_inj'. intros n Hn. rewrite Z.land_spec, Z.bits_0.
    destruct (Z.lt_ge_cases n 12) as [Hlt|Hge].
    - rewrite Z.shiftl_spec_low by lia. apply andb_false_r.
    - replace (Z.testbit t n) with false; [done|]. symmetry.
      apply Z.bits_above_log2; [lia|].
      destruct (Z.eq_dec t 0) as [->|]; [simpl; lia|].
      apply Z.log2_lt_pow2; [lia|].
      apply Z.lt_le_trans with (2 ^ 12); [simpl; lia|].
      apply Z.pow_le_mono_r; lia. }
  rewrite <- Z.lxor_lor by done.
  rewrite <- Z.add_nocarry_lxor by done.
  rewrite Z.shiftl_mul_pow2 by lia. change (2 ^ 12) with 4096. lia.
Qed.

Section EngineProperties.
Context {P : Type} `{Transport P}.

Implicit Types s : FDCDialog P.

(** ** The drive-range check *)

(** A closed port ends either transaction before the drive is looked at;
    nothing reaches the transport. *)
Lemma closed_port_rejected (fuel : nat) s :
  isOpen (serialPort s) = false ->
  readCmd fuel s = Done (critical "Serial port not open" s)
  /\ writCmd fuel s = Done (critical "Serial port not open" s)
  /\ statCmd fuel s = Done (critical "Serial port not open" s).
Proof. intros Hopen. unfold readCmd, writCmd, statCmd. by rewrite Hopen. Qed.

(** C5. A drive number outside [0, MAX_DRIVE) makes [readCmd] and
    [writCmd] return at once after raising a message box, whatever the
    bound on iterations: the port is left as it was, so no byte is
    written, and no other member changes.  On an open port the box says
    "Invalid drive number".  The constructor's 0xFF (no drive selected) is
    such a number. *)
Theorem invalid_drive_rejected (fuel : nat) s :
  ~ (0 <= driveNum s < MAX_DRIVE) ->
  (exists text,
     readCmd fuel s = Done (critical text s)
     /\ writCmd fuel s = Done (critical text s)
     /\ serialPort (critical text s) = serialPort s
     /\ criticals (critical text s) = criticals s ++ [text]
     /\ (isOpen (serialPort s) = true -> text = "Invalid drive number"))
  /\ ~ (0 <= 0xff < MAX_DRIVE).
Proof.
  intros Hdrive.
  assert (Hinv : invalidDrive s = true).
  { unfold invalidDrive, MAX_DRIVE in *. lia. }
  split; [|unfold MAX_DRIVE; lia].
  unfold readCmd, writCmd. rewrite Hinv.
  destruct (isOpen (serialPort s)); simpl.
  - exists "Invalid drive number". done.
  - exists "Serial port not open". done.
Qed.

(** ** The READ and WRIT request frames *)

Lemma trackRequest_fields (tag : string) s :
  length (cmdBuf s) = 10%nat ->
  0 <= driveNum s < MAX_DRIVE ->
  0 <= trackNum s < 4096 ->
  0 <= trackLen s < 65536 ->
  let sent := cmdBuf (trackRequest tag s) in
  serialPort (trackRequest tag s) = write (serialPort s) sent
  /\ length sent = 10%nat
  /\ param1 sent = Z.lor (trackNum s) (Z.shiftl (driveNum s) 12)
  /\ param2 sent = trackLen s
  /\ checksum sent = calcChecksum sent COMMAND_LENGTH.
Proof.
  intros Hlen Hd Ht Hl. unfold MAX_DRIVE in Hd.
  pose proof (lor_track_drive (trackNum s) (driveNum s) Ht ltac:(lia)) as Hlor.
  unfold trackRequest, sendCommand. cbn [cmdBuf serialPort set_serialPort set_cmdBuf].
  set (b0 := set_command (bytes_of_text tag) (cmdBuf s)).
  assert (Hb0 : length b0 = 10%nat) by (unfold b0; by rewrite length_set_command).
  set (w := wrap16 (Z.lor (trackNum s) (Z.shiftl (driveNum s) 12))).
  assert (Hw : w = Z.lor (trackNum s) (Z.shiftl (driveNum s) 12)).
  { unfold w. apply wrap16_small. lia. }
  unfold set_checksum, set_param2, set_param1, param1, param2, checksum.
  fold w.
  set (b1 := set16 b0 4 w).
  set (b2 := set16 b1 6 (wrap16 (trackLen s))).
  assert (Hb1 : length b1 = 10%nat) by (unfold b1; by rewrite length_set16).
  assert (Hb2 : length b2 = 10%nat) by (unfold b2; by rewrite length_set16).
  set (c := wrap16 (calcChecksum b2 COMMAND_LENGTH)).
  assert (Htake : forall v, take (Z.to_nat COMMAND_LENGTH) (set16 b2 8 v)
                  = take (Z.to_nat COMMAND_LENGTH) b2).
  { intros v. unfold set16. change (Z.to_nat COMMAND_LENGTH) with 8%nat.
    by rewrite !take_insert_ge by lia. }
  split.
  { f_equal. apply firstn_all2. rewrite length_set16. change (Z.to_nat CMDBUF_SIZE) with 10%nat. lia. }
  split; [by rewrite length_set16|].
  split.
  { rewrite get16_set16_ne by lia. unfold b2. rewrite get16_set16_ne by lia.
    unfold b1. rewrite get16_set16; [done|lia|]. rewrite Hw. lia. }
  split.
  { rewrite get16_set16_ne by lia. unfold b2.
    rewrite get16_set16; [by apply wrap16_small|lia|apply wrap16_range]. }
  rewrite get16_set16; [|lia|apply wrap16_range].
  unfold c. rewrite wrap16_small by apply calcChecksum_range.
  unfold calcChecksum at 2. rewrite Htake. reflexivity.
Qed.

(** C7. With the port open, a drive in [0, MAX_DRIVE) and a track number
    below 4096, [readCmd] and [writCmd] first write the ten-byte frame in
    which field1 is [trackNum | (driveNum << 12)] - the track in bits 0 to
    11, the drive in bits 12 to 15 - and field2 is [trackLen]; the
    transaction then goes on from there.  For drive 3 and track 1234 the
    word is [(3 << 12) | 1234]. *)
Theorem track_request_encoding (fuel : nat) s :
  isOpen (serialPort s) = true ->
  length (cmdBuf s) = 10%nat ->
  0 <= driveNum s < MAX_DRIVE ->
  0 <= trackNum s < 4096 ->
  0 <= trackLen s < 65536 ->
  (forall rq, rq = cmdBuf (readRequest s) \/ rq = cmdBuf (writRequest s) ->
     param1 rq = Z.lor (trackNum s) (Z.shiftl (driveNum s) 12)
     /\ Z.land (param1 rq) 0xfff = trackNum s
     /\ Z.shiftr (param1 rq) 12 = driveNum s
     /\ param2 rq = trackLen s)
  /\ take 4 (cmdBuf (readRequest s)) = bytes_of_text "READ"
  /\ take 4 (cmdBuf (writRequest s)) = bytes_of_text "WRIT"
  /\ serialPort (readRequest s) = write (serialPort s) (cmdBuf (readRequest s))
  /\ serialPort (writRequest s) = write (serialPort s) (cmdBuf (writRequest s))
  /\ readCmd fuel s
     = (s' ← readLoop fuel (set_trkBufIdx 0 (readRequest s)); mret (readReport s'))
  /\ writCmd fuel s
     = (s' ← waitResponse fuel (writRequest s); writPhase2 fuel s')
  /\ Z.lor 1234 (Z.shiftl 3 12) = 13522.
Proof.
  intros Hopen Hlen Hd Ht Hl.
  assert (Hinv : invalidDrive s = false).
  { unfold invalidDrive, MAX_DRIVE in *. lia. }
  pose proof (trackRequest_fields "READ" s Hlen Hd Ht Hl) as (Hr1 & Hr2 & Hr3 & Hr4 & _).
  pose proof (trackRequest_fields "WRIT" s Hlen Hd Ht Hl) as (Hw1 & Hw2 & Hw3 & Hw4 & _).
  split.
  { intros rq Hrq.
    assert (Hp1 : param1 rq = Z.lor (trackNum s) (Z.shiftl (driveNum s) 12)
                  /\ param2 rq = trackLen s).
    { destruct Hrq as [-> | ->]; done. }
    destruct Hp1 as [Hp1 Hp2]. rewrite Hp1.
    rewrite lor_track_drive by (unfold MAX_DRIVE in Hd; lia).
    split; [done|]. split.
    { change 0xfff with (Z.ones 12). rewrite Z.land_ones by lia.
      change (2 ^ 12) with 4096.
      rewrite (Z.mul_comm 4096), Z.mod_add by lia. apply Z.mod_small. lia. }
    split; [|done].
    rewrite Z.shiftr_div_pow2 by lia. change (2 ^ 12) with 4096.
    rewrite (Z.mul_comm 4096), Z.div_add by lia.
    rewrite (Z.div_small (trackNum s)) by lia. lia. }
  assert (Htag : forall tag, length (list_ascii_of_string tag) = 4%nat ->
            take 4 (cmdBuf (trackRequest tag s)) = bytes_of_text tag).
  { intros tag Htag. unfold trackRequest, sendCommand.
    cbn [cmdBuf set_serialPort set_cmdBuf].
    unfold set_checksum, set_param2, set_param1, set16.
    rewrite !take_insert_ge by lia.
    unfold set_command.
    assert (Hb : length (bytes_of_text tag) = 4%nat).
    { unfold bytes_of_text. by rewrite length_fmap. }
    rewrite (firstn_all2 (bytes_of_text tag)) by lia.
    destruct (bytes_of_text tag) as [|a [|b [|c [|d [|]]]]]; try discriminate.
    destruct (cmdBuf s) as [|x0 [|x1 [|x2 [|x3 l]]]]; try discriminate.
    reflexivity. }
  split; [by apply Htag|]. split; [by apply Htag|].
  split; [done|]. split; [done|].
  unfold readCmd, writCmd. rewrite Hopen, Hinv. simpl. done.
Qed.

(** ** The two phases of WRIT *)

Lemma refusalText_cases (code : Z) :
  refusalText STAT_NOT_READY = "NOT READY"
  /\ refusalText STAT_CHECKSUM_ERR = "CHECKSUM ERROR"
  /\ refusalText STAT_WRITE_ERR = "WRITE ERROR"
  /\ (code ≠ STAT_NOT_READY -> code ≠ STAT_CHECKSUM_ERR ->
      code ≠ STAT_WRITE_ERR -> refusalText code = "UNKNOWN").
Proof.
  repeat split; try reflexivity.
  unfold refusalText, STAT_NOT_READY, STAT_CHECKSUM_ERR, STAT_WRITE_ERR.
  intros H1 H2 H3.
  destruct (Z.eqb_spec code 1); [done|].
  destruct (Z.eqb_spec code 2); [done|].
  destruct (Z.eqb_spec code 3); done.
Qed.


(** ** What the transactions leave untouched *)

Lemma readInto_inv buf idx p maxSize n buf' p' :
  readInto buf idx p maxSize = Done (n, buf', p') ->
  p' = (read p maxSize).2 /\ n = readCount (read p maxSize).1.
Proof.
  unfold readInto. destruct (read p maxSize) as [r q]. simpl.
  destruct r as [[|b bs]|]; try (intros [= <- <- <-]; done).
  case_bool_decide; [|done]. intros [= <- <- <-]; done.
Qed.

Lemma waitStep_frame s s' again :
  waitStep s = Done (s', again) ->
  driveTrackState s' = driveTrackState s
  /\ statAutoCheck s' = statAutoCheck s
  /\ trackBuf s' = trackBuf s
  /\ messageLabel s' = messageLabel s.
Proof.
  unfold waitStep. destruct (waitForReadyRead (serialPort s) 500) as [avail p1].
  destruct (readInto _ _ _ _) as [[[n buf] p2]| |]; simpl; [|done..].
  intros [= <- _]. done.
Qed.

Lemma waitLoop_frame fuel s s' :
  waitLoop fuel s = Done s' ->
  driveTrackState s' = driveTrackState s
  /\ statAutoCheck s' = statAutoCheck s
  /\ trackBuf s' = trackBuf s
  /\ messageLabel s' = messageLabel s.
Proof.
  revert s. induction fuel as [|fuel IH]; intros s; simpl; [done|].
  destruct (waitStep s) as [[s1 again]| |] eqn:Hstep; [|done..].
  apply waitStep_frame in Hstep as (H1 & H2 & H3 & H4).
  destruct again.
  - intros Hloop. apply IH in Hloop as (-> & -> & -> & ->). done.
  - intros [= <-]. done.
Qed.

Lemma readStep_frame s s' again :
  readStep s = Done (s', again) ->
  driveTrackState s' = driveTrackState s
  /\ cmdBuf s' = cmdBuf s
  /\ messageLabel s' = messageLabel s.
Proof.
  unfold readStep. destruct (waitForReadyRead (serialPort s) 100) as [avail p1].
  destruct (readInto _ _ _ _) as [[[n buf] p2]| |]; simpl; [|done..].
  intros [= <- _]. done.
Qed.

Lemma readLoop_frame fuel s s' :
  readLoop fuel s = Done s' ->
  driveTrackState s' = driveTrackState s
  /\ cmdBuf s' = cmdBuf s
  /\ messageLabel s' = messageLabel s.
Proof.
  revert s. induction fuel as [|fuel IH]; intros s; simpl; [done|].
  destruct (readStep s) as [[s1 again]| |] eqn:Hstep; [|done..].
  apply readStep_frame in Hstep as (H1 & H2 & H3).
  destruct again.
  - intros Hloop. apply IH in Hloop as (-> & -> & ->). done.
  - intros [= <-]. done.
Qed.

Lemma statReport_frame s :
  driveTrackState (statReport s) = driveTrackState s
  /\ cmdBuf (statReport s) = cmdBuf s.
Proof.
  unfold statReport.
  destruct (cmdBufIdx s =? -1); [done|].
  destruct (negb _); [done|]. destruct (negb _); done.
Qed.

Lemma readReport_frame s :
  driveTrackState (readReport s) = driveTrackState s
  /\ trackBuf (readReport s) = trackBuf s.
Proof.
  unfold readReport.
  destruct (trkBufIdx s =? trackLen s + 2); [done|].
  destruct (trkBufIdx s =? -1); done.
Qed.

(** ** The receive loop of READ stays inside [trackBuf] *)

Lemma sint16_small z : -32768 <= z < 32768 -> sint16 z = z.
Proof. intros Hz. unfold sint16. rewrite Z.mod_small by lia. lia. Qed.

(** One iteration started with the index inside the buffer. *)
Lemma readStep_within_buffer s :
  readWithinRequest ->
  length (trackBuf s) = Z.to_nat TRACKBUF_LEN_CRC ->
  0 <= trkBufIdx s <= TRACKBUF_LEN_CRC ->
  exists s' again bs,
    readStep s = Done (s', again)
    /\ trackBuf s' = list_inserts (Z.to_nat (trkBufIdx s)) bs (trackBuf s)
    /\ trkBufIdx s' = trkBufIdx s + Z.of_nat (length bs)
    /\ trkBufIdx s' <= TRACKBUF_LEN_CRC
    /\ length (trackBuf s') = Z.to_nat TRACKBUF_LEN_CRC.
Proof.
  intros Hlaw Hlen Hidx. unfold readStep.
  assert (Hcrc : TRACKBUF_LEN_CRC = 4386) by reflexivity.
  destruct (waitForReadyRead (serialPort s) 100) as [avail p1].
  destruct (Hlaw p1 (TRACKBUF_LEN_CRC - trkBufIdx s)) as (bs & Hread & Hbs); [lia|].
  unfold readInto. destruct (read p1 _) as [r p2]. simpl in Hread. subst r.
  destruct bs as [|b bs].
  - simpl. eexists _, _, []. split; [reflexivity|]. simpl.
    rewrite Z.add_0_r, sint16_small by lia. repeat split; try done; lia.
  - rewrite bool_decide_true by (rewrite Hlen; lia).
    change (readCount (Some (b :: bs))) with (Z.of_nat (length (b :: bs))).
    set (k := Z.of_nat (length (b :: bs))) in *.
    cbn [mbind Run_bind mret Run_ret]. eexists _, _, (b :: bs). split; [reflexivity|].
    cbn [trackBuf trkBufIdx set_trkBufIdx set_trackBuf set_serialPort].
    fold k. rewrite sint16_small by lia.
    split; [done|]. split; [lia|]. split; [lia|].
    by rewrite length_inserts.
Qed.

(** The loop never stores outside [trackBuf], however long it runs. *)
Lemma readLoop_stays_in_bounds (fuel : nat) s :
  readWithinRequest ->
  length (trackBuf s) = Z.to_nat TRACKBUF_LEN_CRC ->
  0 <= trkBufIdx s <= TRACKBUF_LEN_CRC ->
  readLoop fuel s ≠ OutOfBounds.
Proof.
  intros Hlaw. revert s. induction fuel as [|fuel IH]; intros s Hlen Hidx; [done|].
  destruct (readStep_within_buffer s Hlaw Hlen Hidx)
    as (s1 & again & bs & Hstep & _ & Hnew & Hle & Hlen1).
  cbn [readLoop]. rewrite Hstep. destruct again; [|done].
  apply IH; [done|lia].
Qed.

(** C10. Over a transport whose [read] returns a count between zero and
    the size asked for, the receive loop of [readCmd], entered with
    [trkBufIdx = 0] and the declared buffer of [TRACKBUF_LEN_CRC] = 4386
    bytes, has at the head of every iteration
    [0 <= trkBufIdx <= TRACKBUF_LEN_CRC]; the iteration stores what it
    read at [trackBuf[trkBufIdx ..]], ends within the buffer and leaves
    the index at most [TRACKBUF_LEN_CRC]; run for any number of
    iterations, the loop never stores outside the buffer.  The bound does
    not depend on [trackLen]. *)
Theorem read_loop_index_within_buffer s0 s :
  readWithinRequest ->
  length (trackBuf s0) = Z.to_nat TRACKBUF_LEN_CRC ->
  trkBufIdx s0 = 0 ->
  readLoopHead s0 s ->
  0 <= trkBufIdx s <= TRACKBUF_LEN_CRC
  /\ length (trackBuf s) = Z.to_nat TRACKBUF_LEN_CRC
  /\ TRACKBUF_LEN_CRC = 4386
  /\ exists s' again bs,
       readStep s = Done (s', again)
       /\ trackBuf s' = list_inserts (Z.to_nat (trkBufIdx s)) bs (trackBuf s)
       /\ trkBufIdx s + Z.of_nat (length bs) <= TRACKBUF_LEN_CRC
       /\ trkBufIdx s' = trkBufIdx s + Z.of_nat (length bs)
       /\ forall fuel, readLoop fuel s ≠ OutOfBounds.
Proof.
  intros Hlaw Hlen Hidx Hreach.
  assert (Hinv : 0 <= trkBufIdx s <= TRACKBUF_LEN_CRC
                 /\ length (trackBuf s) = Z.to_nat TRACKBUF_LEN_CRC).
  { induction Hreach as [|s s' _ IH Hstep].
    - rewrite Hidx. split; [done|done].
    - destruct IH as [Hi Hl].
      destruct (readStep_within_buffer s Hlaw Hl Hi)
        as (s2 & again & bs & Hstep' & _ & Hnew & Hle & Hlen').
      rewrite Hstep in Hstep'. injection Hstep' as <- <-.
      split; [lia|done]. }
  destruct Hinv as [Hi Hl].
  split; [done|]. split; [done|]. split; [reflexivity|].
  destruct (readStep_within_buffer s Hlaw Hl Hi)
    as (s2 & again & bs & Hstep' & Hbuf & Hnew & Hle & _).
  exists s2, again, bs. split; [done|]. split; [done|]. split; [lia|].
  split; [done|]. intros fuel. by apply readLoop_stays_in_bounds.
Qed.

End EngineProperties.

(** ** Runs on the scripted line *)

Lemma ScriptPort_readWithinRequest : readWithinRequest (P := ScriptPort).
Proof.
  intros p maxSize Hmax. simpl. unfold sp_read.
  destruct (Z.ltb_spec maxSize 0) as [Hneg|_]; [lia|]. simpl.
  eexists. split; [reflexivity|]. rewrite length_take. lia.
Qed.

(** A dialog fresh from the constructor, drive 0xFF, on an open line. *)
Lemma invalid_drive_rejected_witness :
  readCmd 3 (newDialog (openLine []))
  = Done (critical "Invalid drive number" (newDialog (openLine [])))
  /\ written (writCmd 3 (newDialog (openLine []))) = Some [].
Proof.
  destruct (invalid_drive_rejected 3 (newDialog (openLine [])))
    as ((text & Hread & Hwrit & _ & _ & Htext) & _).
  - vm_compute. intros [_ Hlt]. discriminate Hlt.
  - rewrite (Htext eq_refl) in Hread, Hwrit.
    split; [exact Hread|]. unfold written. rewrite Hwrit. reflexivity.
Defined.

(** Drive 3, track 1234. *)
Lemma track_request_encoding_witness :
  param1 (cmdBuf (readRequest (session (Some 3) 1234 TRACK_LEN_8 []))) = 13522
  /\ param2 (cmdBuf (writRequest (session (Some 3) 1234 TRACK_LEN_5 []))) = 2192.
Proof.
  split.
  - destruct (track_request_encoding 0 (session (Some 3) 1234 TRACK_LEN_8 []))
      as (Hrq & _); [reflexivity|reflexivity|vm_compute; split; congruence..|].
    destruct (Hrq _ (or_introl eq_refl)) as (-> & _). reflexivity.
  - destruct (track_request_encoding 0 (session (Some 3) 1234 TRACK_LEN_5 []))
      as (Hrq & _); [reflexivity|reflexivity|vm_compute; split; congruence..|].
    destruct (Hrq _ (or_intror eq_refl)) as (_ & _ & _ & ->). reflexivity.
Defined.


(** C9, as the design document words it, fails: two STAT exchanges in which
    the server reports the mount bitmaps 5 and 0 end with the same drive,
    head-load flags, track number and geometry, those of before the
    exchange; with the check box on, not even the message label tells them
    apart. *)
Lemma stat_does_not_record_mount_bitmap :
  let before := set_statAutoCheck true (session (Some 0) 0 TRACK_LEN_8 []) in
  let run bitmap :=
    statCmd 2 (set_statAutoCheck true
                 (session (Some 0) 0 TRACK_LEN_8 [Arrive (frame "STAT" 0 bitmap)])) in
  exists s5 s0,
    run 5 = Done s5 /\ run 0 = Done s0
    /\ rdata (cmdBuf s5) = 5 /\ rdata (cmdBuf s0) = 0
    /\ driveTrackState s5 = driveTrackState s0
    /\ driveTrackState s5 = driveTrackState before
    /\ messageLabel s5 = messageLabel s0.
Proof.
  simpl.
  eexists _, _. split; [vm_compute; reflexivity|].
  split; [vm_compute; reflexivity|].
  vm_compute. repeat split; reflexivity.
Qed.

(** A minidisk READ answered with 1000 bytes and then 5000 more: the
    second iteration starts at index 1000 and stores 3386 bytes, past
    [trackLen + 2] = 2194 and up to the end of the buffer. *)
Lemma read_loop_index_within_buffer_witness :
  let s0 := set_trkBufIdx 0
              (readRequest (session (Some 0) 0 TRACK_LEN_5
                              [Arrive (replicate 1000 1); Arrive (replicate 5000 2)])) in
  let s1 := default s0 (fst <$> result (readStep s0)) in
  readLoopHead s0 s1
  /\ trkBufIdx s1 = 1000
  /\ exists s2 again (bs : list Z),
       readStep s1 = Done (s2, again)
       /\ trkBufIdx s1 + Z.of_nat (length bs) <= 4386.
Proof.
  intros s0 s1.
  assert (Hhead : readLoopHead s0 s1).
  { eapply rlh_again; [apply rlh_enter|]. vm_compute. reflexivity. }
  destruct (read_loop_index_within_buffer s0 s1 ScriptPort_readWithinRequest)
    as (_ & _ & _ & s2 & again & bs & Hstep & _ & Hle & _ & _);
    [vm_compute; reflexivity|vm_compute; reflexivity|exact Hhead|].
  split; [exact Hhead|]. split; [vm_compute; reflexivity|].
  exists s2, again, bs. split; [exact Hstep|exact Hle].
Defined.

(** ** The response wait when the peer falls silent *)

Lemma sp_wait_pending p msecs :
  Z.of_nat (length (sp_rx (sp_wait p msecs).2)) + pending (sp_line (sp_wait p msecs).2)
  = Z.of_nat (length (sp_rx p)) + pending (sp_line p).
Proof.
  unfold sp_wait. destruct (sp_line p) as [|[bs|] l] eqn:Hline; simpl.
  - by rewrite Hline.
  - rewrite length_app. lia.
  - done.
Qed.

(** One iteration of the wait when fewer bytes are still to come than the
    frame lacks: the condition of the loop holds again. *)
Lemma waitStep_starved (s : FDCDialog ScriptPort) :
  length (cmdBuf s) = 10%nat ->
  0 <= cmdBufIdx s ->
  cmdBufIdx s + Z.of_nat (length (sp_rx (serialPort s)))
    + pending (sp_line (serialPort s)) < 10 ->
  exists s',
    waitStep s = Done (s', true)
    /\ length (cmdBuf s') = 10%nat
    /\ 0 <= cmdBufIdx s'
    /\ cmdBufIdx s' + Z.of_nat (length (sp_rx (serialPort s')))
         + pending (sp_line (serialPort s')) < 10.
Proof.
  intros Hlen Hidx Hfew. unfold waitStep.
  change (waitForReadyRead (serialPort s) 500) with (sp_wait (serialPort s) 500).
  pose proof (sp_wait_pending (serialPort s) 500) as Hpend.
  destruct (sp_wait (serialPort s) 500) as [avail p1]. simpl in Hpend.
  assert (Hpos : 0 <= pending (sp_line p1)).
  { clear. induction (sp_line p1) as [|[bs|] l IH]; simpl; lia. }
  unfold readInto.
  change (read p1 (CMDBUF_SIZE - cmdBufIdx s)) with (sp_read p1 (CMDBUF_SIZE - cmdBufIdx s)).
  unfold sp_read, CMDBUF_SIZE.
  destruct (Z.ltb_spec (10 - cmdBufIdx s) 0) as [Hneg|_]; [lia|].
  rewrite take_ge, drop_ge by lia.
  set (k := Z.of_nat (length (sp_rx p1))) in *.
  destruct (sp_rx p1) as [|b bs] eqn:Hrx.
  - cbn [mbind Run_bind mret Run_ret readCount length].
    eexists. split.
    + rewrite Z.add_0_r, sint16_small by lia. cbn [cmdBufIdx set_cmdBufIdx].
      destruct (Z.ltb_spec (cmdBufIdx s) 10) as [_|Hge]; [|lia].
      destruct (Z.eqb_spec (cmdBufIdx s) (-1)) as [Heq|_]; [lia|]. reflexivity.
    + cbn. repeat split; try done; lia.
  - rewrite bool_decide_true by (rewrite Hlen; fold k; lia).
    change (readCount (Some (b :: bs))) with k.
    cbn [mbind Run_bind mret Run_ret].
    eexists. split.
    + rewrite sint16_small by lia. cbn [cmdBufIdx set_cmdBufIdx].
      destruct (Z.ltb_spec (cmdBufIdx s + k) 10) as [_|Hge]; [|lia].
      destruct (Z.eqb_spec (cmdBufIdx s + k) (-1)) as [Heq|_]; [lia|]. reflexivity.
    + cbn [cmdBuf cmdBufIdx serialPort set_cmdBufIdx set_cmdBuf set_serialPort
             sp_rx sp_line length].
      rewrite length_inserts. repeat split; try done; lia.
Qed.

Lemma waitLoop_starved (fuel : nat) (s : FDCDialog ScriptPort) :
  length (cmdBuf s) = 10%nat ->
  0 <= cmdBufIdx s ->
  cmdBufIdx s + Z.of_nat (length (sp_rx (serialPort s)))
    + pending (sp_line (serialPort s)) < 10 ->
  waitLoop fuel s = OutOfFuel.
Proof.
  revert s. induction fuel as [|fuel IH]; intros s Hlen Hidx Hfew; [done|].
  destruct (waitStep_starved s Hlen Hidx Hfew) as (s' & Hstep & Hlen' & Hidx' & Hfew').
  simpl. rewrite Hstep. by apply IH.
Qed.

Lemma length_statRequest {P : Type} `{Transport P} (s : FDCDialog P) :
  length (cmdBuf (statRequest s)) = length (cmdBuf s).
Proof.
  unfold statRequest, sendCommand, set_checksum, set_param2.
  cbn [cmdBuf set_serialPort set_cmdBuf].
  change (seqZ 0 MAX_DRIVE) with [0; 1; 2; 3]. cbn [foldl].
  unfold orHeadLoad, set_param1.
  by rewrite !length_set16, length_set_command.
Qed.

Lemma length_trackRequest {P : Type} `{Transport P} tag (s : FDCDialog P) :
  length (cmdBuf (trackRequest tag s)) = length (cmdBuf s).
Proof.
  unfold trackRequest, sendCommand, set_checksum, set_param2, set_param1.
  cbn [cmdBuf set_serialPort set_cmdBuf].
  by rewrite !length_set16, length_set_command.
Qed.

(** [statCmd] on a line that will not deliver ten bytes. *)
Lemma statCmd_starved (fuel : nat) (s : FDCDialog ScriptPort) :
  sp_open (serialPort s) = true ->
  length (cmdBuf s) = 10%nat ->
  Z.of_nat (length (sp_rx (serialPort s))) + pending (sp_line (serialPort s)) < 10 ->
  statCmd fuel s = OutOfFuel.
Proof.
  intros Hopen Hlen Hfew. unfold statCmd.
  change (isOpen (serialPort s)) with (sp_open (serialPort s)). rewrite Hopen.
  unfold waitResponse. rewrite waitLoop_starved; [done| | |].
  - cbn [cmdBuf set_cmdBufIdx]. by rewrite length_statRequest.
  - done.
  - exact Hfew.
Qed.

(** [writCmd] likewise, waiting for the WRIT response. *)
Lemma writCmd_starved (fuel : nat) (s : FDCDialog ScriptPort) :
  sp_open (serialPort s) = true ->
  invalidDrive s = false ->
  length (cmdBuf s) = 10%nat ->
  Z.of_nat (length (sp_rx (serialPort s))) + pending (sp_line (serialPort s)) < 10 ->
  writCmd fuel s = OutOfFuel.
Proof.
  intros Hopen Hdrive Hlen Hfew. unfold writCmd.
  change (isOpen (serialPort s)) with (sp_open (serialPort s)).
  rewrite Hopen, Hdrive.
  unfold waitResponse. rewrite waitLoop_starved; [done| | |].
  - cbn [cmdBuf set_cmdBufIdx]. unfold writRequest. by rewrite length_trackRequest.
  - done.
  - exact Hfew.
Qed.

(** [writCmd] waiting for the WSTA status after the track was sent. *)
Lemma writPhase2_starved (fuel : nat) (s1 s2 : FDCDialog ScriptPort) :
  cmdBufIdx s1 ≠ -1 ->
  commandText (cmdBuf s1) = "WRIT" ->
  rcode (cmdBuf s1) = STAT_OK ->
  sendTrack s1 = Done s2 ->
  length (cmdBuf s2) = 10%nat ->
  Z.of_nat (length (sp_rx (serialPort s2))) + pending (sp_line (serialPort s2)) < 10 ->
  writPhase2 fuel s1 = OutOfFuel.
Proof.
  intros Hidx Htag Hcode Hsend Hlen Hfew. unfold writPhase2.
  destruct (Z.eqb_spec (cmdBufIdx s1) (-1)); [done|].
  rewrite Htag, Hcode, Hsend. cbn [String.eqb negb Z.eqb STAT_OK mbind Run_bind].
  unfold waitResponse. by rewrite waitLoop_starved.
Qed.

(** C3 (what the code does).  The wait for a ten-byte response does not
    test [bytesAvail]: on a line that stays silent - from the start, or
    after four bytes of the frame - [statCmd] is still in its loop whatever
    number of iterations it is given, and so is [writCmd], both while
    waiting for the WRIT response and, after the track was sent, while
    waiting for WSTA.  The receive loop of [readCmd], which does test
    [bytesAvail], ends on the same silent line after one timeout with the
    count zero. *)
Theorem response_wait_never_ends_on_silence (fuel : nat) :
  statCmd fuel (session None 0 TRACK_LEN_8 []) = OutOfFuel
  /\ statCmd fuel (session None 0 TRACK_LEN_8 [Arrive [83; 84; 65; 84]; Silence])
     = OutOfFuel
  /\ writCmd fuel (session (Some 0) 0 TRACK_LEN_8 []) = OutOfFuel
  /\ writCmd fuel (session (Some 0) 0 TRACK_LEN_8 [Arrive (frame "WRIT" 0 0)])
     = OutOfFuel
  /\ shown (readCmd 1 (session (Some 0) 0 TRACK_LEN_8 []))
     = Some "Received 0 of 4386 bytes".
Proof.
  split; [apply statCmd_starved; vm_compute; congruence|].
  split; [apply statCmd_starved; vm_compute; congruence|].
  split; [apply writCmd_starved; vm_compute; congruence|].
  split; [|vm_compute; reflexivity].
  destruct fuel as [|fuel]; [reflexivity|].
  set (s := session (Some 0) 0 TRACK_LEN_8 [Arrive (frame "WRIT" 0 0)]).
  set (s0 := set_cmdBufIdx 0 (writRequest s)).
  set (s1 := default s0 (fst <$> result (waitStep s0))).
  set (s2 := default s1 (result (sendTrack s1))).
  assert (Hstep : waitStep s0 = Done (s1, false)) by (vm_compute; reflexivity).
  assert (Hwait : waitResponse (S fuel) (writRequest s) = Done s1).
  { unfold waitResponse. fold s0. cbn [waitLoop]. by rewrite Hstep. }
  unfold writCmd.
  replace (isOpen (serialPort s)) with true by (vm_compute; reflexivity).
  replace (invalidDrive s) with false by (vm_compute; reflexivity).
  rewrite Hwait. cbn [negb mbind Run_bind].
  apply (writPhase2_starved (S fuel) s1 s2); vm_compute; congruence.
Qed.

(** ** The receive loop of READ ends when the peer falls silent *)

(** An iteration after which the loop goes on has consumed one event of
    the line. *)
Lemma readStep_again_consumes (s s' : FDCDialog ScriptPort) :
  readStep s = Done (s', true) ->
  length (sp_line (serialPort s)) = S (length (sp_line (serialPort s'))).
Proof.
  unfold readStep.
  change (waitForReadyRead (serialPort s) 100) with (sp_wait (serialPort s) 100).
  destruct (sp_wait (serialPort s) 100) as [avail p1] eqn:Hwait.
  destruct (readInto _ _ _ _) as [[[n buf] p2]| |] eqn:Hread; [|done..].
  apply readInto_inv in Hread as [-> _].
  cbn [mbind Run_bind mret Run_ret]. intros [= <- Hagain].
  apply andb_prop in Hagain as [_ ->].
  cbn [serialPort set_trkBufIdx set_trackBuf set_serialPort].
  change (read p1 ?m) with (sp_read p1 m).
  assert (Hline : forall m, sp_line (sp_read p1 m).2 = sp_line p1).
  { intros m. unfold sp_read. by destruct (m <? 0). }
  rewrite Hline. unfold sp_wait in Hwait.
  destruct (sp_line (serialPort s)) as [|[bs|] l]; try by injection Hwait.
  injection Hwait as _ <-. reflexivity.
Qed.

(** Whatever the peer sends and whenever it stops, the loop ends within
    one iteration per event of the line and one more. *)
Lemma readLoop_ends (s : FDCDialog ScriptPort) :
  length (trackBuf s) = Z.to_nat TRACKBUF_LEN_CRC ->
  0 <= trkBufIdx s <= TRACKBUF_LEN_CRC ->
  exists s', readLoop (S (length (sp_line (serialPort s)))) s = Done s'.
Proof.
  remember (length (sp_line (serialPort s))) as n eqn:Hn.
  revert s Hn. induction n as [|n IH]; intros s Hn Hlen Hidx.
  - destruct (readStep_within_buffer s ScriptPort_readWithinRequest Hlen Hidx)
      as (s1 & again & bs & Hstep & _).
    cbn [readLoop]. rewrite Hstep. destruct again; [|by eexists].
    apply readStep_again_consumes in Hstep. congruence.
  - destruct (readStep_within_buffer s ScriptPort_readWithinRequest Hlen Hidx)
      as (s1 & again & bs & Hstep & _ & Hnew & Hle & Hlen1).
    change (readLoop (S (S n)) s)
      with (match readStep s with
            | Done (s', again) => if again then readLoop (S n) s' else Done s'
            | OutOfFuel => OutOfFuel
            | OutOfBounds => OutOfBounds
            end).
    rewrite Hstep. destruct again; [|by eexists].
    apply readStep_again_consumes in Hstep.
    apply IH; [congruence|done|lia].
Qed.

(** ** Checksums of what is received *)

Lemma take_cstring n buf : take n (cstring buf) = take n (cstring (take n buf)).
Proof.
  revert buf. induction n as [|n IH]; intros [|b buf]; simpl; try done.
  destruct (b =? 0); [done|]. simpl. by rewrite IH.
Qed.

Lemma cstring_7bit (l : list Z) :
  Forall (fun b => 0 <= b < 0x80) l -> Forall (fun b => 0 <= b < 0x80) (cstring l).
Proof.
  induction 1 as [|b l Hb _ IH]; simpl; [done|].
  destruct (b =? 0); [done|]. by constructor.
Qed.

Lemma fromUtf8_7bit (b : Z) (rest : list Z) :
  b < 0x80 -> fromUtf8 (b :: rest) = b :: fromUtf8 rest.
Proof. intros Hb. cbn [fromUtf8]. by destruct (Z.ltb_spec b 128); [|lia]. Qed.

Lemma skipBom_7bit (cs : list Z) :
  Forall (fun b => 0 <= b < 0x80) (take 1 cs) -> skipBom cs = cs.
Proof.
  destruct cs as [|b0 [|b1 [|b2 rest]]]; try done.
  intros Hb. apply Forall_cons in Hb as [Hb _]. unfold skipBom.
  by destruct (Z.eqb_spec b0 239); [lia|].
Qed.

(** Seven-bit bytes decode to themselves. *)
Lemma decode_7bit (n : nat) (cs : list Z) :
  Forall (fun b => 0 <= b < 0x80) (take n cs) ->
  text_of_units (take n (fromUtf8 cs)) = text_of_bytes (take n cs).
Proof.
  revert cs. induction n as [|n IH]; intros [|b cs] Hcs; try done.
  cbn [take] in Hcs. apply Forall_cons in Hcs as [Hb Hcs].
  rewrite fromUtf8_7bit by lia. cbn [take].
  unfold text_of_units in *. cbn [mbind list_bind]. fold (@mbind list _ _ _ unit_bytes).
  replace (unit_bytes b) with [b]
    by (unfold unit_bytes; by destruct (Z.ltb_spec b 128); [|lia]).
  cbn [app text_of_bytes foldr]. f_equal. by apply IH.
Qed.

(** For a buffer whose first four bytes are seven-bit, the tag text is
    those bytes up to the first zero. *)
Lemma commandText_7bit (buf : list Z) :
  Forall (fun b => 0 <= b < 0x80) (take 4 buf) ->
  commandText buf = text_of_bytes (take 4 (cstring buf)).
Proof.
  intros Htag. unfold commandText.
  assert (Hcs : Forall (fun b => 0 <= b < 0x80) (take 4 (cstring buf))).
  { rewrite take_cstring. by apply Forall_take, cstring_7bit. }
  rewrite skipBom_7bit; [by apply decode_7bit|].
  replace (take 1 (cstring buf)) with (take 1 (take 4 (cstring buf)))
    by (rewrite take_take; reflexivity).
  by apply Forall_take.
Qed.

Lemma commandText_set_checksum v buf :
  Forall (fun b => 0 <= b < 0x80) (take 4 buf) ->
  commandText (set_checksum v buf) = commandText buf.
Proof.
  intros Htag.
  assert (Htake : take 4 (set_checksum v buf) = take 4 buf).
  { unfold set_checksum, set16. by rewrite !take_insert_ge by lia. }
  rewrite !commandText_7bit by (by rewrite ?Htake).
  by rewrite take_cstring, Htake, <- take_cstring.
Qed.

(** What [statCmd] reports for a response with a seven-bit tag does not
    depend on the checksum field of the response. *)
Lemma statReport_ignores_checksum {P : Type} `{Transport P} (s : FDCDialog P) v :
  Forall (fun b => 0 <= b < 0x80) (take 4 (cmdBuf s)) ->
  statReport (set_cmdBuf (set_checksum v (cmdBuf s)) s)
  = set_cmdBuf (set_checksum v (cmdBuf s)) (statReport s).
Proof.
  intros Htag. unfold statReport. cbn [cmdBufIdx cmdBuf statAutoCheck set_cmdBuf].
  rewrite commandText_set_checksum by done.
  assert (Hdata : rdata (set_checksum v (cmdBuf s)) = rdata (cmdBuf s)).
  { unfold rdata, set_checksum. by rewrite get16_set16_ne by lia. }
  rewrite Hdata.
  destruct (cmdBufIdx s =? -1); [done|].
  destruct (negb (String.eqb _ _)); [done|].
  destruct (negb (statAutoCheck s)); done.
Qed.

(** Nor does the final status of [writCmd]. *)
Lemma wstaReport_ignores_checksum {P : Type} `{Transport P} (s : FDCDialog P) v :
  Forall (fun b => 0 <= b < 0x80) (take 4 (cmdBuf s)) ->
  wstaReport (set_cmdBuf (set_checksum v (cmdBuf s)) s)
  = set_cmdBuf (set_checksum v (cmdBuf s)) (wstaReport s).
Proof.
  intros Htag. unfold wstaReport. cbn [cmdBufIdx cmdBuf set_cmdBuf].
  rewrite commandText_set_checksum by done.
  assert (Hcode : rcode (set_checksum v (cmdBuf s)) = rcode (cmdBuf s)).
  { unfold rcode, set_checksum. by rewrite get16_set16_ne by lia. }
  rewrite Hcode.
  destruct (cmdBufIdx s =? -1); [done|].
  destruct (negb (String.eqb _ _)); done.
Qed.

(** What [readCmd] reports does not depend on the bytes received. *)
Lemma readReport_ignores_trackBuf {P : Type} `{Transport P} (s : FDCDialog P) buf :
  readReport (set_trackBuf buf s) = set_trackBuf buf (readReport s).
Proof.
  unfold readReport. cbn [trkBufIdx trackLen set_trackBuf].
  destruct (trkBufIdx s =? trackLen s + 2); [done|].
  destruct (trkBufIdx s =? -1); done.
Qed.

(** C1 (what the code does).  No transaction compares the checksum field
    of a received frame with the sum of its first eight bytes.  A STAT
    response whose checksum field is 0xFFFF instead of 0x0141 is reported
    like the valid one; a WRIT response with code OK and a wrong checksum
    still starts the data phase, and a WSTA frame with a wrong checksum is
    reported as the final status. *)
Theorem received_frame_checksum_not_verified :
  checksum (frameWith "STAT" 0 5 0xFFFF)
    ≠ calcChecksum (frameWith "STAT" 0 5 0xFFFF) COMMAND_LENGTH
  /\ checksum (frame "STAT" 0 5) = calcChecksum (frame "STAT" 0 5) COMMAND_LENGTH
  /\ shown (statCmd 1 (session None 0 TRACK_LEN_8 [Arrive (frameWith "STAT" 0 5 0xFFFF)]))
     = Some "Received 'STAT' response 0x0005"
  /\ shown (statCmd 1 (session None 0 TRACK_LEN_8 [Arrive (frame "STAT" 0 5)]))
     = Some "Received 'STAT' response 0x0005"
  /\ checksum (frameWith "WRIT" 0 0 0xFFFF)
       ≠ calcChecksum (frameWith "WRIT" 0 0 0xFFFF) COMMAND_LENGTH
  /\ checksum (frameWith "WSTA" 0 0 0xFFFF)
       ≠ calcChecksum (frameWith "WSTA" 0 0 0xFFFF) COMMAND_LENGTH
  /\ shown (writCmd 1 (session (Some 0) 0 TRACK_LEN_8
                         [Arrive (frameWith "WRIT" 0 0 0xFFFF);
                          Arrive (frameWith "WSTA" 0 0 0xFFFF)]))
     = Some "Received WSTA OK response"
  /\ length <$> written (writCmd 1 (session (Some 0) 0 TRACK_LEN_8
                                      [Arrive (frameWith "WRIT" 0 0 0xFFFF);
                                       Arrive (frameWith "WSTA" 0 0 0xFFFF)]))
     = Some 2%nat.
Proof.
  split; [vm_compute; congruence|].
  split; [vm_compute; reflexivity|].
  split; [vm_compute; reflexivity|].
  split; [vm_compute; reflexivity|].
  split; [vm_compute; congruence|].
  split; [vm_compute; congruence|].
  split; vm_compute; reflexivity.
Qed.

(** C2 (what the code does).  After a full reception [readCmd] assigns the
    sum of [TRACKBUF_LEN] bytes to a local and the address of the trailer
    to another, compares nothing, and sets the label to "Received
    <trackLen> byte track".  A track of 4384 bytes arrives once with its
    checksum 0x1120 and once with the trailer 0x0000; the label is the
    same. *)
Theorem track_checksum_not_compared :
  calcChecksum (replicate 4384 1) 4384 = 0x1120
  /\ shown (readCmd 2 (session (Some 0) 0 TRACK_LEN_8
                         [Arrive (replicate 4384 1 ++ [0x20; 0x11])]))
     = Some "Received 4384 byte track"
  /\ shown (readCmd 2 (session (Some 0) 0 TRACK_LEN_8
                         [Arrive (replicate 4384 1 ++ [0x00; 0x00])]))
     = Some "Received 4384 byte track".
Proof. repeat split; vm_compute; reflexivity. Qed.

(** ** The STAT request word *)

Lemma log2_byte a : 0 <= a < 256 -> Z.log2 a < 8.
Proof.
  intros Ha. destruct (Z.eq_dec a 0) as [->|Hne]; [done|].
  apply Z.log2_lt_pow2; lia.
Qed.

Lemma lor_byte a b : 0 <= a < 256 -> 0 <= b < 256 -> 0 <= Z.lor a b < 256.
Proof.
  intros Ha Hb.
  assert (Hnn : 0 <= Z.lor a b) by (apply Z.lor_nonneg; lia).
  split; [done|].
  destruct (Z.eq_dec (Z.lor a b) 0) as [->|Hne]; [done|].
  change 256 with (2 ^ 8). apply Z.log2_lt_pow2; [lia|].
  rewrite Z.log2_lor by lia.
  pose proof (log2_byte a Ha). pose proof (log2_byte b Hb). lia.
Qed.

(** One turn of the head-load loop on a word that fits a byte. *)
Lemma param1_orHeadLoad hs buf d :
  length buf = 10%nat -> 0 <= param1 buf < 256 -> 0 <= d < 8 ->
  param1 (orHeadLoad hs buf d)
  = Z.lor (param1 buf) (Z.shiftl (if hs !!! Z.to_nat d =? 0 then 0 else 1) d)
  /\ 0 <= param1 (orHeadLoad hs buf d) < 256
  /\ length (orHeadLoad hs buf d) = 10%nat.
Proof.
  intros Hlen Hp Hd. unfold orHeadLoad.
  set (bit := if hs !!! Z.to_nat d =? 0 then 0 else 1).
  assert (Hbit : 0 <= Z.shiftl bit d < 256).
  { unfold bit. destruct (_ =? 0).
    - rewrite Z.shiftl_0_l. lia.
    - rewrite Z.shiftl_1_l. split; [apply Z.pow_nonneg; lia|].
      change 256 with (2 ^ 8). apply Z.pow_lt_mono_r; lia. }
  pose proof (lor_byte _ _ Hp Hbit) as Hlor.
  assert (Heq : param1 (set_param1 (Z.lor (param1 buf) (Z.shiftl bit d)) buf)
                = Z.lor (param1 buf) (Z.shiftl bit d)).
  { unfold set_param1. unfold param1 at 1.
    rewrite wrap16_small by lia. apply get16_set16; lia. }
  rewrite Heq. split; [done|]. split; [done|].
  unfold set_param1. by rewrite length_set16.
Qed.

(** The word [statCmd] sends as field1: the drive number with the four
    head-load bits or-ed into its bits 0 to 3; nothing reaches bits 8 to
    15.  Field2 is zero. *)
Lemma statRequest_fields {P : Type} `{Transport P} (s : FDCDialog P) :
  length (cmdBuf s) = 10%nat ->
  0 <= driveNum s < 256 ->
  let h d := if headStatus s !!! d =? 0 then 0 else 1 in
  let sent := cmdBuf (statRequest s) in
  param1 sent
  = Z.lor (Z.lor (Z.lor (Z.lor (driveNum s) (h 0%nat)) (Z.shiftl (h 1%nat) 1))
                 (Z.shiftl (h 2%nat) 2))
          (Z.shiftl (h 3%nat) 3)
  /\ Z.shiftr (param1 sent) 8 = 0
  /\ param2 sent = 0
  /\ serialPort (statRequest s) = write (serialPort s) sent.
Proof.
  intros Hlen Hd h sent. unfold sent, statRequest, sendCommand.
  cbn [cmdBuf serialPort set_serialPort set_cmdBuf].
  change (seqZ 0 MAX_DRIVE) with [0; 1; 2; 3]. cbn [foldl].
  set (b0 := set_param1 (driveNum s) (set_command (bytes_of_text "STAT") (cmdBuf s))).
  assert (Hb0 : length b0 = 10%nat).
  { unfold b0, set_param1. by rewrite length_set16, length_set_command. }
  assert (Hp0 : param1 b0 = driveNum s).
  { unfold b0, set_param1, param1.
    rewrite get16_set16; rewrite ?wrap16_small by lia;
      rewrite ?length_set_command; lia. }
  destruct (param1_orHeadLoad (headStatus s) b0 0) as (E0 & R0 & L0); [done|lia|lia|].
  set (b1 := orHeadLoad (headStatus s) b0 0) in *.
  destruct (param1_orHeadLoad (headStatus s) b1 1) as (E1 & R1 & L1); [done|lia|lia|].
  set (b2 := orHeadLoad (headStatus s) b1 1) in *.
  destruct (param1_orHeadLoad (headStatus s) b2 2) as (E2 & R2 & L2); [done|lia|lia|].
  set (b3 := orHeadLoad (headStatus s) b2 2) in *.
  destruct (param1_orHeadLoad (headStatus s) b3 3) as (E3 & R3 & L3); [done|lia|lia|].
  set (b4 := orHeadLoad (headStatus s) b3 3) in *.
  assert (Hfinal : forall c, param1 (set_checksum c (set_param2 0 b4)) = param1 b4).
  { intros c. unfold param1, set_checksum, set_param2.
    by rewrite !get16_set16_ne by lia. }
  rewrite Hfinal, E3, E2, E1, E0, Hp0.
  split; [reflexivity|].
  rewrite <- Hp0, <- E0, <- E1, <- E2, <- E3.
  split.
  { rewrite Z.shiftr_div_pow2 by lia. apply Z.div_small. change (2 ^ 8) with 256. lia. }
  split.
  { unfold param2, set_checksum, set_param2.
    rewrite get16_set16_ne by lia.
    rewrite get16_set16; [done|lia|done]. }
  f_equal. apply firstn_all2.
  unfold set_checksum, set_param2. rewrite !length_set16.
  change (Z.to_nat CMDBUF_SIZE) with 10%nat. lia.
Qed.

(** ** The data phase of WRIT *)

(** When the response grants the write, [writCmd] sends the first
    [trackLen] bytes of [trackBuf] followed by their checksum, low byte
    first, in one write of [trackLen + 2] bytes. *)
Lemma sendTrack_block {P : Type} `{Transport P} (s : FDCDialog P) :
  0 <= trackLen s ->
  trackLen s + 2 <= Z.of_nat (length (trackBuf s)) ->
  exists s' lo hi,
    sendTrack s = Done s'
    /\ serialPort s'
       = write (serialPort s)
           (take (Z.to_nat (trackLen s)) (trackBuf s) ++ [lo; hi])
    /\ lo + 256 * hi = calcChecksum (trackBuf s) (trackLen s)
    /\ 0 <= lo < 256 /\ 0 <= hi < 256.
Proof.
  intros Hpos Hfit. unfold sendTrack, store.
  set (c := calcChecksum (trackBuf s) (trackLen s)).
  set (lo := Z.land c 255). set (hi := Z.land (Z.shiftr c 8) 255).
  rewrite bool_decide_true by lia. cbn [mbind Run_bind].
  rewrite bool_decide_true by (rewrite length_insert; lia).
  cbn [mbind Run_bind mret Run_ret].
  eexists _, lo, hi. split; [reflexivity|].
  cbn [serialPort set_serialPort set_trackBuf].
  set (n := Z.to_nat (trackLen s)).
  replace (Z.to_nat (trackLen s + 1)) with (S n) by lia.
  replace (Z.to_nat (trackLen s + 2)) with (S (S n)) by lia.
  assert (Hn : (S n < length (trackBuf s))%nat) by lia.
  split.
  { f_equal.
    rewrite (take_S_r _ (S n) hi)
      by (apply list_lookup_insert_eq; rewrite length_insert; lia).
    rewrite take_insert_ge by lia.
    rewrite (take_S_r _ n lo) by (apply list_lookup_insert_eq; lia).
    rewrite take_insert_ge by lia.
    by rewrite <- app_assoc. }
  pose proof (calcChecksum_range (trackBuf s) (trackLen s)) as Hc. fold c in Hc.
  unfold lo, hi. change 255 with (Z.ones 8). rewrite !Z.land_ones by lia.
  change (2 ^ 8) with 256.
  split; [apply (word_bytes c Hc)|].
  split; apply Z.mod_pos_bound; lia.
Qed.

(** * Further properties of the code *)

(** ** More on [calcChecksum] *)

Lemma sumZ_insert (l : list Z) (i : nat) (b : Z) :
  (i < length l)%nat -> sumZ (<[i := b]> l) = sumZ l - l !!! i + b.
Proof.
  revert i. induction l as [|x l IH]; intros [|i] Hi; cbn [length] in Hi; try lia.
  - change (<[0%nat := b]> (x :: l)) with (b :: l).
    change ((x :: l) !!! 0%nat) with x.
    change (sumZ (b :: l)) with (b + sumZ l).
    change (sumZ (x :: l)) with (x + sumZ l). lia.
  - change (<[S i := b]> (x :: l)) with (x :: <[i := b]> l).
    change (sumZ (x :: <[i:=b]> l)) with (x + sumZ (<[i:=b]> l)).
    change (sumZ (x :: l)) with (x + sumZ l).
    rewrite IH by lia. change ((x :: l) !!! S i) with (l !!! i). lia.
Qed.

Lemma sumZ_bytes_bound (l : list Z) :
  Forall (fun b => 0 <= b < 256) l -> 0 <= sumZ l <= 255 * Z.of_nat (length l).
Proof.
  induction 1 as [|x l Hx _ IH]; [done|].
  change (sumZ (x :: l)) with (x + sumZ l). cbn [length]. lia.
Qed.

(** The checksum of a block made of two parts is the sum of the checksums
    of the parts, modulo 65536; a length of zero or less sums nothing. *)
Theorem calcChecksum_of_parts (a b : list Z) :
  calcChecksum (a ++ b) (Z.of_nat (length (a ++ b)))
  = (calcChecksum a (Z.of_nat (length a)) + calcChecksum b (Z.of_nat (length b)))
      mod 65536
  /\ (forall data length, length <= 0 -> calcChecksum data length = 0).
Proof.
  split.
  - rewrite !calcChecksum_sum, !Nat2Z.id, !firstn_all, sumZ_app.
    unfold wrap16. by rewrite <- Zplus_mod.
  - intros data length Hle. unfold calcChecksum.
    replace (Z.to_nat length) with 0%nat by lia. reflexivity.
Qed.

(** Changing one byte inside the summed range to another byte value always
    changes the checksum. *)
Theorem calcChecksum_detects_byte_change (data : list Z) (length : Z) (i : nat) (b : Z) :
  (i < Z.to_nat length)%nat ->
  (i < List.length data)%nat ->
  0 <= data !!! i < 256 ->
  0 <= b < 256 ->
  b ≠ data !!! i ->
  calcChecksum (<[i := b]> data) length ≠ calcChecksum data length.
Proof.
  intros Hi Hlen Hold Hnew Hne. rewrite !calcChecksum_sum.
  rewrite take_insert_lt by done.
  rewrite sumZ_insert by (rewrite length_take; lia).
  rewrite lookup_total_take_lt by done.
  unfold wrap16. intros Heq.
  set (S := sumZ (take (Z.to_nat length) data)) in *.
  set (old := data !!! i) in *.
  pose proof (Z.div_mod S 65536 ltac:(lia)) as H1.
  pose proof (Z.div_mod (S - old + b) 65536 ltac:(lia)) as H2.
  rewrite Heq in H2. lia.
Qed.

Lemma calcChecksum_detects_byte_change_witness :
  calcChecksum [83; 84; 65; 85; 0; 0; 5; 0] 8
  ≠ calcChecksum [83; 84; 65; 84; 0; 0; 5; 0] 8.
Proof.
  apply (calcChecksum_detects_byte_change [83; 84; 65; 84; 0; 0; 5; 0] 8 3 85);
    vm_compute; try split; congruence || lia.
Defined.

(** Over at most 257 bytes the sum cannot reach 65536: the checksum of the
    eight header bytes of a frame is their plain sum, at most 2040. *)
Theorem calcChecksum_short_no_wrap (data : list Z) (length : Z) :
  Forall (fun b => 0 <= b < 256) data ->
  length <= 257 ->
  calcChecksum data length = sumZ (take (Z.to_nat length) data)
  /\ calcChecksum data length <= 255 * Z.max 0 length
  /\ calcChecksum data COMMAND_LENGTH <= 2040.
Proof.
  intros Hbytes Hshort.
  assert (Hbound : forall n : Z, n <= 257 ->
            0 <= sumZ (take (Z.to_nat n) data) <= 255 * Z.max 0 n
            /\ sumZ (take (Z.to_nat n) data) < 65536).
  { intros n Hn.
    pose proof (sumZ_bytes_bound (take (Z.to_nat n) data)
                  (Forall_take _ _ _ Hbytes)) as Hb.
    rewrite length_take in Hb. lia. }
  destruct (Hbound length Hshort) as [Hb Hlt].
  destruct (Hbound COMMAND_LENGTH ltac:(done)) as [Hb8 Hlt8].
  rewrite !calcChecksum_sum, !wrap16_small by lia.
  split; [done|]. split; [lia|]. change (Z.max 0 COMMAND_LENGTH) with 8 in Hb8. lia.
Qed.

Lemma calcChecksum_short_no_wrap_witness :
  calcChecksum (replicate 8 255) 8 = 2040.
Proof.
  destruct (calcChecksum_short_no_wrap (replicate 8 255) 8) as (Heq & _).
  - apply Forall_replicate. lia.
  - lia.
  - rewrite Heq. vm_compute. reflexivity.
Defined.

Lemma calcChecksum_of_parts_witness :
  calcChecksum ([200; 200] ++ [100]) 3 = (400 + 100) mod 65536
  /\ calcChecksum [1; 2; 3] (-1) = 0.
Proof.
  destruct (calcChecksum_of_parts [200; 200] [100]) as [Happ Hzero].
  split; [exact Happ|]. apply Hzero. lia.
Defined.

(** ** The frames the transactions send *)

Section Requests.
Context {P : Type} `{Transport P}.
Implicit Types s : FDCDialog P.

(** The ten bytes [sendCommand] writes: the first eight as they are in the
    buffer, then their checksum, low byte first. *)
Lemma sendCommand_bytes (head : list Z) (x8 x9 : Z) s :
  length head = 8%nat ->
  let c := calcChecksum head COMMAND_LENGTH in
  cmdBuf (sendCommand (head ++ [x8; x9]) s)
  = head ++ [wrap8 c; wrap8 (Z.shiftr c 8)]
  /\ serialPort (sendCommand (head ++ [x8; x9]) s)
     = write (serialPort s) (head ++ [wrap8 c; wrap8 (Z.shiftr c 8)]).
Proof.
  intros Hlen c.
  destruct head as [|h0 [|h1 [|h2 [|h3 [|h4 [|h5 [|h6 [|h7 [|]]]]]]]]]; try done.
  unfold sendCommand, set_checksum. cbn [cmdBuf serialPort set_serialPort set_cmdBuf].
  assert (Hc : calcChecksum ([h0; h1; h2; h3; h4; h5; h6; h7] ++ [x8; x9]) COMMAND_LENGTH = c).
  { reflexivity. }
  rewrite Hc, (wrap16_small c) by apply calcChecksum_range.
  split; reflexivity.
Qed.

(** Tag and parameters overwrite the first eight bytes of the buffer. *)
Lemma request_head (t buf : list Z) (v1 v2 : Z) :
  length t = 4%nat -> length buf = 10%nat ->
  set_param2 v2 (set_param1 v1 (set_command t buf))
  = (t ++ [wrap8 (wrap16 v1); wrap8 (Z.shiftr (wrap16 v1) 8);
           wrap8 (wrap16 v2); wrap8 (Z.shiftr (wrap16 v2) 8)])
    ++ [buf !!! 8%nat; buf !!! 9%nat].
Proof.
  intros Ht Hbuf.
  destruct t as [|t0 [|t1 [|t2 [|t3 [|]]]]]; try done.
  destruct buf as [|x0 [|x1 [|x2 [|x3 [|x4 [|x5 [|x6 [|x7 [|x8 [|x9 [|]]]]]]]]]]];
    try done.
Qed.

Lemma Forall_bytes_of_text (t : string) :
  Forall (fun b => 0 <= b < 256) (bytes_of_text t).
Proof.
  unfold bytes_of_text. apply Forall_fmap, Forall_forall. intros c _. simpl.
  pose proof (Ascii.N_ascii_bounded c). lia.
Qed.

(** Eight bytes followed by a word [c], low byte first: the checksum field
    reads [c], and the sum is taken over the eight bytes alone. *)
Lemma checksum_of_frame (head : list Z) (c : Z) :
  length head = 8%nat -> 0 <= c < 65536 ->
  checksum (head ++ [wrap8 c; wrap8 (Z.shiftr c 8)]) = c
  /\ calcChecksum (head ++ [wrap8 c; wrap8 (Z.shiftr c 8)]) COMMAND_LENGTH
     = calcChecksum head COMMAND_LENGTH.
Proof.
  intros Hlen Hc.
  destruct head as [|h0 [|h1 [|h2 [|h3 [|h4 [|h5 [|h6 [|h7 [|]]]]]]]]]; try done.
  split; [|reflexivity].
  change (checksum _) with (wrap8 c + 256 * wrap8 (Z.shiftr c 8)).
  by apply word_bytes.
Qed.

(** The frame of [readCmd] and [writCmd], byte for byte, for any track
    and drive number: tag, the two words low byte first, and the checksum
    of these eight bytes.  Nothing of what the buffer held before is
    sent, every byte is below 256, and the checksum field is the one
    [calcChecksum] gives for the frame. *)
Theorem track_request_frame (tag : string) s :
  length (cmdBuf s) = 10%nat ->
  length (bytes_of_text tag) = 4%nat ->
  let w1 := wrap16 (Z.lor (trackNum s) (Z.shiftl (driveNum s) 12)) in
  let w2 := wrap16 (trackLen s) in
  let head := bytes_of_text tag
                ++ [wrap8 w1; wrap8 (Z.shiftr w1 8); wrap8 w2; wrap8 (Z.shiftr w2 8)] in
  let c := calcChecksum head COMMAND_LENGTH in
  let sent := head ++ [wrap8 c; wrap8 (Z.shiftr c 8)] in
  cmdBuf (trackRequest tag s) = sent
  /\ serialPort (trackRequest tag s) = write (serialPort s) sent
  /\ checksum sent = calcChecksum sent COMMAND_LENGTH
  /\ Forall (fun b => 0 <= b < 256) sent.
Proof.
  intros Hbuf Htag w1 w2 head c sent.
  assert (Hhead : length head = 8%nat).
  { unfold head. rewrite length_app, Htag. reflexivity. }
  unfold trackRequest. rewrite request_head by done.
  destruct (sendCommand_bytes head (cmdBuf s !!! 8%nat) (cmdBuf s !!! 9%nat) s Hhead)
    as [Hcmd Hport].
  fold w1 w2 head. split; [exact Hcmd|]. split; [exact Hport|].
  pose proof (calcChecksum_range head COMMAND_LENGTH) as Hc. fold c in Hc.
  split.
  - unfold sent. by destruct (checksum_of_frame head c Hhead Hc) as [-> ->].
  - unfold sent, head. repeat apply Forall_app_2; [apply Forall_bytes_of_text|..];
      repeat constructor; apply wrap8_range.
Qed.

End Requests.

Lemma track_request_frame_witness :
  cmdBuf (trackRequest "READ" (session (Some 3) 1234 TRACK_LEN_8 []))
  = [82; 69; 65; 68; 0xD2; 0x34; 0x20; 0x11; 0x53; 0x02].
Proof.
  destruct (track_request_frame "READ" (session (Some 3) 1234 TRACK_LEN_8 []))
    as (Hcmd & _); [reflexivity|reflexivity|].
  rewrite Hcmd. vm_compute. reflexivity.
Defined.

Section Parameters.
Context {P : Type} `{Transport P}.
Implicit Types s : FDCDialog P.

Lemma wrap8_small z : 0 <= z < 256 -> wrap8 z = z.
Proof. intros. unfold wrap8. apply Z.mod_small. lia. Qed.

(** A turn of the head-load loop for a drive whose head is not loaded
    leaves the buffer as it is. *)
Lemma orHeadLoad_unloaded (t0 t1 t2 t3 d x6 x7 x8 x9 k : Z) :
  0 <= d < 256 -> 0 <= k < 4 ->
  orHeadLoad [0; 0; 0; 0] [t0; t1; t2; t3; d; 0; x6; x7; x8; x9] k
  = [t0; t1; t2; t3; d; 0; x6; x7; x8; x9].
Proof.
  intros Hd Hk. unfold orHeadLoad.
  assert (Hbit : Z.shiftl (if [0; 0; 0; 0] !!! Z.to_nat k =? 0 then 0 else 1) k = 0).
  { assert (Hcases : k = 0 \/ k = 1 \/ k = 2 \/ k = 3) by lia.
    destruct Hcases as [->|[->|[->| ->]]]; reflexivity. }
  rewrite Hbit, Z.lor_0_r.
  change (param1 [t0; t1; t2; t3; d; 0; x6; x7; x8; x9]) with (d + 256 * 0).
  rewrite Z.mul_0_r, Z.add_0_r.
  unfold set_param1, set16. rewrite wrap16_small by lia.
  rewrite (wrap8_small d) by lia.
  rewrite Z.shiftr_div_pow2, Z.div_small by (change (2 ^ 8) with 256; lia).
  reflexivity.
Qed.

(** The STAT frame of a dialog in which no head is loaded - the only
    frames this program sends, since nothing sets [headStatus] after the
    constructor has cleared it: tag, the drive number (0xFF for none) as a
    16-bit word, a zero word, and the checksum 316 + driveNum. *)
Theorem stat_request_frame_unloaded s :
  length (cmdBuf s) = 10%nat ->
  headStatus s = [0; 0; 0; 0] ->
  0 <= driveNum s < 256 ->
  let c := 316 + driveNum s in
  let sent := [83; 84; 65; 84; driveNum s; 0; 0; 0; wrap8 c; Z.shiftr c 8] in
  cmdBuf (statRequest s) = sent
  /\ serialPort (statRequest s) = write (serialPort s) sent
  /\ param1 sent = driveNum s
  /\ checksum sent = calcChecksum sent COMMAND_LENGTH.
Proof.
  intros Hbuf Hheads Hd c sent.
  destruct (cmdBuf s) as [|x0 [|x1 [|x2 [|x3 [|x4 [|x5 [|x6 [|x7 [|x8 [|x9 [|]]]]]]]]]]]
    eqn:Hcmd; try done.
  assert (Hb1 : set_param1 (driveNum s) (set_command (bytes_of_text "STAT") (cmdBuf s))
                = [83; 84; 65; 84; driveNum s; 0; x6; x7; x8; x9]).
  { rewrite Hcmd. unfold set_param1, set16. rewrite wrap16_small by lia.
    rewrite (wrap8_small (driveNum s)) by lia.
    rewrite Z.shiftr_div_pow2, Z.div_small by (change (2 ^ 8) with 256; lia).
    reflexivity. }
  assert (Hsum : calcChecksum [83; 84; 65; 84; driveNum s; 0; 0; 0] COMMAND_LENGTH = c).
  { rewrite calcChecksum_sum. change (Z.to_nat COMMAND_LENGTH) with 8%nat.
    unfold sumZ. cbn [take foldr]. rewrite wrap16_small; unfold c; lia. }
  assert (Hhi : wrap8 (Z.shiftr c 8) = Z.shiftr c 8).
  { apply wrap8_small. rewrite Z.shiftr_div_pow2 by lia. change (2 ^ 8) with 256.
    unfold c. split; [apply Z.div_pos; lia|apply Z.div_lt_upper_bound; lia]. }
  assert (Hreq : cmdBuf (statRequest s) = sent
                 /\ serialPort (statRequest s) = write (serialPort s) sent).
  { unfold statRequest. rewrite Hcmd in Hb1 |- *. rewrite Hb1, Hheads.
    change (seqZ 0 MAX_DRIVE) with [0; 1; 2; 3]. cbn [foldl].
    rewrite !orHeadLoad_unloaded by lia.
    change (set_param2 0 [83; 84; 65; 84; driveNum s; 0; x6; x7; x8; x9])
      with ([83; 84; 65; 84; driveNum s; 0; 0; 0] ++ [x8; x9]).
    destruct (sendCommand_bytes [83; 84; 65; 84; driveNum s; 0; 0; 0] x8 x9 s eq_refl)
      as [Hc Hp].
    rewrite Hsum, Hhi in Hc, Hp. done. }
  destruct Hreq as [Hc Hp]. split; [done|]. split; [done|].
  split.
  { change (param1 sent) with (driveNum s + 256 * 0). lia. }
  assert (Hcr : 0 <= c < 65536) by (unfold c; lia).
  destruct (checksum_of_frame [83; 84; 65; 84; driveNum s; 0; 0; 0] c eq_refl Hcr)
    as [Hck Hcalc].
  unfold sent. rewrite <- Hhi.
  change ([83; 84; 65; 84; driveNum s; 0; 0; 0; wrap8 c; wrap8 (Z.shiftr c 8)])
    with ([83; 84; 65; 84; driveNum s; 0; 0; 0] ++ [wrap8 c; wrap8 (Z.shiftr c 8)]).
  rewrite Hck, Hcalc, Hsum. reflexivity.
Qed.

(** The drive field is not range-checked when edited: the number typed is
    cut to its low eight bits, and [readCmd] and [writCmd] accept the
    result when it is below [MAX_DRIVE].  An empty field gives 0xFF, which
    they refuse. *)
Theorem drive_field_accepted (d : Z) s :
  driveNum (driveNumEditSlot (Some d) s) = d mod 256
  /\ (invalidDrive (driveNumEditSlot (Some d) s) = false <-> d mod 256 < MAX_DRIVE)
  /\ driveNum (driveNumEditSlot None s) = 0xff
  /\ invalidDrive (driveNumEditSlot None s) = true.
Proof.
  split; [reflexivity|]. split; [|split; reflexivity].
  unfold invalidDrive, driveNumEditSlot. cbn [driveNum set_driveNum].
  unfold wrap8, MAX_DRIVE.
  pose proof (Z.mod_pos_bound d 256 ltac:(lia)). lia.
Qed.

(** Choosing a disk type sets the track length to the entry's value and
    the track count to 77 for the 8-inch length and to 35 for anything
    else; drive, track number and buffers are left alone.  With either
    entry of the box a track and its checksum fit [trackBuf]. *)
Theorem diskSlot_geometry (itemData : Z) s :
  let s' := diskSlot itemData s in
  trackLen s' = itemData mod 65536
  /\ (trackMax s' = TRACK_MAX_8 <-> itemData mod 65536 = TRACK_LEN_8)
  /\ (trackMax s' = TRACK_MAX_8 \/ trackMax s' = TRACK_MAX_5)
  /\ (driveNum s', trackNum s', headStatus s', cmdBuf s', trackBuf s', serialPort s')
     = (driveNum s, trackNum s, headStatus s, cmdBuf s, trackBuf s, serialPort s)
  /\ (itemData = TRACK_LEN_8 \/ itemData = TRACK_LEN_5 ->
      trackLen s' = itemData /\ trackLen s' + 2 <= TRACKBUF_LEN_CRC).
Proof.
  intros s'. unfold s', diskSlot, wrap16.
  destruct (Z.eqb_spec (itemData mod 65536) TRACK_LEN_8) as [Heq|Hne];
    cbn [trackLen trackMax driveNum trackNum headStatus cmdBuf trackBuf
           serialPort set_geometry].
  - split; [done|]. split; [done|]. split; [by left|]. split; [done|].
    intros [-> | ->]; vm_compute; split; congruence.
  - split; [done|]. split; [split; [discriminate|done]|].
    split; [by right|]. split; [done|].
    intros [-> | ->]; vm_compute; split; congruence.
Qed.

End Parameters.

Lemma stat_request_frame_unloaded_witness :
  cmdBuf (statRequest (newDialog (openLine [])))
  = [83; 84; 65; 84; 0xFF; 0; 0; 0; 0x3B; 0x02].
Proof.
  destruct (stat_request_frame_unloaded (newDialog (openLine [])))
    as (Hcmd & _); [reflexivity|reflexivity|vm_compute; split; congruence|].
  rewrite Hcmd. reflexivity.
Defined.

Lemma drive_field_accepted_witness :
  invalidDrive (driveNumEditSlot (Some 256) (newDialog (openLine []))) = false
  /\ invalidDrive (driveNumEditSlot (Some 4) (newDialog (openLine []))) = true.
Proof.
  destruct (drive_field_accepted 256 (newDialog (openLine []))) as (_ & [_ Hok] & _).
  destruct (drive_field_accepted 4 (newDialog (openLine []))) as (_ & [Hno _] & _).
  split; [apply Hok; vm_compute; reflexivity|].
  apply not_false_iff_true. intros Hf. apply Hno in Hf.
  vm_compute in Hf. discriminate Hf.
Defined.

Lemma diskSlot_geometry_witness :
  trackLen (diskSlot TRACK_LEN_5 (newDialog (openLine []))) = 2192
  /\ trackMax (diskSlot TRACK_LEN_5 (newDialog (openLine []))) = 35
  /\ trackMax (diskSlot 0 (newDialog (openLine []))) = 35.
Proof.
  destruct (diskSlot_geometry TRACK_LEN_5 (newDialog (openLine [])))
    as (_ & _ & _ & _ & Hpreset).
  destruct (Hpreset (or_intror eq_refl)) as [Hlen _].
  split; [exact Hlen|]. split; reflexivity.
Defined.

(** ** Track numbers beyond twelve bits *)

Lemma lor_word a b : 0 <= a < 65536 -> 0 <= b < 65536 -> 0 <= Z.lor a b < 65536.
Proof.
  intros Ha Hb.
  assert (Hnn : 0 <= Z.lor a b) by (apply Z.lor_nonneg; lia).
  split; [done|].
  destruct (Z.eq_dec (Z.lor a b) 0) as [->|Hne]; [done|].
  change 65536 with (2 ^ 16). apply Z.log2_lt_pow2; [lia|].
  rewrite Z.log2_lor by lia.
  assert (Hlog : forall x, 0 <= x < 65536 -> Z.log2 x < 16).
  { intros x Hx. destruct (Z.eq_dec x 0) as [->|]; [done|].
    apply Z.log2_lt_pow2; lia. }
  pose proof (Hlog a Ha). pose proof (Hlog b Hb). lia.
Qed.

Section TrackField.
Context {P : Type} `{Transport P}.
Implicit Types s : FDCDialog P.

Lemma trackRequest_words (tag : string) s :
  length (cmdBuf s) = 10%nat ->
  length (bytes_of_text tag) = 4%nat ->
  param1 (cmdBuf (trackRequest tag s))
  = wrap16 (Z.lor (trackNum s) (Z.shiftl (driveNum s) 12))
  /\ param2 (cmdBuf (trackRequest tag s)) = wrap16 (trackLen s).
Proof.
  intros Hbuf Htag. unfold trackRequest. rewrite request_head by done.
  set (w1 := wrap16 (Z.lor (trackNum s) (Z.shiftl (driveNum s) 12))).
  set (w2 := wrap16 (trackLen s)).
  destruct (bytes_of_text tag) as [|t0 [|t1 [|t2 [|t3 [|]]]]]; try done.
  destruct (sendCommand_bytes
              ([t0; t1; t2; t3] ++ [wrap8 w1; wrap8 (Z.shiftr w1 8);
                                    wrap8 w2; wrap8 (Z.shiftr w2 8)])
              (cmdBuf s !!! 8%nat) (cmdBuf s !!! 9%nat) s eq_refl) as [-> _].
  split.
  - change (param1 _) with (wrap8 w1 + 256 * wrap8 (Z.shiftr w1 8)).
    apply word_bytes, wrap16_range.
  - change (param2 _) with (wrap8 w2 + 256 * wrap8 (Z.shiftr w2 8)).
    apply word_bytes, wrap16_range.
Qed.

(** The track field is not range-checked either: whatever number was
    typed, cut to sixteen bits, [readCmd] sends it.  Its bits 12 to 15 are
    then or-ed into the drive nibble of field1, so that a track number of
    4096 or more reaches the server as another drive's request. *)
Theorem track_field_not_checked (fuel : nat) (t : Z) s :
  isOpen (serialPort s) = true ->
  length (cmdBuf s) = 10%nat ->
  0 <= driveNum s < MAX_DRIVE ->
  let s' := trackNumEditSlot t s in
  let word := param1 (cmdBuf (readRequest s')) in
  trackNum s' = t mod 65536
  /\ readCmd fuel s'
     = (s'' ← readLoop fuel (set_trkBufIdx 0 (readRequest s')); mret (readReport s''))
  /\ word = Z.lor (t mod 65536) (Z.shiftl (driveNum s) 12)
  /\ Z.land word 0xfff = (t mod 65536) mod 4096
  /\ Z.shiftr word 12 = Z.lor (driveNum s) ((t mod 65536) / 4096).
Proof.
  intros Hopen Hbuf Hd s' word. unfold MAX_DRIVE in Hd.
  pose proof (Z.mod_pos_bound t 65536 ltac:(lia)) as Ht.
  set (n := t mod 65536) in *.
  assert (Hn : trackNum s' = n) by reflexivity.
  assert (Hdr : driveNum s' = driveNum s) by reflexivity.
  split; [done|]. split.
  { unfold readCmd. change (serialPort s') with (serialPort s). rewrite Hopen.
    unfold invalidDrive. rewrite Hdr.
    replace ((driveNum s <? 0) || (driveNum s >=? MAX_DRIVE)) with false
      by (unfold MAX_DRIVE; lia).
    reflexivity. }
  assert (Hshl : Z.shiftl (driveNum s) 12 = driveNum s * 4096).
  { by rewrite Z.shiftl_mul_pow2 by lia. }
  assert (Hword : word = Z.lor n (Z.shiftl (driveNum s) 12)).
  { unfold word, readRequest.
    destruct (trackRequest_words "READ" s') as [-> _]; [done|done|].
    rewrite Hn, Hdr. apply wrap16_small, lor_word; lia. }
  split; [done|]. rewrite Hword. split.
  - change 0xfff with (Z.ones 12). rewrite Z.land_ones by lia.
    rewrite <- Z.land_ones by lia.
    rewrite Z.land_lor_distr_l, !Z.land_ones by lia.
    rewrite Hshl. change (2 ^ 12) with 4096.
    rewrite Z.mod_mul by lia. apply Z.lor_0_r.
  - rewrite Z.shiftr_lor, Z.shiftr_shiftl_l by lia.
    change (12 - 12) with 0. rewrite Z.shiftl_0_r, Z.lor_comm.
    by rewrite Z.shiftr_div_pow2 by lia.
Qed.

End TrackField.

(** Track 4096 on drive 0 is sent as the frame of track 0 on drive 1. *)
Lemma track_field_not_checked_witness :
  cmdBuf (readRequest (trackNumEditSlot 4096 (session (Some 0) 0 TRACK_LEN_8 [])))
  = cmdBuf (readRequest (session (Some 1) 0 TRACK_LEN_8 []))
  /\ Z.shiftr (param1 (cmdBuf (readRequest
                 (trackNumEditSlot 4096 (session (Some 0) 0 TRACK_LEN_8 []))))) 12
     = 1.
Proof.
  destruct (track_field_not_checked 0 4096 (session (Some 0) 0 TRACK_LEN_8 []))
    as (_ & _ & _ & _ & Hnibble);
    [reflexivity|reflexivity|vm_compute; split; congruence|].
  split; [vm_compute; reflexivity|].
  rewrite Hnibble. reflexivity.
Defined.

(** ** The response wait: bounds, exit and failed reads *)

Section ResponseWait.
Context {P : Type} `{Transport P}.
Implicit Types s : FDCDialog P.

(** One iteration of the wait started with the index inside the frame. *)
Lemma waitStep_within_buffer s :
  readAtMostRequest ->
  length (cmdBuf s) = 10%nat ->
  0 <= cmdBufIdx s < 10 ->
  exists s' again,
    waitStep s = Done (s', again)
    /\ length (cmdBuf s') = 10%nat
    /\ -1 <= cmdBufIdx s' <= 10
    /\ (again = true -> 0 <= cmdBufIdx s' < 10)
    /\ (again = false -> cmdBufIdx s' = 10 \/ cmdBufIdx s' = -1).
Proof.
  intros Hlaw Hlen Hidx. unfold waitStep.
  destruct (waitForReadyRead (serialPort s) 500) as [avail p1].
  pose proof (Hlaw p1 (CMDBUF_SIZE - cmdBufIdx s)) as Hmost.
  unfold readInto. destruct (read p1 _) as [r p2]. simpl in Hmost.
  unfold CMDBUF_SIZE in *.
  assert (Hexit : forall k, -1 <= k <= 10 ->
            ((k <? 10) && negb (k =? -1) = true -> 0 <= k < 10)
            /\ ((k <? 10) && negb (k =? -1) = false -> k = 10 \/ k = -1)).
  { intros k Hk. destruct (Z.ltb_spec k 10), (Z.eqb_spec k (-1)); simpl; split;
      intros; try done; lia. }
  destruct r as [[|b bs]|].
  - cbn [mbind Run_bind mret Run_ret readCount length].
    rewrite Z.add_0_r, sint16_small by lia.
    eexists _, _. split; [reflexivity|].
    cbn [cmdBuf cmdBufIdx set_cmdBufIdx set_cmdBuf set_serialPort].
    split; [done|]. split; [lia|]. apply Hexit. lia.
  - specialize (Hmost (b :: bs) ltac:(lia) eq_refl).
    rewrite bool_decide_true by (rewrite Hlen; lia).
    change (readCount (Some (b :: bs))) with (Z.of_nat (length (b :: bs))).
    set (k := Z.of_nat (length (b :: bs))) in *.
    cbn [mbind Run_bind mret Run_ret].
    rewrite sint16_small by lia.
    eexists _, _. split; [reflexivity|].
    cbn [cmdBuf cmdBufIdx set_cmdBufIdx set_cmdBuf set_serialPort].
    rewrite length_inserts. split; [done|]. split; [lia|]. apply Hexit. lia.
  - cbn [mbind Run_bind mret Run_ret readCount].
    rewrite sint16_small by lia.
    eexists _, _. split; [reflexivity|].
    cbn [cmdBuf cmdBufIdx set_cmdBufIdx set_cmdBuf set_serialPort].
    split; [done|]. split; [lia|]. apply Hexit. lia.
Qed.

Lemma waitLoop_within_buffer (fuel : nat) s :
  readAtMostRequest ->
  length (cmdBuf s) = 10%nat ->
  0 <= cmdBufIdx s < 10 ->
  waitLoop fuel s ≠ OutOfBounds
  /\ forall s', waitLoop fuel s = Done s' ->
       length (cmdBuf s') = 10%nat /\ (cmdBufIdx s' = 10 \/ cmdBufIdx s' = -1).
Proof.
  intros Hlaw. revert s. induction fuel as [|fuel IH]; intros s Hlen Hidx; [done|].
  destruct (waitStep_within_buffer s Hlaw Hlen Hidx)
    as (s1 & again & Hstep & Hlen1 & Hrange & Hgo & Hstop).
  cbn [waitLoop]. rewrite Hstep. destruct again.
  - apply IH; [done|]. by apply Hgo.
  - split; [done|]. intros s' [= <-]. split; [done|]. by apply Hstop.
Qed.

(** Over a transport whose [read] may fail but never returns more than it
    was asked for, the wait for a response never stores outside [cmdBuf],
    and it can only end with the index at ten - a full frame - or at -1,
    the value the callers test for "read() error". *)
Theorem response_wait_full_frame_or_error (fuel : nat) s :
  readAtMostRequest ->
  length (cmdBuf s) = 10%nat ->
  waitResponse fuel s ≠ OutOfBounds
  /\ forall s', waitResponse fuel s = Done s' ->
       length (cmdBuf s') = 10%nat /\ (cmdBufIdx s' = 10 \/ cmdBufIdx s' = -1).
Proof.
  intros Hlaw Hlen. unfold waitResponse.
  apply waitLoop_within_buffer; [done|done|]. cbn. lia.
Qed.

(** A [read] that fails while the index is at zero ends the wait with -1,
    and the caller shows "read() error".  A [read] that fails later only
    moves the index back by one: the wait goes on, the failure is never
    shown, and the next bytes are stored over the last one received. *)
Theorem read_failure_in_response_wait s :
  0 <= cmdBufIdx s < 10 ->
  (read (waitForReadyRead (serialPort s) 500).2 (CMDBUF_SIZE - cmdBufIdx s)).1 = None ->
  exists s',
    waitStep s = Done (s', negb (cmdBufIdx s =? 0))
    /\ cmdBufIdx s' = cmdBufIdx s - 1
    /\ cmdBuf s' = cmdBuf s
    /\ (cmdBufIdx s = 0 ->
        messageLabel (statReport s') = "read() error"
        /\ messageLabel (wstaReport s') = "read() error"
        /\ forall fuel', writPhase2 fuel' s' = Done (setText "read() error" s')).
Proof.
  intros Hidx Hfail. unfold waitStep.
  destruct (waitForReadyRead (serialPort s) 500) as [avail p1]. simpl in Hfail.
  unfold readInto. destruct (read p1 _) as [r p2]. simpl in Hfail. subst r.
  cbn [mbind Run_bind mret Run_ret readCount].
  rewrite sint16_small by lia.
  eexists. split.
  { f_equal. f_equal. cbn [cmdBufIdx set_cmdBufIdx]. unfold CMDBUF_SIZE.
    destruct (Z.ltb_spec (cmdBufIdx s + -1) 10); [|lia].
    destruct (Z.eqb_spec (cmdBufIdx s + -1) (-1)), (Z.eqb_spec (cmdBufIdx s) 0);
      simpl; try reflexivity; lia. }
  cbn [cmdBuf cmdBufIdx set_cmdBufIdx set_cmdBuf set_serialPort].
  split; [lia|]. split; [done|].
  intros Hzero. unfold statReport, wstaReport, writPhase2.
  cbn [cmdBufIdx set_cmdBufIdx]. rewrite Hzero. done.
Qed.

End ResponseWait.

(** Both transactions and the STAT button on a port that was never opened. *)
Lemma closed_port_rejected_witness :
  let s := newDialog (mkScriptPort false [] [] []) in
  readCmd 1 s = Done (critical "Serial port not open" s)
  /\ written (statCmd 1 s) = Some [].
Proof.
  intros s. destruct (closed_port_rejected 1 s) as (Hread & _ & Hstat); [reflexivity|].
  split; [exact Hread|]. unfold written. rewrite Hstat. reflexivity.
Defined.

Lemma ScriptPort_readAtMostRequest : readAtMostRequest (P := ScriptPort).
Proof.
  intros p maxSize bs Hmax. simpl. unfold sp_read.
  destruct (Z.ltb_spec maxSize 0) as [Hneg|_]; [lia|]. simpl.
  intros [= <-]. rewrite length_take. lia.
Qed.

(** A STAT response arriving as six bytes and then four. *)
Lemma response_wait_full_frame_or_error_witness :
  exists s',
    waitResponse 2 (session None 0 TRACK_LEN_8
                      [Arrive (take 6 (frame "STAT" 0 5));
                       Arrive (drop 6 (frame "STAT" 0 5))]) = Done s'
    /\ cmdBufIdx s' = 10 /\ cmdBuf s' = frame "STAT" 0 5.
Proof.
  set (s := session None 0 TRACK_LEN_8
              [Arrive (take 6 (frame "STAT" 0 5)); Arrive (drop 6 (frame "STAT" 0 5))]).
  set (s' := default s (result (waitResponse 2 s))).
  assert (Hrun : waitResponse 2 s = Done s') by (vm_compute; reflexivity).
  destruct (response_wait_full_frame_or_error 2 s ScriptPort_readAtMostRequest eq_refl)
    as [_ Hend].
  destruct (Hend s' Hrun) as [_ [Hfull|Herr]].
  - exists s'. split; [exact Hrun|]. split; [exact Hfull|]. vm_compute. reflexivity.
  - vm_compute in Herr. discriminate Herr.
Defined.

(** Three bytes are in when a read fails: the wait goes on at index two. *)
Lemma read_failure_in_response_wait_witness :
  exists s',
    waitStep (set_cmdBufIdx 3 (newDialog (mkReplayPort [None]))) = Done (s', true)
    /\ cmdBufIdx s' = 2.
Proof.
  destruct (read_failure_in_response_wait
              (set_cmdBufIdx 3 (newDialog (mkReplayPort [None]))))
    as (s' & Hstep & Hidx & _); [vm_compute; split; congruence|reflexivity|].
  exists s'. split; [exact Hstep|exact Hidx].
Defined.

(** ** The track data [writCmd] sends *)

Section TrackBlock.
Context {P : Type} `{Transport P}.
Implicit Types s : FDCDialog P.

Lemma land_255 z : Z.land z 255 = wrap8 z.
Proof. change 255 with (Z.ones 8). by rewrite Z.land_ones by lia. Qed.

(** [sendTrack] changes [trackBuf] only in the two bytes after the track,
    where it stores the checksum, and writes the first [trackLen + 2]
    bytes of the result.  When those two bytes already hold the checksum
    of the track - as after a READ that brought a good track - the buffer
    is unchanged and the block written is, byte for byte, the block that
    was received. *)
Theorem sendTrack_round_trip s :
  0 <= trackLen s ->
  trackLen s + 2 <= Z.of_nat (length (trackBuf s)) ->
  exists s',
    sendTrack s = Done s'
    /\ serialPort s'
       = write (serialPort s) (take (Z.to_nat (trackLen s + 2)) (trackBuf s'))
    /\ take (Z.to_nat (trackLen s)) (trackBuf s')
       = take (Z.to_nat (trackLen s)) (trackBuf s)
    /\ drop (Z.to_nat (trackLen s + 2)) (trackBuf s')
       = drop (Z.to_nat (trackLen s + 2)) (trackBuf s)
    /\ get16 (trackBuf s') (Z.to_nat (trackLen s))
       = calcChecksum (trackBuf s) (trackLen s)
    /\ (forall lo hi,
          trackBuf s !! Z.to_nat (trackLen s) = Some lo ->
          trackBuf s !! S (Z.to_nat (trackLen s)) = Some hi ->
          0 <= lo < 256 -> 0 <= hi < 256 ->
          lo + 256 * hi = calcChecksum (trackBuf s) (trackLen s) ->
          trackBuf s' = trackBuf s).
Proof.
  intros Hpos Hfit. unfold sendTrack, store.
  set (c := calcChecksum (trackBuf s) (trackLen s)).
  pose proof (calcChecksum_range (trackBuf s) (trackLen s)) as Hc. fold c in Hc.
  rewrite bool_decide_true by lia. cbn [mbind Run_bind].
  rewrite bool_decide_true by (rewrite length_insert; lia).
  cbn [mbind Run_bind mret Run_ret].
  eexists. split; [reflexivity|].
  cbn [serialPort trackBuf set_serialPort set_trackBuf].
  set (n := Z.to_nat (trackLen s)).
  replace (Z.to_nat (trackLen s + 1)) with (S n) by lia.
  replace (Z.to_nat (trackLen s + 2)) with (S (S n)) by lia.
  assert (Hn : (S n < length (trackBuf s))%nat) by lia.
  rewrite !land_255.
  split; [done|]. split.
  { by rewrite !take_insert_ge by lia. }
  split.
  { by rewrite !drop_insert_lt by lia. }
  split.
  { unfold get16.
    rewrite list_lookup_total_insert_ne by lia.
    rewrite !list_lookup_total_insert_eq by (rewrite ?length_insert; lia).
    by apply word_bytes. }
  intros lo hi Hlo Hhi Rlo Rhi Hsum.
  assert (Hlo' : wrap8 c = lo).
  { rewrite <- Hsum. unfold wrap8.
    rewrite (Z.mul_comm 256 hi), Z.mod_add by lia. apply Z.mod_small. lia. }
  assert (Hhi' : wrap8 (Z.shiftr c 8) = hi).
  { rewrite <- Hsum, Z.shiftr_div_pow2 by lia. change (2 ^ 8) with 256.
    rewrite (Z.mul_comm 256 hi), Z.div_add by lia.
    rewrite (Z.div_small lo) by lia. rewrite Z.add_0_l. by apply wrap8_small. }
  rewrite Hlo', Hhi'.
  rewrite (list_insert_id _ n lo) by done.
  by rewrite list_insert_id.
Qed.

End TrackBlock.

(** A good track is read and sent back: the block written is the block
    received. *)
Lemma sendTrack_round_trip_witness :
  let block := replicate 4384 1 ++ [0x20; 0x11] in
  let s := default (session (Some 0) 0 TRACK_LEN_8 [])
             (result (readCmd 2 (session (Some 0) 0 TRACK_LEN_8 [Arrive block]))) in
  exists s',
    sendTrack s = Done s'
    /\ sp_tx (serialPort s') = sp_tx (serialPort s) ++ [block].
Proof.
  intros block s.
  destruct (sendTrack_round_trip s) as (s' & Hrun & Hport & _ & _ & _ & Hsame);
    [vm_compute; congruence|vm_compute; congruence|].
  exists s'. split; [exact Hrun|].
  rewrite Hport, (Hsame 0x20 0x11);
    [vm_compute; reflexivity|vm_compute; reflexivity..| | |];
    vm_compute; try split; congruence.
Defined.

(** ** The STAT timer *)

Section Timer.
Context {P : Type} `{Transport P}.
Implicit Types s : FDCDialog P.

Lemma waitLoop_keeps_boxes fuel s s' :
  waitLoop fuel s = Done s' ->
  criticals s' = criticals s /\ trkBufIdx s' = trkBufIdx s.
Proof.
  revert s. induction fuel as [|fuel IH]; intros s; simpl; [done|].
  destruct (waitStep s) as [[s1 again]| |] eqn:Hstep; [|done..].
  assert (Hone : criticals s1 = criticals s /\ trkBufIdx s1 = trkBufIdx s).
  { revert Hstep. unfold waitStep.
    destruct (waitForReadyRead (serialPort s) 500) as [avail p1].
    destruct (readInto _ _ _ _) as [[[n buf] p2]| |]; simpl; [|done..].
    intros [= <- _]. done. }
  destruct Hone as [Hc Hi]. destruct again.
  - intros Hloop. apply IH in Hloop as [-> ->]. done.
  - intros [= <-]. done.
Qed.

(** What a timeout of the STAT timer can do.  With the port closed or the
    check box off it does nothing.  Otherwise it runs a STAT exchange,
    which raises no message box, leaves the track buffer, its index and
    the session parameters alone, and changes the message label only when
    the read failed or the response did not carry the tag "STAT". *)
Theorem timerSlot_quiet (fuel : nat) s s' :
  timerSlot fuel s = Done s' ->
  criticals s' = criticals s
  /\ trackBuf s' = trackBuf s
  /\ trkBufIdx s' = trkBufIdx s
  /\ driveTrackState s' = driveTrackState s
  /\ (isOpen (serialPort s) = false \/ statAutoCheck s = false -> s' = s)
  /\ (messageLabel s' ≠ messageLabel s ->
      cmdBufIdx s' = -1 \/ commandText (cmdBuf s') ≠ "STAT").
Proof.
  unfold timerSlot.
  destruct (isOpen (serialPort s)) eqn:Hopen; simpl; [|intros [= <-]; by auto].
  destruct (statAutoCheck s) eqn:Hauto; [|intros [= <-]; by auto].
  unfold statCmd. rewrite Hopen. simpl. unfold waitResponse.
  destruct (waitLoop _ _) as [s2| |] eqn:Hloop; simpl; [|done..].
  intros [= <-].
  pose proof (waitLoop_frame _ _ _ Hloop) as (Hdts & Hchk & Hbuf & Hlabel).
  pose proof (waitLoop_keeps_boxes _ _ _ Hloop) as (Hbox & Hidx).
  simpl in Hdts, Hchk, Hbuf, Hlabel, Hbox, Hidx.
  unfold statReport.
  destruct (Z.eqb_spec (cmdBufIdx s2) (-1)) as [Herr|Hok].
  { cbn. repeat split; try done; try (intros [?|?]; congruence). by left. }
  destruct (String.eqb_spec (commandText (cmdBuf s2)) "STAT") as [Htag|Htag]; simpl.
  - rewrite Hchk, Hauto. simpl.
    repeat split; try done; try (intros [?|?]; congruence).
  - cbn. repeat split; try done; try (intros [?|?]; congruence). by right.
Qed.

End Timer.

(** Whatever is typed into the timer field, the interval of the STAT
    timer stays at 100 ms or more: a value of at least 100 replaces it,
    anything smaller is ignored. *)
Theorem stat_timer_interval_at_least_100 (edits : list Z) :
  100 <= foldl (fun interval t => statTimerEditSlot t interval) initialInterval edits
  /\ (forall t interval, 100 <= t -> statTimerEditSlot t interval = t)
  /\ (forall t interval, t < 100 -> statTimerEditSlot t interval = interval).
Proof.
  split.
  - assert (Hgen : forall i, 100 <= i ->
              100 <= foldl (fun interval t => statTimerEditSlot t interval) i edits).
    { induction edits as [|t edits IH]; intros i Hi; [done|].
      simpl. apply IH. unfold statTimerEditSlot.
      destruct (Z.geb_spec t 100); lia. }
    apply Hgen. unfold initialInterval. lia.
  - split; intros t interval Ht; unfold statTimerEditSlot;
      destruct (Z.geb_spec t 100); lia.
Qed.

Lemma stat_timer_interval_at_least_100_witness :
  foldl (fun interval t => statTimerEditSlot t interval) initialInterval [250; 5; 0]
  = 250
  /\ statTimerEditSlot 99 250 = 250.
Proof.
  destruct (stat_timer_interval_at_least_100 [250; 5; 0]) as (_ & _ & Hsmall).
  split; [reflexivity|]. apply Hsmall. lia.
Defined.

(** An auto-poll answered by a STAT frame leaves the label as it was. *)
Lemma timerSlot_quiet_witness :
  let s := set_statAutoCheck true
             (setText "Received 4384 byte track"
                (session (Some 0) 0 TRACK_LEN_8 [Arrive (frame "STAT" 0 5)])) in
  exists s', timerSlot 1 s = Done s'
             /\ messageLabel s' = "Received 4384 byte track"
             /\ trackBuf s' = trackBuf s.
Proof.
  intros s. set (s' := default s (result (timerSlot 1 s))).
  assert (Hrun : timerSlot 1 s = Done s') by (vm_compute; reflexivity).
  destruct (timerSlot_quiet 1 s s' Hrun) as (_ & Hbuf & _).
  exists s'. split; [exact Hrun|]. split; [vm_compute; reflexivity|exact Hbuf].
Defined.

(** ** Exchanges with a peer that answers *)

Lemma list_inserts_middle (l k : list Z) (i : nat) :
  (i + length k <= length l)%nat ->
  list_inserts i k l = take i l ++ k ++ drop (i + length k) l.
Proof.
  intros Hfit.
  rewrite <- (take_drop i l) at 1.
  replace i with (length (take i l) + 0)%nat at 1 by (rewrite length_take; lia).
  rewrite list_inserts_app_r. f_equal.
  rewrite <- (take_drop (length k) (drop i l)) at 1.
  rewrite list_inserts_0_r by (rewrite length_take, length_drop; lia).
  by rewrite drop_drop.
Qed.

(** One iteration of the response wait in which a chunk arrives that
    fits the rest of the frame. *)
Lemma waitStep_arrive (s : FDCDialog ScriptPort) (bs : list Z) (rest : list Event) :
  sp_rx (serialPort s) = [] ->
  sp_line (serialPort s) = Arrive bs :: rest ->
  bs ≠ [] ->
  length (cmdBuf s) = 10%nat ->
  0 <= cmdBufIdx s ->
  cmdBufIdx s + Z.of_nat (length bs) <= 10 ->
  waitStep s
  = Done (set_cmdBufIdx (cmdBufIdx s + Z.of_nat (length bs))
            (set_cmdBuf (take (Z.to_nat (cmdBufIdx s)) (cmdBuf s) ++ bs
                           ++ drop (Z.to_nat (cmdBufIdx s) + length bs) (cmdBuf s))
               (set_serialPort
                  (mkScriptPort (sp_open (serialPort s)) [] rest (sp_tx (serialPort s)))
                  s)),
          cmdBufIdx s + Z.of_nat (length bs) <? 10).
Proof.
  intros Hrx Hline Hne Hlen Hidx Hfit. unfold waitStep.
  change (waitForReadyRead (serialPort s) 500) with (sp_wait (serialPort s) 500).
  unfold sp_wait. rewrite Hline, Hrx. cbn [app].
  unfold readInto.
  change (read ?p ?m) with (sp_read p m). unfold sp_read, CMDBUF_SIZE.
  cbn [sp_rx sp_open sp_line sp_tx].
  destruct (Z.ltb_spec (10 - cmdBufIdx s) 0) as [Hneg|_]; [lia|].
  rewrite take_ge, drop_ge by lia.
  destruct bs as [|b bs]; [done|].
  set (chunk := b :: bs) in *.
  rewrite bool_decide_true by (rewrite Hlen; lia).
  change (readCount (Some chunk)) with (Z.of_nat (length chunk)).
  cbn [mbind Run_bind mret Run_ret].
  rewrite sint16_small by lia.
  rewrite list_inserts_middle by lia.
  cbn [cmdBufIdx set_cmdBufIdx].
  replace (negb (cmdBufIdx s + Z.of_nat (length chunk) =? -1)) with true
    by (symmetry; apply negb_true_iff, Z.eqb_neq; lia).
  by rewrite andb_true_r.
Qed.

(** The response wait on a line that delivers the rest of the frame in
    chunks: the chunks are stored one after the other and the wait ends
    when the tenth byte is in. *)
Lemma waitLoop_chunks (chunks : list (list Z)) :
  forall (fuel : nat) (s : FDCDialog ScriptPort) (rest : list Event),
    (length chunks <= fuel)%nat ->
    Forall (fun bs => bs ≠ []) chunks ->
    sp_rx (serialPort s) = [] ->
    sp_line (serialPort s) = arrivals chunks rest ->
    length (cmdBuf s) = 10%nat ->
    0 <= cmdBufIdx s < 10 ->
    cmdBufIdx s + Z.of_nat (length (concat chunks)) = 10 ->
    exists s',
      waitLoop fuel s = Done s'
      /\ cmdBufIdx s' = 10
      /\ cmdBuf s' = take (Z.to_nat (cmdBufIdx s)) (cmdBuf s) ++ concat chunks
      /\ serialPort s'
         = mkScriptPort (sp_open (serialPort s)) [] rest (sp_tx (serialPort s)).
Proof.
  induction chunks as [|bs chunks IH];
    intros fuel s rest Hfuel Hne Hrx Hline Hlen Hidx Htotal.
  { simpl in Htotal. lia. }
  apply Forall_cons in Hne as [Hbs Hne].
  destruct fuel as [|fuel]; [simpl in Hfuel; lia|].
  cbn [concat] in Htotal. rewrite length_app in Htotal.
  assert (Hstep := waitStep_arrive s bs (arrivals chunks rest) Hrx Hline Hbs Hlen
                     ltac:(lia) ltac:(lia)).
  cbn [waitLoop]. rewrite Hstep. clear Hstep.
  set (s1 := set_cmdBufIdx _ _).
  assert (Hbuf1 : cmdBuf s1 = take (Z.to_nat (cmdBufIdx s)) (cmdBuf s) ++ bs
                    ++ drop (Z.to_nat (cmdBufIdx s) + length bs) (cmdBuf s))
    by reflexivity.
  assert (Hlen1 : length (cmdBuf s1) = 10%nat).
  { rewrite Hbuf1, !length_app, length_take, length_drop. lia. }
  destruct (Z.ltb_spec (cmdBufIdx s + Z.of_nat (length bs)) 10) as [Hmore|Hdone].
  - destruct (IH fuel s1 rest) as (s' & Hrun & Hidx' & Hbuf' & Hport');
      [simpl in Hfuel; lia|done|done|done|done|cbn; lia|cbn; lia|].
    exists s'. split; [done|]. split; [done|]. split; [|done].
    rewrite Hbuf', Hbuf1. cbn [cmdBufIdx s1 set_cmdBufIdx concat].
    replace (Z.to_nat (cmdBufIdx s + Z.of_nat (length bs)))
      with (length (take (Z.to_nat (cmdBufIdx s)) (cmdBuf s) ++ bs))
      by (rewrite length_app, length_take; lia).
    rewrite app_assoc, take_app_length. by rewrite <- app_assoc.
  - assert (Hnil : concat chunks = []).
    { apply length_zero_iff_nil. lia. }
    exists s1. split; [done|]. split; [cbn; lia|]. split.
    + rewrite Hbuf1. cbn [concat]. rewrite Hnil, app_nil_r.
      rewrite drop_ge by lia. by rewrite app_nil_r.
    + assert (Hchunks : chunks = []).
      { destruct chunks as [|c chunks]; [done|].
        apply Forall_cons in Hne as [Hc _]. simpl in Hnil.
        by apply app_eq_nil in Hnil as [-> _]. }
      subst chunks. reflexivity.
Qed.

Lemma sendCommand_port {P : Type} `{Transport P} (buf : list Z) (s : FDCDialog P) :
  length buf = 10%nat ->
  serialPort (sendCommand buf s) = write (serialPort s) (cmdBuf (sendCommand buf s))
  /\ length (cmdBuf (sendCommand buf s)) = 10%nat.
Proof.
  intros Hlen. unfold sendCommand, set_checksum.
  cbn [cmdBuf serialPort set_serialPort set_cmdBuf].
  rewrite length_set16. split; [|done].
  f_equal. apply firstn_all2. rewrite length_set16.
  change (Z.to_nat CMDBUF_SIZE) with 10%nat. lia.
Qed.

Lemma statRequest_port {P : Type} `{Transport P} (s : FDCDialog P) :
  length (cmdBuf s) = 10%nat ->
  serialPort (statRequest s) = write (serialPort s) (cmdBuf (statRequest s)).
Proof.
  intros Hlen. unfold statRequest. apply sendCommand_port.
  change (seqZ 0 MAX_DRIVE) with [0; 1; 2; 3]. cbn [foldl].
  unfold set_param2, orHeadLoad, set_param1.
  by rewrite !length_set16, length_set_command.
Qed.

Lemma trackRequest_port {P : Type} `{Transport P} tag (s : FDCDialog P) :
  length (cmdBuf s) = 10%nat ->
  serialPort (trackRequest tag s) = write (serialPort s) (cmdBuf (trackRequest tag s)).
Proof.
  intros Hlen. unfold trackRequest. apply sendCommand_port.
  unfold set_param2, set_param1.
  by rewrite !length_set16, length_set_command.
Qed.

(** A STAT exchange with a peer that answers.  The ten bytes of the
    response may arrive in any number of non-empty chunks; [statCmd]
    writes its request once, assembles the chunks in order in [cmdBuf],
    consumes nothing beyond them, and sets the label by the tag: the
    mismatch text, or the bitmap in hexadecimal, or - with the check box
    on - nothing. *)
Theorem stat_exchange (fuel : nat) (s : FDCDialog ScriptPort)
    (chunks : list (list Z)) (rest : list Event) :
  sp_open (serialPort s) = true ->
  sp_rx (serialPort s) = [] ->
  sp_line (serialPort s) = arrivals chunks rest ->
  Forall (fun bs => bs ≠ []) chunks ->
  length (concat chunks) = 10%nat ->
  length (cmdBuf s) = 10%nat ->
  (length chunks <= fuel)%nat ->
  exists s',
    statCmd fuel s = Done s'
    /\ cmdBuf s' = concat chunks
    /\ serialPort s'
       = mkScriptPort true [] rest (sp_tx (serialPort s) ++ [cmdBuf (statRequest s)])
    /\ messageLabel s'
       = (if negb (String.eqb (commandText (concat chunks)) "STAT")
          then "Did not receive 'STAT' response '" +:+ commandText (concat chunks) +:+ "'"
          else if statAutoCheck s then messageLabel s
          else "Received 'STAT' response 0x" +:+ hex4 (rdata (concat chunks))).
Proof.
  intros Hopen Hrx Hline Hne Hten Hlen Hfuel.
  unfold statCmd. change (isOpen (serialPort s)) with (sp_open (serialPort s)).
  rewrite Hopen. cbn [negb]. unfold waitResponse.
  set (s0 := set_cmdBufIdx 0 (statRequest s)).
  assert (Hport0 : serialPort s0 = sp_write (serialPort s) (cmdBuf (statRequest s))).
  { unfold s0. cbn [serialPort set_cmdBufIdx]. by rewrite statRequest_port. }
  destruct (waitLoop_chunks chunks fuel s0 rest) as (s1 & Hrun & Hidx & Hbuf & Hport);
    [done|done|by rewrite Hport0|by rewrite Hport0| |cbn; lia|cbn; lia|].
  { unfold s0. cbn [cmdBuf set_cmdBufIdx]. by rewrite length_statRequest. }
  rewrite Hrun. cbn [mbind Run_bind mret Run_ret].
  pose proof (waitLoop_frame _ _ _ Hrun) as (_ & Hauto & _ & Hlabel).
  change (statAutoCheck s0) with (statAutoCheck s) in Hauto.
  change (messageLabel s0) with (messageLabel s) in Hlabel.
  change (cmdBuf s1 = concat chunks) in Hbuf.
  rewrite Hport0 in Hport. cbn [sp_write sp_open sp_tx] in Hport. rewrite Hopen in Hport.
  assert (Hrep : cmdBuf (statReport s1) = cmdBuf s1
                 /\ serialPort (statReport s1) = serialPort s1).
  { unfold statReport. destruct (cmdBufIdx s1 =? -1); [done|].
    destruct (negb (String.eqb _ _)); [done|]. by destruct (negb (statAutoCheck s1)). }
  destruct Hrep as [Hc Hp].
  eexists. split; [reflexivity|].
  rewrite Hc, Hp, Hbuf, Hport. split; [done|]. split; [done|].
  unfold statReport. rewrite Hidx, Hbuf, Hauto. cbn [Z.eqb].
  destruct (negb (String.eqb _ _)); [done|].
  destruct (statAutoCheck s); [done|done].
Qed.

(** Drives 0 and 2 mounted, the response split after the tag. *)
Lemma stat_exchange_witness :
  exists s',
    statCmd 2 (session None 0 TRACK_LEN_8
                 [Arrive [83; 84; 65; 84]; Arrive [0; 0; 5; 0; 0x41; 0x01]]) = Done s'
    /\ messageLabel s' = "Received 'STAT' response 0x0005".
Proof.
  destruct (stat_exchange 2 (session None 0 TRACK_LEN_8
              [Arrive [83; 84; 65; 84]; Arrive [0; 0; 5; 0; 0x41; 0x01]])
              [[83; 84; 65; 84]; [0; 0; 5; 0; 0x41; 0x01]] [])
    as (s' & Hrun & _ & _ & Hlabel);
    [reflexivity|reflexivity|reflexivity| |reflexivity|reflexivity|simpl; lia|].
  - repeat constructor; discriminate.
  - exists s'. split; [exact Hrun|]. rewrite Hlabel. vm_compute. reflexivity.
Defined.

(** [sendTrack] spelled out: the members afterwards. *)
Lemma sendTrack_members {P : Type} `{Transport P} (s : FDCDialog P) :
  0 <= trackLen s ->
  trackLen s + 2 <= Z.of_nat (length (trackBuf s)) ->
  exists lo hi buf,
    sendTrack s
    = Done (set_serialPort
              (write (serialPort s)
                 (take (Z.to_nat (trackLen s)) (trackBuf s) ++ [lo; hi]))
              (set_trackBuf buf s))
    /\ lo + 256 * hi = calcChecksum (trackBuf s) (trackLen s).
Proof.
  intros Hpos Hfit. unfold sendTrack, store.
  set (c := calcChecksum (trackBuf s) (trackLen s)).
  pose proof (calcChecksum_range (trackBuf s) (trackLen s)) as Hc. fold c in Hc.
  rewrite bool_decide_true by lia. cbn [mbind Run_bind].
  rewrite bool_decide_true by (rewrite length_insert; lia).
  cbn [mbind Run_bind mret Run_ret]. rewrite !land_255.
  set (n := Z.to_nat (trackLen s)).
  replace (Z.to_nat (trackLen s + 1)) with (S n) by lia.
  replace (Z.to_nat (trackLen s + 2)) with (S (S n)) by lia.
  assert (Hn : (S n < length (trackBuf s))%nat) by lia.
  eexists (wrap8 c), (wrap8 (Z.shiftr c 8)), _. split; [|by apply word_bytes].
  f_equal. f_equal. f_equal.
  rewrite (take_S_r _ (S n) (wrap8 (Z.shiftr c 8)))
    by (apply list_lookup_insert_eq; rewrite length_insert; lia).
  rewrite take_insert_ge by lia.
  rewrite (take_S_r _ n (wrap8 c)) by (apply list_lookup_insert_eq; lia).
  rewrite take_insert_ge by lia.
  by rewrite <- app_assoc.
Qed.

(** A WRIT exchange with a server that grants the write.  The WRIT
    response (tag "WRIT", code OK) and the status frame each arrive in
    non-empty chunks.  [writCmd] writes exactly two blocks - its request,
    then the track followed by its checksum - consumes the two frames and
    nothing more, and sets the label from the status frame: the mismatch
    text if its tag is not "WSTA", else the text of its code. *)
Theorem writ_exchange (fuel : nat) (s : FDCDialog ScriptPort)
    (grant status : list (list Z)) (rest : list Event) :
  sp_open (serialPort s) = true ->
  sp_rx (serialPort s) = [] ->
  sp_line (serialPort s) = arrivals grant (arrivals status rest) ->
  Forall (fun bs => bs ≠ []) grant ->
  Forall (fun bs => bs ≠ []) status ->
  length (concat grant) = 10%nat ->
  length (concat status) = 10%nat ->
  commandText (concat grant) = "WRIT" ->
  rcode (concat grant) = STAT_OK ->
  0 <= driveNum s < MAX_DRIVE ->
  length (cmdBuf s) = 10%nat ->
  0 <= trackLen s ->
  trackLen s + 2 <= Z.of_nat (length (trackBuf s)) ->
  (length grant <= fuel)%nat ->
  (length status <= fuel)%nat ->
  exists s' lo hi,
    writCmd fuel s = Done s'
    /\ serialPort s'
       = mkScriptPort true [] rest
           (sp_tx (serialPort s)
              ++ [cmdBuf (writRequest s);
                  take (Z.to_nat (trackLen s)) (trackBuf s) ++ [lo; hi]])
    /\ lo + 256 * hi = calcChecksum (trackBuf s) (trackLen s)
    /\ messageLabel s'
       = (if negb (String.eqb (commandText (concat status)) "WSTA")
          then "Did not receive 'WSTA' response '" +:+ commandText (concat status) +:+ "'"
          else "Received WSTA " +:+ statusText (rcode (concat status)) +:+ " response").
Proof.
  intros Hopen Hrx Hline Hne1 Hne2 Hten1 Hten2 Htag Hcode Hdrive Hlen Hpos Hfit
    Hfuel1 Hfuel2.
  unfold writCmd. change (isOpen (serialPort s)) with (sp_open (serialPort s)).
  rewrite Hopen. cbn [negb].
  replace (invalidDrive s) with false
    by (unfold invalidDrive, MAX_DRIVE in *; lia).
  unfold waitResponse at 1.
  set (s0 := set_cmdBufIdx 0 (writRequest s)).
  assert (Hport0 : serialPort s0 = sp_write (serialPort s) (cmdBuf (writRequest s))).
  { unfold s0, writRequest. cbn [serialPort set_cmdBufIdx]. by rewrite trackRequest_port. }
  destruct (waitLoop_chunks grant fuel s0 (arrivals status rest))
    as (s1 & Hrun1 & Hidx1 & Hbuf1 & Hport1);
    [done|done|by rewrite Hport0|by rewrite Hport0| |cbn; lia|cbn; lia|].
  { unfold s0, writRequest. cbn [cmdBuf set_cmdBufIdx]. by rewrite length_trackRequest. }
  rewrite Hrun1. cbn [mbind Run_bind].
  pose proof (waitLoop_frame _ _ _ Hrun1) as (Hdts & _ & Htrk & _).
  change (trackBuf s0) with (trackBuf s) in Htrk.
  assert (Hlen1 : trackLen s1 = trackLen s).
  { unfold driveTrackState in Hdts. injection Hdts as _ _ _ Hl _. exact Hl. }
  change (cmdBuf s1 = concat grant) in Hbuf1.
  rewrite Hport0 in Hport1. cbn [sp_write sp_open sp_tx] in Hport1.
  rewrite Hopen in Hport1.
  unfold writPhase2. rewrite Hidx1, Hbuf1, Htag, Hcode.
  cbn [Z.eqb String.eqb negb STAT_OK Ascii.eqb Bool.eqb andb].
  destruct (sendTrack_members s1) as (lo & hi & buf & Hsend & Hsum);
    [lia|rewrite Htrk; lia|].
  rewrite Hsend. cbn [mbind Run_bind]. clear Hsend.
  rewrite Hlen1, Htrk in *.
  set (s2 := set_serialPort _ _).
  unfold waitResponse.
  destruct (waitLoop_chunks status fuel (set_cmdBufIdx 0 s2) rest)
    as (s3 & Hrun3 & Hidx3 & Hbuf3 & Hport3);
    [done|done| | | |cbn; lia|cbn; lia|].
  { unfold s2. cbn [serialPort set_cmdBufIdx set_serialPort]. by rewrite Hport1. }
  { unfold s2. cbn [serialPort set_cmdBufIdx set_serialPort]. by rewrite Hport1. }
  { unfold s2. cbn [cmdBuf set_cmdBufIdx set_serialPort set_trackBuf].
    by rewrite Hbuf1. }
  rewrite Hrun3. cbn [mbind Run_bind mret Run_ret].
  change (cmdBuf s3 = concat status) in Hbuf3.
  unfold s2 in Hport3. cbn [serialPort set_cmdBufIdx set_serialPort] in Hport3.
  rewrite Hport1 in Hport3.
  change (write ?p ?b) with (sp_write p b) in Hport3.
  cbn [sp_write sp_open sp_tx] in Hport3.
  assert (Hrep : serialPort (wstaReport s3) = serialPort s3).
  { unfold wstaReport. destruct (cmdBufIdx s3 =? -1); [done|].
    by destruct (negb (String.eqb _ _)). }
  eexists _, lo, hi. split; [reflexivity|].
  rewrite Hrep, Hport3. split; [by rewrite <- app_assoc|]. split; [done|].
  unfold wstaReport. rewrite Hidx3, Hbuf3. cbn [Z.eqb].
  by destruct (negb (String.eqb _ _)).
Qed.

(** The server grants the write and reports a checksum error afterwards. *)
Lemma writ_exchange_witness :
  exists s',
    writCmd 1 (session (Some 0) 0 TRACK_LEN_5
                 [Arrive (frame "WRIT" 0 0); Arrive (frame "WSTA" 2 0)]) = Done s'
    /\ messageLabel s' = "Received WSTA CHECKSUM ERROR response"
    /\ length <$> sp_tx (serialPort s') = [10%nat; 2194%nat].
Proof.
  destruct (writ_exchange 1
              (session (Some 0) 0 TRACK_LEN_5
                 [Arrive (frame "WRIT" 0 0); Arrive (frame "WSTA" 2 0)])
              [frame "WRIT" 0 0] [frame "WSTA" 2 0] [])
    as (s' & lo & hi & Hrun & Hport & _ & Hlabel);
    [vm_compute; reflexivity
    |vm_compute; reflexivity
    |vm_compute; reflexivity
    |repeat constructor; discriminate
    |repeat constructor; discriminate
    |vm_compute; reflexivity
    |vm_compute; reflexivity
    |vm_compute; reflexivity
    |vm_compute; reflexivity
    |vm_compute; split; congruence
    |vm_compute; reflexivity
    |vm_compute; congruence
    |vm_compute; congruence
    |cbn [length]; lia
    |cbn [length]; lia
    |].
  - exists s'. split; [exact Hrun|]. split; [rewrite Hlabel; vm_compute; reflexivity|].
    rewrite Hport. vm_compute. reflexivity.
Defined.

(** One iteration of the receive loop of READ in which a chunk arrives
    that fits the buffer. *)
Lemma readStep_arrive (s : FDCDialog ScriptPort) (bs : list Z) (rest : list Event) :
  sp_rx (serialPort s) = [] ->
  sp_line (serialPort s) = Arrive bs :: rest ->
  bs ≠ [] ->
  length (trackBuf s) = Z.to_nat TRACKBUF_LEN_CRC ->
  0 <= trkBufIdx s ->
  trkBufIdx s + Z.of_nat (length bs) <= TRACKBUF_LEN_CRC ->
  readStep s
  = Done (set_trkBufIdx (trkBufIdx s + Z.of_nat (length bs))
            (set_trackBuf (take (Z.to_nat (trkBufIdx s)) (trackBuf s) ++ bs
                             ++ drop (Z.to_nat (trkBufIdx s) + length bs) (trackBuf s))
               (set_serialPort
                  (mkScriptPort (sp_open (serialPort s)) [] rest (sp_tx (serialPort s)))
                  s)),
          trkBufIdx s + Z.of_nat (length bs) <? trackLen s + 2).
Proof.
  intros Hrx Hline Hne Hlen Hidx Hfit. unfold readStep.
  assert (Hcrc : TRACKBUF_LEN_CRC = 4386) by reflexivity.
  change (waitForReadyRead (serialPort s) 100) with (sp_wait (serialPort s) 100).
  unfold sp_wait. rewrite Hline, Hrx. cbn [app].
  unfold readInto.
  change (read ?p ?m) with (sp_read p m). unfold sp_read.
  cbn [sp_rx sp_open sp_line sp_tx].
  destruct (Z.ltb_spec (TRACKBUF_LEN_CRC - trkBufIdx s) 0) as [Hneg|_]; [lia|].
  rewrite take_ge, drop_ge by lia.
  rewrite bool_decide_false by done. cbn [negb].
  destruct bs as [|b bs]; [done|].
  set (chunk := b :: bs) in *.
  rewrite bool_decide_true by (rewrite Hlen; lia).
  change (readCount (Some chunk)) with (Z.of_nat (length chunk)).
  cbn [mbind Run_bind mret Run_ret].
  rewrite sint16_small by lia.
  rewrite list_inserts_middle by lia.
  cbn [trkBufIdx trackLen set_trkBufIdx set_trackBuf set_serialPort].
  by rewrite andb_true_r.
Qed.

(** One iteration on a line that has nothing more to deliver. *)
Lemma readStep_silent (s : FDCDialog ScriptPort) :
  sp_rx (serialPort s) = [] ->
  sp_line (serialPort s) = [] ->
  -32768 <= trkBufIdx s <= TRACKBUF_LEN_CRC ->
  readStep s = Done (s, false).
Proof.
  intros Hrx Hline Hidx. unfold readStep.
  assert (Hcrc : TRACKBUF_LEN_CRC = 4386) by reflexivity.
  change (waitForReadyRead (serialPort s) 100) with (sp_wait (serialPort s) 100).
  unfold sp_wait. rewrite Hline.
  unfold readInto.
  change (read ?p ?m) with (sp_read p m). unfold sp_read.
  destruct (Z.ltb_spec (TRACKBUF_LEN_CRC - trkBufIdx s) 0) as [Hneg|_]; [lia|].
  rewrite Hrx, take_nil, drop_nil.
  cbn [mbind Run_bind mret Run_ret readCount length].
  rewrite Z.add_0_r, sint16_small by lia. rewrite andb_false_r.
  f_equal. f_equal. destruct s as [? ? ? ? ? ? ? ? ? [? ? ? ?] ? ? ?].
  cbn in *. by subst.
Qed.

(** The receive loop on a line that delivers [chunks] and then nothing. *)
Lemma readLoop_chunks (chunks : list (list Z)) :
  forall (fuel : nat) (s : FDCDialog ScriptPort),
    (length chunks < fuel)%nat ->
    Forall (fun bs => bs ≠ []) chunks ->
    sp_rx (serialPort s) = [] ->
    sp_line (serialPort s) = arrivals chunks [] ->
    length (trackBuf s) = Z.to_nat TRACKBUF_LEN_CRC ->
    0 <= trkBufIdx s ->
    trkBufIdx s + Z.of_nat (length (concat chunks)) <= trackLen s + 2 ->
    trackLen s + 2 <= TRACKBUF_LEN_CRC ->
    exists s',
      readLoop fuel s = Done s'
      /\ trkBufIdx s' = trkBufIdx s + Z.of_nat (length (concat chunks))
      /\ trackBuf s'
         = take (Z.to_nat (trkBufIdx s)) (trackBuf s) ++ concat chunks
             ++ drop (Z.to_nat (trkBufIdx s) + length (concat chunks)) (trackBuf s)
      /\ serialPort s'
         = mkScriptPort (sp_open (serialPort s)) [] [] (sp_tx (serialPort s)).
Proof.
  assert (Hcrc : TRACKBUF_LEN_CRC = 4386) by reflexivity.
  induction chunks as [|bs chunks IH];
    intros fuel s Hfuel Hne Hrx Hline Hlen Hidx Htotal Hfit.
  { destruct fuel as [|fuel]; [simpl in Hfuel; lia|].
    cbn [readLoop]. rewrite readStep_silent by (done || lia).
    exists s. split; [done|]. cbn [concat length]. split; [lia|].
    split.
    - rewrite Nat.add_0_r. cbn [app]. by rewrite take_drop.
    - destruct (serialPort s) as [o rx line tx]. cbn in *. by subst. }
  apply Forall_cons in Hne as [Hbs Hne].
  destruct fuel as [|fuel]; [simpl in Hfuel; lia|].
  cbn [concat] in *. rewrite length_app in *.
  assert (Hstep := readStep_arrive s bs (arrivals chunks []) Hrx Hline Hbs Hlen
                     Hidx ltac:(lia)).
  cbn [readLoop]. rewrite Hstep. clear Hstep.
  set (s1 := set_trkBufIdx _ _).
  assert (Hbuf1 : trackBuf s1 = take (Z.to_nat (trkBufIdx s)) (trackBuf s) ++ bs
                    ++ drop (Z.to_nat (trkBufIdx s) + length bs) (trackBuf s))
    by reflexivity.
  assert (Hlen1 : length (trackBuf s1) = Z.to_nat TRACKBUF_LEN_CRC).
  { rewrite Hbuf1, !length_app, length_take, length_drop. lia. }
  assert (Hglue : take (Z.to_nat (trkBufIdx s + Z.of_nat (length bs))) (trackBuf s1)
                  = take (Z.to_nat (trkBufIdx s)) (trackBuf s) ++ bs).
  { rewrite Hbuf1, app_assoc. apply take_app_length'.
    rewrite length_app, length_take. lia. }
  assert (Htail : forall k,
            drop (Z.to_nat (trkBufIdx s + Z.of_nat (length bs)) + k) (trackBuf s1)
            = drop (Z.to_nat (trkBufIdx s) + (length bs + k)) (trackBuf s)).
  { intros k. rewrite Hbuf1, app_assoc.
    rewrite drop_app_ge by (rewrite length_app, length_take; lia).
    rewrite drop_drop. f_equal. rewrite length_app, length_take. lia. }
  destruct (Z.ltb_spec (trkBufIdx s + Z.of_nat (length bs)) (trackLen s + 2))
    as [Hmore|Hdone].
  - destruct (IH fuel s1) as (s' & Hrun & Hidx' & Hbuf' & Hport');
      [simpl in Hfuel; lia|done|done|done|done|cbn; lia|cbn; lia|done|].
    exists s'. split; [done|]. split; [rewrite Hidx'; cbn; lia|].
    split; [|done].
    rewrite Hbuf'. cbn [trkBufIdx s1 set_trkBufIdx].
    rewrite Hglue, Htail. by rewrite <- !app_assoc.
  - assert (Hnil : concat chunks = []).
    { apply length_zero_iff_nil. lia. }
    assert (Hchunks : chunks = []).
    { destruct chunks as [|c chunks]; [done|].
      apply Forall_cons in Hne as [Hc _]. simpl in Hnil.
      by apply app_eq_nil in Hnil as [-> _]. }
    subst chunks. exists s1. split; [done|].
    cbn [concat length]. split; [cbn; lia|]. split; [|done].
    rewrite Hbuf1, app_nil_r, Nat.add_0_r. done.
Qed.

(** A READ answered by a peer that sends at most [trackLen + 2] bytes, in
    non-empty chunks, and then stops.  [readCmd] writes its request once,
    stores the bytes in the order of arrival from [trackBuf[0]] on, leaves
    the rest of the buffer alone, and reports a track when exactly
    [trackLen + 2] bytes came and the count otherwise. *)
Theorem read_exchange (fuel : nat) (s : FDCDialog ScriptPort) (chunks : list (list Z)) :
  sp_open (serialPort s) = true ->
  sp_rx (serialPort s) = [] ->
  sp_line (serialPort s) = arrivals chunks [] ->
  Forall (fun bs => bs ≠ []) chunks ->
  0 <= driveNum s < MAX_DRIVE ->
  length (cmdBuf s) = 10%nat ->
  length (trackBuf s) = Z.to_nat TRACKBUF_LEN_CRC ->
  Z.of_nat (length (concat chunks)) <= trackLen s + 2 ->
  trackLen s + 2 <= TRACKBUF_LEN_CRC ->
  (length chunks < fuel)%nat ->
  let n := Z.of_nat (length (concat chunks)) in
  exists s',
    readCmd fuel s = Done s'
    /\ trkBufIdx s' = n
    /\ trackBuf s' = concat chunks ++ drop (length (concat chunks)) (trackBuf s)
    /\ serialPort s'
       = mkScriptPort true [] [] (sp_tx (serialPort s) ++ [cmdBuf (readRequest s)])
    /\ messageLabel s'
       = (if n =? trackLen s + 2
          then "Received " +:+ dec (trackLen s) +:+ " byte track"
          else "Received " +:+ dec n +:+ " of " +:+ dec (trackLen s + 2) +:+ " bytes").
Proof.
  intros Hopen Hrx Hline Hne Hdrive Hlen Htrk Htotal Hfit Hfuel n.
  unfold readCmd. change (isOpen (serialPort s)) with (sp_open (serialPort s)).
  rewrite Hopen. cbn [negb].
  replace (invalidDrive s) with false
    by (unfold invalidDrive, MAX_DRIVE in *; lia).
  set (s0 := set_trkBufIdx 0 (readRequest s)).
  assert (Hport0 : serialPort s0 = sp_write (serialPort s) (cmdBuf (readRequest s))).
  { unfold s0, readRequest. cbn [serialPort set_trkBufIdx]. by rewrite trackRequest_port. }
  destruct (readLoop_chunks chunks fuel s0) as (s1 & Hrun & Hidx & Hbuf & Hport);
    [done|done|by rewrite Hport0|by rewrite Hport0|done|cbn; lia|cbn; lia|done|].
  rewrite Hrun. cbn [mbind Run_bind mret Run_ret].
  pose proof (readLoop_frame _ _ _ Hrun) as (Hdts & _ & _).
  assert (Hlen1 : trackLen s1 = trackLen s).
  { unfold driveTrackState in Hdts. injection Hdts as _ _ _ Hl _. exact Hl. }
  change (trkBufIdx s0) with 0 in Hidx, Hbuf.
  change (trackBuf s0) with (trackBuf s) in Hbuf.
  cbn [Z.to_nat take app Nat.add] in Hbuf. rewrite Z.add_0_l in Hidx.
  rewrite Hport0 in Hport. cbn [sp_write sp_open sp_tx] in Hport.
  rewrite Hopen in Hport.
  assert (Hrep : trkBufIdx (readReport s1) = trkBufIdx s1
                 /\ trackBuf (readReport s1) = trackBuf s1
                 /\ serialPort (readReport s1) = serialPort s1).
  { unfold readReport. destruct (trkBufIdx s1 =? trackLen s1 + 2); [done|].
    by destruct (trkBufIdx s1 =? -1). }
  destruct Hrep as (Hi & Hb & Hp).
  eexists. split; [reflexivity|].
  rewrite Hi, Hb, Hp, Hidx, Hbuf, Hport. repeat (split; [done|]).
  unfold readReport. rewrite Hidx, Hlen1. fold n.
  destruct (n =? trackLen s + 2); [done|].
  replace (n =? -1) with false by (symmetry; apply Z.eqb_neq; lia). done.
Qed.

(** A minidisk track arrives in two chunks; then only 100 bytes arrive. *)
Lemma read_exchange_witness :
  shown (readCmd 3 (session (Some 1) 2 TRACK_LEN_5
                      [Arrive (replicate 2000 7); Arrive (replicate 194 8)]))
  = Some "Received 2192 byte track"
  /\ shown (readCmd 3 (session (Some 1) 2 TRACK_LEN_5 [Arrive (replicate 100 7)]))
     = Some "Received 100 of 2194 bytes".
Proof.
  split.
  - destruct (read_exchange 3
                (session (Some 1) 2 TRACK_LEN_5
                   [Arrive (replicate 2000 7); Arrive (replicate 194 8)])
                [replicate 2000 7; replicate 194 8])
      as (s' & Hrun & _ & _ & _ & Hlabel);
      [vm_compute; reflexivity
      |vm_compute; reflexivity
      |vm_compute; reflexivity
      |repeat constructor; discriminate
      |vm_compute; split; congruence
      |vm_compute; reflexivity
      |vm_compute; reflexivity
      |vm_compute; congruence
      |vm_compute; congruence
      |cbn [length]; lia
      |].
    unfold shown. rewrite Hrun. cbn [result fmap option_fmap option_map].
    rewrite Hlabel. vm_compute. reflexivity.
  - destruct (read_exchange 3
                (session (Some 1) 2 TRACK_LEN_5 [Arrive (replicate 100 7)])
                [replicate 100 7])
      as (s' & Hrun & _ & _ & _ & Hlabel);
      [vm_compute; reflexivity
      |vm_compute; reflexivity
      |vm_compute; reflexivity
      |repeat constructor; discriminate
      |vm_compute; split; congruence
      |vm_compute; reflexivity
      |vm_compute; reflexivity
      |vm_compute; congruence
      |vm_compute; congruence
      |cbn [length]; lia
      |].
    unfold shown. rewrite Hrun. cbn [result fmap option_fmap option_map].
    rewrite Hlabel. vm_compute. reflexivity.
Defined.

(** On the scripted line [readCmd] always returns, whatever the peer sends
    and whenever it stops: one iteration of the receive loop for each
    event of the line and one more are enough. *)
Theorem readCmd_always_returns (s : FDCDialog ScriptPort) :
  length (trackBuf s) = Z.to_nat TRACKBUF_LEN_CRC ->
  exists s', readCmd (S (length (sp_line (serialPort s)))) s = Done s'.
Proof.
  intros Hlen. unfold readCmd.
  destruct (negb (isOpen (serialPort s))); [by eexists|].
  destruct (invalidDrive s); [by eexists|].
  destruct (readLoop_ends (set_trkBufIdx 0 (readRequest s))) as (s1 & Hrun);
    [done|cbn; vm_compute; split; congruence|].
  change (sp_line (serialPort (set_trkBufIdx 0 (readRequest s))))
    with (sp_line (serialPort s)) in Hrun.
  rewrite Hrun. by eexists.
Qed.

Lemma readCmd_always_returns_witness :
  exists s',
    readCmd 4 (session (Some 0) 0 TRACK_LEN_8
                 [Arrive [1; 2; 3]; Silence; Arrive [4]]) = Done s'.
Proof.
  apply (readCmd_always_returns
           (session (Some 0) 0 TRACK_LEN_8 [Arrive [1; 2; 3]; Silence; Arrive [4]])).
  vm_compute. reflexivity.
Defined.

(** ** A failed read in the receive loop of READ *)

(** [readCmd] tests for a failed read only after the loop.  If the first
    [read] fails although data was announced, the index becomes -1 and the
    loop goes on; when the next [read] then returns data, it is stored
    from [trackBuf[-1]] on, before the start of the buffer. *)
Theorem read_failure_then_data_leaves_buffer {P : Type} `{Transport P}
    (fuel : nat) (s : FDCDialog P) (p1 p2 p3 p4 : P) (avail : bool)
    (b : Z) (bs : list Z) :
  trkBufIdx s = 0 ->
  0 <= trackLen s ->
  waitForReadyRead (serialPort s) 100 = (true, p1) ->
  read p1 (TRACKBUF_LEN_CRC - 0) = (None, p2) ->
  waitForReadyRead p2 100 = (avail, p3) ->
  read p3 (TRACKBUF_LEN_CRC - -1) = (Some (b :: bs), p4) ->
  readLoop (S (S fuel)) s = OutOfBounds.
Proof.
  intros Hidx Hlen Hw1 Hr1 Hw2 Hr2.
  change (readLoop (S (S fuel)) s)
    with (match readStep s with
          | Done (s', again) => if again then readLoop (S fuel) s' else Done s'
          | OutOfFuel => OutOfFuel
          | OutOfBounds => OutOfBounds
          end).
  unfold readStep at 1. rewrite Hw1. unfold readInto. rewrite Hidx, Hr1.
  cbn [mbind Run_bind mret Run_ret readCount].
  change (sint16 (0 + -1)) with (-1).
  cbn [trkBufIdx trackLen set_trkBufIdx set_trackBuf set_serialPort].
  replace (-1 <? trackLen s + 2) with true by (symmetry; apply Z.ltb_lt; lia).
  cbn [andb readLoop]. unfold readStep.
  cbn [serialPort trkBufIdx trackBuf set_trkBufIdx set_trackBuf set_serialPort].
  rewrite Hw2. unfold readInto. rewrite Hr2.
  rewrite bool_decide_false by lia. reflexivity.
Qed.

Lemma read_failure_then_data_leaves_buffer_witness :
  readCmd 2 (driveNumEditSlot (Some 0) (newDialog (mkReplayPort [None; Some [1]])))
  = OutOfBounds.
Proof.
  set (s := driveNumEditSlot (Some 0) (newDialog (mkReplayPort [None; Some [1]]))).
  change (readCmd 2 s) with
    (s' ← readLoop 2 (set_trkBufIdx 0 (readRequest s)); mret (readReport s')).
  rewrite (read_failure_then_data_leaves_buffer 0 (set_trkBufIdx 0 (readRequest s))
             (mkReplayPort [None; Some [1]]) (mkReplayPort [Some [1]])
             (mkReplayPort [Some [1]]) (mkReplayPort []) true 1 []);
    [reflexivity|reflexivity|vm_compute; congruence|reflexivity..].
Defined.

(** ** The track count of the geometry is never consulted *)

Section TrackMax.
Context {P : Type} `{Transport P}.
Implicit Types s : FDCDialog P.

Lemma waitLoop_trackMax (m : Z) (fuel : nat) s :
  waitLoop fuel (set_geometry (trackLen s) m s) = (s' ← waitLoop fuel s; mret (set_geometry (trackLen s') m s')).
Proof.
  revert s. induction fuel as [|fuel IH]; intros s; [reflexivity|].
  cbn [waitLoop].
  assert (Hstep : waitStep (set_geometry (trackLen s) m s)
                  = ('(s', again) ← waitStep s; mret (set_geometry (trackLen s') m s', again))).
  { unfold waitStep. cbn [serialPort cmdBuf cmdBufIdx set_geometry].
    destruct (waitForReadyRead (serialPort s) 500) as [avail p1].
    by destruct (readInto _ _ _ _) as [[[n buf] p2]| |]. }
  rewrite Hstep. destruct (waitStep s) as [[s1 again]| |]; [|done..].
  cbn [mbind Run_bind mret Run_ret]. destruct again; [apply IH|done].
Qed.

Lemma readLoop_trackMax (m : Z) (fuel : nat) s :
  readLoop fuel (set_geometry (trackLen s) m s) = (s' ← readLoop fuel s; mret (set_geometry (trackLen s') m s')).
Proof.
  revert s. induction fuel as [|fuel IH]; intros s; [reflexivity|].
  cbn [readLoop].
  assert (Hstep : readStep (set_geometry (trackLen s) m s)
                  = ('(s', again) ← readStep s; mret (set_geometry (trackLen s') m s', again))).
  { unfold readStep. cbn [serialPort trackBuf trkBufIdx trackLen set_geometry].
    destruct (waitForReadyRead (serialPort s) 100) as [avail p1].
    by destruct (readInto _ _ _ _) as [[[n buf] p2]| |]. }
  rewrite Hstep. destruct (readStep s) as [[s1 again]| |]; [|done..].
  cbn [mbind Run_bind mret Run_ret]. destruct again; [apply IH|done].
Qed.

(** [trackMax] is assigned by the constructor and by [diskSlot] and read
    by nothing: run from members that differ only in [trackMax], each
    transaction does the same and ends with members that differ only in
    [trackMax].  No track number is ever refused for being beyond the last
    track of the disk. *)
Theorem trackMax_never_consulted (fuel : nat) (m : Z) s :
  statCmd fuel (set_geometry (trackLen s) m s) = (s' ← statCmd fuel s; mret (set_geometry (trackLen s') m s'))
  /\ readCmd fuel (set_geometry (trackLen s) m s) = (s' ← readCmd fuel s; mret (set_geometry (trackLen s') m s'))
  /\ writCmd fuel (set_geometry (trackLen s) m s) = (s' ← writCmd fuel s; mret (set_geometry (trackLen s') m s')).
Proof.
  split; [|split].
  - unfold statCmd. cbn [serialPort set_geometry].
    destruct (isOpen (serialPort s)); [|reflexivity]. cbn [negb].
    unfold waitResponse.
    change (set_cmdBufIdx 0 (statRequest (set_geometry (trackLen s) m s)))
      with (set_geometry (trackLen (set_cmdBufIdx 0 (statRequest s))) m (set_cmdBufIdx 0 (statRequest s))).
    rewrite waitLoop_trackMax.
    destruct (waitLoop _ _) as [s1| |]; [|done..].
    cbn [mbind Run_bind mret Run_ret]. f_equal.
    unfold statReport. cbn [cmdBufIdx cmdBuf statAutoCheck set_geometry].
    destruct (cmdBufIdx s1 =? -1); [done|].
    destruct (negb (String.eqb _ _)); [done|]. by destruct (negb (statAutoCheck s1)).
  - unfold readCmd. cbn [serialPort set_geometry].
    destruct (isOpen (serialPort s)); [|reflexivity]. cbn [negb].
    change (invalidDrive (set_geometry (trackLen s) m s)) with (invalidDrive s).
    destruct (invalidDrive s); [reflexivity|].
    change (set_trkBufIdx 0 (readRequest (set_geometry (trackLen s) m s)))
      with (set_geometry (trackLen (set_trkBufIdx 0 (readRequest s))) m (set_trkBufIdx 0 (readRequest s))).
    rewrite readLoop_trackMax.
    destruct (readLoop _ _) as [s1| |]; [|done..].
    cbn [mbind Run_bind mret Run_ret]. f_equal.
    unfold readReport. cbn [trkBufIdx trackLen set_geometry].
    destruct (trkBufIdx s1 =? trackLen s1 + 2); [done|].
    by destruct (trkBufIdx s1 =? -1).
  - unfold writCmd. cbn [serialPort set_geometry].
    destruct (isOpen (serialPort s)); [|reflexivity]. cbn [negb].
    change (invalidDrive (set_geometry (trackLen s) m s)) with (invalidDrive s).
    destruct (invalidDrive s); [reflexivity|].
    unfold waitResponse.
    change (set_cmdBufIdx 0 (writRequest (set_geometry (trackLen s) m s)))
      with (set_geometry (trackLen (set_cmdBufIdx 0 (writRequest s))) m (set_cmdBufIdx 0 (writRequest s))).
    rewrite waitLoop_trackMax.
    destruct (waitLoop _ _) as [s1| |]; [|done..].
    cbn [mbind Run_bind mret Run_ret].
    unfold writPhase2. cbn [cmdBufIdx cmdBuf set_geometry].
    destruct (cmdBufIdx s1 =? -1); [done|].
    destruct (negb (String.eqb _ _)); [done|].
    destruct (rcode (cmdBuf s1) =? STAT_OK); [|done].
    assert (Hsend : sendTrack (set_geometry (trackLen s1) m s1)
                    = (s2 ← sendTrack s1; mret (set_geometry (trackLen s2) m s2))).
    { unfold sendTrack. cbn [trackBuf trackLen serialPort set_geometry].
      destruct (store (trackBuf s1) _ _) as [buf| |]; [|done..].
      cbn [mbind Run_bind]. by destruct (store buf _ _). }
    rewrite Hsend. destruct (sendTrack s1) as [s2| |]; [|done..].
    cbn [mbind Run_bind mret Run_ret]. unfold waitResponse.
    change (set_cmdBufIdx 0 (set_geometry (trackLen s2) m s2)) with (set_geometry (trackLen (set_cmdBufIdx 0 s2)) m (set_cmdBufIdx 0 s2)).
    rewrite waitLoop_trackMax.
    destruct (waitLoop _ _) as [s3| |]; [|done..].
    cbn [mbind Run_bind mret Run_ret]. f_equal.
    unfold wstaReport. cbn [cmdBufIdx cmdBuf set_geometry].
    destruct (cmdBufIdx s3 =? -1); [done|]. by destruct (negb (String.eqb _ _)).
Qed.

End TrackMax.

(** ** The STAT request in the states the program reaches *)

Section Reachable.
Context {P : Type} `{Transport P}.
Implicit Types s : FDCDialog P.

Lemma waitLoop_length (fuel : nat) s s' :
  waitLoop fuel s = Done s' -> length (cmdBuf s') = length (cmdBuf s).
Proof.
  revert s. induction fuel as [|fuel IH]; intros s; simpl; [done|].
  destruct (waitStep s) as [[s1 again]| |] eqn:Hstep; [|done..].
  assert (Hone : length (cmdBuf s1) = length (cmdBuf s)).
  { revert Hstep. unfold waitStep.
    destruct (waitForReadyRead (serialPort s) 500) as [avail p1].
    unfold readInto. destruct (read p1 _) as [[[|b bs]|] p2]; simpl;
      try (intros [= <- _]; done).
    case_bool_decide; [|done]. simpl. intros [= <- _]. simpl.
    by rewrite length_insert, length_inserts. }
  destruct again.
  - intros Hloop. apply IH in Hloop. congruence.
  - intros [= <-]. done.
Qed.

Lemma statCmd_keeps (fuel : nat) s s' :
  statCmd fuel s = Done s' ->
  driveTrackState s' = driveTrackState s /\ length (cmdBuf s') = length (cmdBuf s).
Proof.
  unfold statCmd. destruct (isOpen (serialPort s)); simpl; [|by intros [= <-]].
  unfold waitResponse.
  destruct (waitLoop _ _) as [s2| |] eqn:Hloop; simpl; [|done..].
  intros [= <-].
  pose proof (waitLoop_frame _ _ _ Hloop) as (Hdts & _).
  pose proof (waitLoop_length _ _ _ Hloop) as Hlen.
  destruct (statReport_frame s2) as [-> ->]. rewrite Hdts, Hlen. simpl.
  split; [done|]. apply length_statRequest.
Qed.

Lemma readCmd_keeps (fuel : nat) s s' :
  readCmd fuel s = Done s' ->
  driveTrackState s' = driveTrackState s /\ length (cmdBuf s') = length (cmdBuf s).
Proof.
  unfold readCmd. destruct (isOpen (serialPort s)); simpl; [|by intros [= <-]].
  destruct (invalidDrive s); simpl; [by intros [= <-]|].
  destruct (readLoop _ _) as [s2| |] eqn:Hloop; simpl; [|done..].
  intros [= <-].
  pose proof (readLoop_frame _ _ _ Hloop) as (Hdts & Hcmd & _).
  assert (Hrep : driveTrackState (readReport s2) = driveTrackState s2
                 /\ cmdBuf (readReport s2) = cmdBuf s2).
  { unfold readReport. destruct (trkBufIdx s2 =? trackLen s2 + 2); [done|].
    by destruct (trkBufIdx s2 =? -1). }
  destruct Hrep as [-> ->]. rewrite Hdts, Hcmd. simpl.
  split; [done|]. apply length_trackRequest.
Qed.

Lemma writCmd_keeps (fuel : nat) s s' :
  writCmd fuel s = Done s' ->
  driveTrackState s' = driveTrackState s /\ length (cmdBuf s') = length (cmdBuf s).
Proof.
  unfold writCmd. destruct (isOpen (serialPort s)); simpl; [|by intros [= <-]].
  destruct (invalidDrive s); simpl; [by intros [= <-]|].
  unfold waitResponse at 1.
  destruct (waitLoop _ _) as [s1| |] eqn:Hloop1; simpl; [|done..].
  pose proof (waitLoop_frame _ _ _ Hloop1) as (Hdts1 & _).
  pose proof (waitLoop_length _ _ _ Hloop1) as Hlen1.
  change (driveTrackState s1 = driveTrackState s) in Hdts1.
  change (length (cmdBuf s1) = length (cmdBuf (trackRequest "WRIT" s))) in Hlen1.
  rewrite length_trackRequest in Hlen1.
  unfold writPhase2.
  destruct (cmdBufIdx s1 =? -1); [intros [= <-]; done|].
  destruct (negb (String.eqb _ _)); [intros [= <-]; done|].
  destruct (rcode (cmdBuf s1) =? STAT_OK); [|intros [= <-]; done].
  unfold sendTrack.
  destruct (store (trackBuf s1) _ _) as [buf| |]; simpl; [|done..].
  destruct (store buf _ _) as [buf'| |]; simpl; [|done..].
  unfold waitResponse.
  match goal with
  | |- context [waitLoop fuel ?x] =>
      destruct (waitLoop fuel x) as [s3| |] eqn:Hloop3; simpl; [|done..]
  end.
  pose proof (waitLoop_frame _ _ _ Hloop3) as (Hdts3 & _).
  pose proof (waitLoop_length _ _ _ Hloop3) as Hlen3.
  change (driveTrackState s3 = driveTrackState s1) in Hdts3.
  change (length (cmdBuf s3) = length (cmdBuf s1)) in Hlen3.
  intros [= <-].
  assert (Hrep : driveTrackState (wstaReport s3) = driveTrackState s3
                 /\ cmdBuf (wstaReport s3) = cmdBuf s3).
  { unfold wstaReport. destruct (cmdBufIdx s3 =? -1); [done|].
    by destruct (negb (String.eqb _ _)). }
  destruct Hrep as [-> ->]. split; congruence.
Qed.

(** What holds of the members in every state the program reaches: no head
    is loaded, the drive number is a byte, and [cmdBuf] has its ten
    bytes. *)
Lemma reachable_members s :
  reachable s ->
  headStatus s = [0; 0; 0; 0]
  /\ 0 <= driveNum s < 256
  /\ length (cmdBuf s) = 10%nat.
Proof.
  assert (Hkeep : forall s s' : FDCDialog P,
            driveTrackState s' = driveTrackState s ->
            length (cmdBuf s') = length (cmdBuf s) ->
            headStatus s = [0; 0; 0; 0] /\ 0 <= driveNum s < 256
              /\ length (cmdBuf s) = 10%nat ->
            headStatus s' = [0; 0; 0; 0] /\ 0 <= driveNum s' < 256
              /\ length (cmdBuf s') = 10%nat).
  { intros s0 s1 Hdts Hlen (Hh & Hd & Hl). unfold driveTrackState in Hdts.
    injection Hdts as Hd' Hh' _ _ _. rewrite Hd', Hh', Hlen. done. }
  induction 1 as [port|s port _ IH|s checked _ IH|s text _ IH|s t _ IH
                  |s item _ IH|s fuel s' _ IH Hrun|s fuel s' _ IH Hrun
                  |s fuel s' _ IH Hrun|s fuel s' _ IH Hrun]; try exact IH.
  - cbn. repeat split; lia.
  - destruct IH as (Hh & Hd & Hl). destruct text as [d|]; cbn; [|done].
    split; [done|]. split; [apply wrap8_range|done].
  - unfold diskSlot. by destruct (wrap16 item =? TRACK_LEN_8).
  - unfold timerSlot in Hrun.
    destruct (negb (isOpen (serialPort s))); [by injection Hrun as <-|].
    destruct (statAutoCheck s); [|by injection Hrun as <-].
    apply statCmd_keeps in Hrun as [Hdts Hlen]. by apply (Hkeep s s').
  - apply statCmd_keeps in Hrun as [Hdts Hlen]. by apply (Hkeep s s').
  - apply readCmd_keeps in Hrun as [Hdts Hlen]. by apply (Hkeep s s').
  - apply writCmd_keeps in Hrun as [Hdts Hlen]. by apply (Hkeep s s').
Qed.


End Reachable.


(** ** What STAT and READ leave of the session parameters *)

Section SessionParameters.
Context {P : Type} `{Transport P}.
Implicit Types s : FDCDialog P.

Lemma readLoopHead_frame s0 s :
  readLoopHead s0 s -> driveTrackState s = driveTrackState s0.
Proof.
  induction 1 as [|s s' _ IH Hstep]; [done|].
  apply readStep_frame in Hstep as (-> & _). exact IH.
Qed.

(** C9 (as the code has it).  Started with the declared buffers:

    - over a port whose [read] fails or returns at most what it was asked
      for, [statCmd] stores nothing outside [cmdBuf] and leaves the
      selected drive, the head-load flags, the track number and the
      geometry exactly as it found them; what it keeps of the server's
      mount bitmap is the response frame in [cmdBuf] and, when the check
      box is off, the text "Received 'STAT' response 0x...." in the
      message label;
    - over a port none of whose reads fails, [readCmd] stores nothing
      outside [trackBuf] and leaves the same parameters as it found them,
      at the head of every iteration of its receive loop and when it
      returns; the track it asks for is the current [trackNum], which it
      does not change.

    (After a failed read the receive loop of [readCmd] goes on with
    [trkBufIdx = -1]: the condition on the port cannot be dropped.) *)
Theorem stat_read_keep_drive_track_state (fuel : nat) s :
  length (cmdBuf s) = 10%nat ->
  length (trackBuf s) = Z.to_nat TRACKBUF_LEN_CRC ->
  (readAtMostRequest ->
     statCmd fuel s ≠ OutOfBounds
     /\ forall s', statCmd fuel s = Done s' ->
          driveTrackState s' = driveTrackState s
          /\ (isOpen (serialPort s) = true ->
              cmdBufIdx s' ≠ -1 ->
              commandText (cmdBuf s') = "STAT" ->
              statAutoCheck s = false ->
              messageLabel s'
              = "Received 'STAT' response 0x" +:+ hex4 (rdata (cmdBuf s'))))
  /\ (readWithinRequest ->
        readCmd fuel s ≠ OutOfBounds
        /\ param1 (cmdBuf (readRequest s))
           = wrap16 (Z.lor (trackNum s) (Z.shiftl (driveNum s) 12))
        /\ (forall s1, readLoopHead (set_trkBufIdx 0 (readRequest s)) s1 ->
              driveTrackState s1 = driveTrackState s)
        /\ forall s', readCmd fuel s = Done s' ->
             driveTrackState s' = driveTrackState s).
Proof.
  intros Hcmd Htrk. split.
  - intros Hlaw. unfold statCmd.
    destruct (isOpen (serialPort s)) eqn:Hopen; simpl.
    2:{ split; [done|]. intros s' [= <-]. split; [done|]. intros Habs. done. }
    unfold waitResponse.
    destruct (waitLoop_within_buffer fuel (set_cmdBufIdx 0 (statRequest s)) Hlaw)
      as [Hin _].
    { change (length (cmdBuf (statRequest s)) = 10%nat).
      by rewrite length_statRequest. }
    { simpl. lia. }
    destruct (waitLoop _ _) as [s2| |] eqn:Hloop; simpl; [|done..].
    split; [done|]. intros s' [= <-].
    apply waitLoop_frame in Hloop as (Hdts & Hauto & _).
    split.
    { destruct (statReport_frame s2) as [-> _]. rewrite Hdts. done. }
    intros _. change (statAutoCheck s2 = statAutoCheck s) in Hauto.
    unfold statReport.
    destruct (Z.eqb_spec (cmdBufIdx s2) (-1)) as [Heq|Hne].
    { simpl. intros Hidx. done. }
    destruct (String.eqb_spec (commandText (cmdBuf s2)) "STAT") as [Heq|Hne'].
    2:{ simpl. intros _ Htag. done. }
    simpl. intros _ _ Hoff. rewrite Hauto, Hoff. simpl. done.
  - intros Hlaw. split; [|split; [|split]].
    + unfold readCmd. destruct (isOpen (serialPort s)); simpl; [|done].
      destruct (invalidDrive s); simpl; [done|].
      pose proof (readLoop_stays_in_bounds fuel (set_trkBufIdx 0 (readRequest s))
                    Hlaw Htrk) as Hin.
      destruct (readLoop _ _) as [s2| |]; simpl; [done|done|].
      exfalso. apply Hin; [|done].
      assert (Hcrc : TRACKBUF_LEN_CRC = 4386) by reflexivity.
      change (0 <= 0 <= TRACKBUF_LEN_CRC). lia.
    + by apply trackRequest_words.
    + intros s1 Hhead. by apply readLoopHead_frame in Hhead as ->.
    + unfold readCmd. intros s'.
      destruct (isOpen (serialPort s)); simpl; [|by intros [= <-]].
      destruct (invalidDrive s); simpl; [by intros [= <-]|].
      destruct (readLoop _ _) as [s2| |] eqn:Hloop; simpl; [|done..].
      intros [= <-]. apply readLoop_frame in Hloop as (Hdts & _).
      destruct (readReport_frame s2) as [-> _]. rewrite Hdts. done.
Qed.

End SessionParameters.

(** Drive 2, track 7, minidisk; the server reports drives 0 and 2 mounted,
    then a READ is answered with a whole track. *)
Lemma stat_read_keep_drive_track_state_witness :
  let s := session (Some 2) 7 TRACK_LEN_5 [Arrive (frame "STAT" 0 5)] in
  let r := session (Some 2) 7 TRACK_LEN_5 [Arrive (replicate 2194 0)] in
  length (cmdBuf s) = 10%nat
  /\ length (trackBuf s) = Z.to_nat TRACKBUF_LEN_CRC
  /\ (exists s',
        statCmd 2 s = Done s'
        /\ driveTrackState s' = (2, [0; 0; 0; 0], 7, 2192, 35)
        /\ messageLabel s' = "Received 'STAT' response 0x0005")
  /\ (exists r',
        readCmd 2 r = Done r'
        /\ driveTrackState r' = (2, [0; 0; 0; 0], 7, 2192, 35)).
Proof.
  intros s r.
  assert (Hcmd : length (cmdBuf s) = 10%nat) by reflexivity.
  assert (Htrk : length (trackBuf s) = Z.to_nat TRACKBUF_LEN_CRC)
    by (vm_compute; reflexivity).
  split; [exact Hcmd|]. split; [exact Htrk|].
  set (s' := default s (result (statCmd 2 s))).
  assert (Hrun : statCmd 2 s = Done s') by (vm_compute; reflexivity).
  destruct (stat_read_keep_drive_track_state 2 s Hcmd Htrk) as [Hstat _].
  destruct (Hstat ScriptPort_readAtMostRequest) as [_ Hdone].
  destruct (Hdone s' Hrun) as [Hdts Hshown].
  split.
  - exists s'. split; [exact Hrun|]. split; [rewrite Hdts; reflexivity|].
    rewrite Hshown; [vm_compute; reflexivity|reflexivity| |reflexivity|reflexivity].
    vm_compute. congruence.
  - set (r' := default r (result (readCmd 2 r))).
    assert (Hread : readCmd 2 r = Done r') by (vm_compute; reflexivity).
    assert (Hrcmd : length (cmdBuf r) = 10%nat) by reflexivity.
    assert (Hrtrk : length (trackBuf r) = Z.to_nat TRACKBUF_LEN_CRC)
      by (vm_compute; reflexivity).
    destruct (stat_read_keep_drive_track_state 2 r Hrcmd Hrtrk) as [_ Hrd].
    destruct (Hrd ScriptPort_readWithinRequest) as (_ & _ & _ & Hkeep).
    exists r'. split; [exact Hread|]. rewrite (Hkeep r' Hread). reflexivity.
Defined.

(** ** The tag text of a response with bytes above 0x7F *)

Lemma cstring_cons (b : Z) (bs : list Z) :
  b ≠ 0 -> cstring (b :: bs) = b :: cstring bs.
Proof. intros Hb. cbn [cstring]. by destruct (Z.eqb_spec b 0). Qed.

(** A response that starts with the byte-order mark EF BB BF followed by
    four seven-bit bytes has those four bytes as its tag text: the mark is
    dropped when the bytes are decoded, so the tag test looks at bytes 3
    to 6 of the frame, while the code and the data are still read from
    bytes 4 to 7. *)
Theorem tag_after_byte_order_mark (t0 t1 t2 t3 : Z) (rest : list Z) :
  0 < t0 < 0x80 -> 0 < t1 < 0x80 -> 0 < t2 < 0x80 -> 0 < t3 < 0x80 ->
  let buf := 0xEF :: 0xBB :: 0xBF :: t0 :: t1 :: t2 :: t3 :: rest in
  commandText buf = text_of_bytes [t0; t1; t2; t3]
  /\ rcode buf = t1 + 256 * t2
  /\ rdata buf = t3 + 256 * rest !!! 0%nat.
Proof.
  intros H0 H1 H2 H3 buf. split; [|split; reflexivity].
  unfold commandText, buf.
  rewrite !cstring_cons by lia.
  change (skipBom (239 :: 187 :: 191 :: t0 :: t1 :: t2 :: t3 :: cstring rest))
    with (t0 :: t1 :: t2 :: t3 :: cstring rest).
  apply (decode_7bit 4). cbn [take].
  repeat (constructor; [lia|]). constructor.
Qed.

(** The server answers WRIT with EF BB BF 'W' 'R' 'I' 'T' 0 0 0: the tag
    test passes, the code is read as 0x4952, and the refusal is reported
    with no track sent. *)
Lemma tag_after_byte_order_mark_witness :
  let answer := [0xEF; 0xBB; 0xBF; 0x57; 0x52; 0x49; 0x54; 0; 0; 0] in
  let s := session (Some 0) 0 TRACK_LEN_8 [Arrive answer] in
  commandText answer = "WRIT"
  /\ rcode answer = 0x4952
  /\ shown (writCmd 2 s) = Some "Received UNKNOWN WSTA response"
  /\ written (writCmd 2 s) = Some [cmdBuf (writRequest s)].
Proof.
  intros answer s.
  destruct (tag_after_byte_order_mark 0x57 0x52 0x49 0x54 [0; 0; 0])
    as (Htag & Hcode & _); [lia..|].
  split; [exact Htag|]. split; [exact Hcode|].
  split; vm_compute; reflexivity.
Defined.

(** A first tag byte that cannot start a UTF-8 sequence (0x80 to 0xC1, or
    0xF5 to 0xFF) is shown as U+FFFD, whatever the byte was; such a
    response never passes a tag test. *)
Theorem tag_byte_outside_utf8 (b t1 t2 t3 : Z) (rest : list Z) :
  0x80 <= b <= 0xC1 \/ 0xF5 <= b <= 0xFF ->
  0 < t1 < 0x80 -> 0 < t2 < 0x80 -> 0 < t3 < 0x80 ->
  let buf := b :: t1 :: t2 :: t3 :: rest in
  commandText buf = text_of_bytes [0xEF; 0xBF; 0xBD; t1; t2; t3]
  /\ (forall tag, In tag ["STAT"; "WRIT"; "WSTA"]%string ->
        String.eqb (commandText buf) tag = false).
Proof.
  intros Hb H1 H2 H3 buf.
  assert (Htext : commandText buf = text_of_bytes [0xEF; 0xBF; 0xBD; t1; t2; t3]).
  { unfold commandText, buf. rewrite !cstring_cons by lia.
    assert (Hskip : skipBom (b :: t1 :: t2 :: t3 :: cstring rest)
                    = b :: t1 :: t2 :: t3 :: cstring rest).
    { unfold skipBom. by destruct (Z.eqb_spec b 239); [lia|]. }
    rewrite Hskip.
    assert (Hfirst : fromUtf8 (b :: t1 :: t2 :: t3 :: cstring rest)
                     = 0xFFFD :: fromUtf8 (t1 :: t2 :: t3 :: cstring rest)).
    { cbn [fromUtf8].
      destruct (Z.ltb_spec b 128); [lia|].
      destruct (Z.leb_spec b 193); [done|].
      destruct (Z.ltb_spec b 224); [lia|].
      destruct (Z.ltb_spec b 240); [lia|].
      by destruct (Z.ltb_spec b 245); [lia|]. }
    rewrite Hfirst. cbn [take].
    unfold text_of_units. cbn [mbind list_bind].
    fold (@mbind list _ _ _ unit_bytes).
    change (unit_bytes 65533) with [0xEF; 0xBF; 0xBD].
    cbn [app text_of_bytes foldr]. do 3 f_equal.
    apply (decode_7bit 3). cbn [take].
    repeat (constructor; [lia|]). constructor. }
  split; [exact Htext|].
  intros tag Htag. rewrite Htext.
  cbn [In] in Htag. destruct Htag as [<-|[<-|[<-|[]]]]; reflexivity.
Qed.

(** A STAT response whose first byte arrived as 0x80 instead of 'S'. *)
Lemma tag_byte_outside_utf8_witness :
  let answer := [0x80; 0x54; 0x41; 0x54; 0; 0; 5; 0; 0x41; 1] in
  String.eqb (commandText answer) "STAT" = false
  /\ shown (statCmd 2 (session (Some 0) 0 TRACK_LEN_8 [Arrive answer]))
     = Some ("Did not receive 'STAT' response '"
             +:+ text_of_bytes [0xEF; 0xBF; 0xBD; 0x54; 0x41; 0x54] +:+ "'").
Proof.
  intros answer.
  destruct (tag_byte_outside_utf8 0x80 0x54 0x41 0x54 [0; 0; 5; 0; 0x41; 1])
    as (Htext & Hno); [lia..|].
  split; [apply Hno; cbn [In]; auto|].
  vm_compute. reflexivity.
Defined.
